(** * gzip-static-server: request-serving pipeline

    A shallow embedding of the TypeScript sources
    [src/utils/mime.ts], [src/utils/cache.ts], [src/handlers/gzip.ts],
    [src/handlers/static.ts] and [src/server.ts].

    Conventions.
    - JavaScript numbers that hold byte counts and millisecond time stamps
      are integers below 2^53, so they are modelled as [Z] with exact
      arithmetic.
    - A [Buffer] is a list of bytes; a JavaScript string is a [string].
    - A JavaScript [Map] keeps insertion order: it is an association list
      without repeated keys.
    - Code that can throw returns a [completion]; stateful code threads its
      state explicitly or through the monad [M].
    - Everything the sources take from the Node.js runtime or from npm
      packages (message digest, date formatting, gzip, URL parsing, the
      MIME table, ...) is a field of the class [Platform]. *)

From stdpp Require Import gmap strings list.
From Stdlib Require Import ZArith Ascii String DecimalString Lia.
From Stdlib Require DecimalZ DecimalPos.

Local Open Scope string_scope.
Local Open Scope Z_scope.

(* ===================================================================== *)
(** * JavaScript values *)
(* ===================================================================== *)

Definition Buffer : Type := list Byte.byte.

(** [buf.length] *)
Definition buffer_length (b : Buffer) : Z := Z.of_nat (List.length b).

(** Truthiness of a string: only the empty string is falsy. *)
Definition truthy (s : string) : bool :=
  match s with
  | EmptyString => false
  | String _ _ => true
  end.

(** [s.startsWith(p)] *)
Definition startsWith (s p : string) : bool := String.prefix p s.

(** [s.includes(p)] *)
Fixpoint includes (s p : string) : bool :=
  String.prefix p s ||
  match s with
  | EmptyString => false
  | String _ s' => includes s' p
  end.

(** [s.slice(1)] *)
Definition slice1 (s : string) : string :=
  match s with
  | EmptyString => EmptyString
  | String _ s' => s'
  end.

(** [s.split(c)[0]]: the part of [s] before the first [c]. *)
Fixpoint before_char (c : ascii) (s : string) : string :=
  match s with
  | EmptyString => EmptyString
  | String a s' => if Ascii.eqb a c then EmptyString else String a (before_char c s')
  end.

(** [s.split(c)] *)
Fixpoint split_char (c : ascii) (s : string) : list string :=
  match s with
  | EmptyString => [EmptyString]
  | String a s' =>
      if Ascii.eqb a c then EmptyString :: split_char c s'
      else match split_char c s' with
           | [] => [String a EmptyString]
           | w :: ws => String a w :: ws
           end
  end.

(** [parts.join(sep)] *)
Fixpoint join_with (sep : string) (parts : list string) : string :=
  match parts with
  | [] => EmptyString
  | [w] => w
  | w :: ws => w ++ sep ++ join_with sep ws
  end.

(** Template-literal rendering of an integer. *)
Definition number_to_string (n : Z) : string :=
  NilZero.string_of_int (Z.to_int n).

(** The double-quote character, as a one-character string. *)
Definition dquote : string := String (ascii_of_nat 34) EmptyString.

(* ===================================================================== *)
(** * Exceptions and the state monad of a request *)
(* ===================================================================== *)

Inductive Error : Type :=
| ENOENT (path : string)          (* fs: no such file *)
| EISDIR (path : string)          (* fs: read of a directory *)
| ERR_HTTP_HEADERS_SENT           (* http: headers already sent *)
| URIError                        (* decodeURIComponent: malformed input *)
| ERR_INVALID_URL                 (* new URL(...): unparsable *)
| UploadError.                    (* raised inside the upload subsystem *)

(** How a piece of code ends: normally, by throwing, or not at all. *)
Inductive completion (A : Type) : Type :=
| Normal (a : A)
| Thrown (e : Error)
| Diverged.

Arguments Normal {A} a.
Arguments Thrown {A} e.
Arguments Diverged {A}.

Section Monad.
Context {S : Type}.

Definition M (A : Type) : Type := S -> completion A * S.

Definition ret {A} (a : A) : M A := fun s => (Normal a, s).

Definition throw {A} (e : Error) : M A := fun s => (Thrown e, s).

Definition bind {A B} (m : M A) (k : A -> M B) : M B :=
  fun s =>
    match m s with
    | (Normal a, s') => k a s'
    | (Thrown e, s') => (Thrown e, s')
    | (Diverged, s') => (Diverged, s')
    end.

(** [try { m } catch (e) { h e }]; state changes made by [m] before it
    threw are kept. *)
Definition try_catch {A} (m : M A) (h : Error -> M A) : M A :=
  fun s =>
    match m s with
    | (Thrown e, s') => h e s'
    | r => r
    end.

Definition get_state : M S := fun s => (Normal s, s).
Definition put_state (s : S) : M unit := fun _ => (Normal tt, s).
End Monad.

Arguments M : clear implicits.

Notation "'let*' x ':=' m 'in' k" := (bind m (fun x => k))
  (at level 10, x name, m at level 100, k at level 200).
Notation "m '>>' k" := (bind m (fun _ => k))
  (at level 100, k at level 200, right associativity).

(** Run [m] on a component of the state. *)
Definition zoom {S T A} (proj : S -> T) (upd : T -> S -> S) (m : M T A) : M S A :=
  fun s => let (r, t) := m (proj s) in (r, upd t s).

(* ===================================================================== *)
(** * The filesystem *)
(* ===================================================================== *)

(** What [fs.statSync] reports, plus the bytes [fs.readFileSync] returns. *)
Record Node : Type := {
  node_isFile : bool;
  node_size : Z;                  (* stat.size *)
  node_mtime : Z;                 (* stat.mtime.getTime(), milliseconds *)
  node_content : Buffer
}.

(** A snapshot of the filesystem, by path (symbolic links followed). *)
Definition FS : Type := string -> option Node.

(** [fs.statSync(p)]: [None] stands for the thrown ENOENT.  The empty path
    never names a file. *)
Definition statSync (fs : FS) (p : string) : option Node :=
  if truthy p then fs p else None.

(** [fs.readFileSync(p)] *)
Definition readFileSync (fs : FS) (p : string) : completion Buffer :=
  match statSync fs p with
  | None => Thrown (ENOENT p)
  | Some n => if node_isFile n then Normal (node_content n) else Thrown (EISDIR p)
  end.

(** The three moments at which one request touches the disk.  Other
    processes may change the disk in between, and the handler awaits the
    compressor between the read and the cache update. *)
Record Disk : Type := {
  at_stat : FS;                   (* getFileInfo: fs.statSync *)
  at_read : FS;                   (* fs.readFileSync *)
  at_set : FS                     (* MemoryCache.set: fs.statSync *)
}.

Definition steady (fs : FS) : Disk :=
  {| at_stat := fs; at_read := fs; at_set := fs |}.

(* ===================================================================== *)
(** * The runtime and the npm packages the sources call *)
(* ===================================================================== *)

(** An incoming HTTP request ([http.IncomingMessage]).  Node stores the
    header names in lower case. *)
Record IncomingMessage : Type := {
  method : string;                (* req.method *)
  url : string;                   (* req.url *)
  req_headers : gmap string string
}.

(** What is handed to [res.end]. *)
Inductive Payload : Type :=
| Text (s : string)
| Bytes (b : Buffer).

(** An outgoing response ([http.ServerResponse]).  Header names are
    compared as the sources spell them; the sources spell each name one
    way only.  [body] is what was handed to [res.end]; Node keeps it off
    the wire for a HEAD request and for a 304. *)
Record ServerResponse : Type := {
  statusCode : Z;
  headers : gmap string string;
  headersSent : bool;
  finished : bool;
  body : option Payload
}.

Class Platform : Type := {
  (** [crypto.createHash('md5').update(b).digest('hex')] *)
  md5hex : Buffer -> string;
  (** [new Date(ms).toUTCString()], never the empty string *)
  toUTCString : Z -> string;
  toUTCString_truthy : forall ms, truthy (toUTCString ms) = true;
  (** [zlib.gzip(b, { level })]; [None] when the callback gets an error *)
  gzip : Z -> Buffer -> option Buffer;
  (** [lookup] of the package mime-types; [None] for its [false] *)
  mime_lookup : string -> option string;
  (** [decodeURIComponent]; [None] for the thrown URIError *)
  decodeURIComponent : string -> option string;
  (** [url.parse(s, true).pathname]; [None] for [null] *)
  url_parse_pathname : string -> option string;
  (** [new URL(s, base).pathname]; [None] for the thrown TypeError *)
  URL_pathname : string -> string -> option string;
  (** [((1 - c / o) * 100).toFixed(2) + '%'] on doubles, for sizes [c], [o] *)
  ratio_percent : Z -> Z -> string;
  (** [process.cwd()], an absolute path *)
  process_cwd : string;
  (** [UploadHandler.handleUpload] and [UploadHandler.handleFileList] *)
  handleUpload : IncomingMessage -> M ServerResponse unit;
  handleFileList : IncomingMessage -> M ServerResponse unit
}.

(* ===================================================================== *)
(** * POSIX [path] *)
(* ===================================================================== *)

Definition slash : ascii := ascii_of_nat 47.

Definition isAbsolute (p : string) : bool :=
  match p with
  | String c _ => Ascii.eqb c slash
  | EmptyString => false
  end.

Fixpoint endsWithSlash (p : string) : bool :=
  match p with
  | EmptyString => false
  | String c EmptyString => Ascii.eqb c slash
  | String _ p' => endsWithSlash p'
  end.

(** Node's [normalizeString]: resolve [.] and [..] segment by segment.
    [acc] holds the segments kept so far, last one first. *)
Fixpoint normalizeSegments (allowAboveRoot : bool) (acc segs : list string)
  : list string :=
  match segs with
  | [] => rev acc
  | seg :: rest =>
      if String.eqb seg EmptyString || String.eqb seg "." then
        normalizeSegments allowAboveRoot acc rest
      else if String.eqb seg ".." then
        match acc with
        | top :: acc' =>
            if String.eqb top ".." then
              if allowAboveRoot then
                normalizeSegments allowAboveRoot (".." :: acc) rest
              else normalizeSegments allowAboveRoot acc rest
            else normalizeSegments allowAboveRoot acc' rest
        | [] =>
            if allowAboveRoot then normalizeSegments allowAboveRoot [".."] rest
            else normalizeSegments allowAboveRoot [] rest
        end
      else normalizeSegments allowAboveRoot (seg :: acc) rest
  end.

(** [path.normalize(p)] *)
Definition path_normalize (p : string) : string :=
  let segs := normalizeSegments (negb (isAbsolute p)) [] (split_char slash p) in
  match segs with
  | [] => if isAbsolute p then "/" else if endsWithSlash p then "./" else "."
  | _ =>
      let inner := join_with "/" segs in
      let inner := if endsWithSlash p then inner ++ "/" else inner in
      if isAbsolute p then "/" ++ inner else inner
  end.

(** [path.join(a, b)] *)
Definition path_join (a b : string) : string :=
  let joined :=
    if truthy a then (if truthy b then a ++ "/" ++ b else a) else b in
  if truthy joined then path_normalize joined else ".".

(** The segments of [path.resolve(p)] below the filesystem root. *)
Definition resolvedSegments `{Platform} (p : string) : list string :=
  let full := if isAbsolute p then p else process_cwd ++ "/" ++ p in
  normalizeSegments false [] (split_char slash full).

(** [path.resolve(p)] *)
Definition path_resolve `{Platform} (p : string) : string :=
  "/" ++ join_with "/" (resolvedSegments p).

(** Drop the longest common prefix of two segment lists. *)
Fixpoint dropCommon (from to : list string) : list string * list string :=
  match from, to with
  | a :: from', b :: to' =>
      if String.eqb a b then dropCommon from' to' else (from, to)
  | _, _ => (from, to)
  end.

(** [path.relative(from, to)] *)
Definition path_relative `{Platform} (from to : string) : string :=
  let (up, down) := dropCommon (resolvedSegments from) (resolvedSegments to) in
  join_with "/" (List.map (fun _ => "..") up ++ down).

(** [a] is an initial part of [b]. *)
Fixpoint segmentsPrefix (a b : list string) : bool :=
  match a, b with
  | [], _ => true
  | x :: a', y :: b' => String.eqb x y && segmentsPrefix a' b'
  | _ :: _, [] => false
  end.

(** The path [p], once resolved, lies in the directory [root] or below. *)
Definition containedIn `{Platform} (root p : string) : bool :=
  segmentsPrefix (resolvedSegments root) (resolvedSegments p).

(* ===================================================================== *)
(** * src/utils/mime.ts *)
(* ===================================================================== *)

Module Mime.

Definition getMimeType `{Platform} (filePath : string) : string :=
  match mime_lookup filePath with
  | Some mimeType => if truthy mimeType then mimeType else "application/octet-stream"
  | None => "application/octet-stream"
  end.

Definition compressibleTypes : list string :=
  [ "text/"; "application/javascript"; "application/json"; "application/xml";
    "application/x-javascript"; "application/xhtml+xml"; "image/svg+xml";
    "application/wasm" ].

Definition nonCompressibleTypes : list string :=
  [ "image/"; "video/"; "audio/"; "application/pdf"; "application/zip";
    "application/gzip"; "application/x-gzip" ].

Definition shouldCompress (mimeType : string) : bool :=
  if existsb (startsWith mimeType) nonCompressibleTypes then false
  else if existsb (startsWith mimeType) compressibleTypes then true
  else false.

Definition isTextFile (mimeType : string) : bool :=
  startsWith mimeType "text/" ||
  includes mimeType "javascript" ||
  includes mimeType "json" ||
  includes mimeType "xml" ||
  includes mimeType "html" ||
  includes mimeType "css".

End Mime.

(* ===================================================================== *)
(** * A JavaScript [Map] with string keys *)
(* ===================================================================== *)

Module JsMap.
Section JsMap.
Context {V : Type}.

Definition t : Type := list (string * V).

(** [m.get(k)] *)
Fixpoint get (k : string) (m : t) : option V :=
  match m with
  | [] => None
  | (k', v) :: m' => if String.eqb k' k then Some v else get k m'
  end.

(** [m.has(k)] *)
Definition has (k : string) (m : t) : bool :=
  match get k m with Some _ => true | None => false end.

(** [m.delete(k)] *)
Fixpoint delete (k : string) (m : t) : t :=
  match m with
  | [] => []
  | (k', v) :: m' => if String.eqb k' k then m' else (k', v) :: delete k m'
  end.

(** [m.set(k, v)]: an existing key keeps its place, a new key goes last. *)
Fixpoint set (k : string) (v : V) (m : t) : t :=
  match m with
  | [] => [(k, v)]
  | (k', v') :: m' => if String.eqb k' k then (k, v) :: m' else (k', v') :: set k v m'
  end.

(** [m.keys().next().value]; [None] for [undefined] *)
Definition firstKey (m : t) : option string :=
  match m with
  | [] => None
  | (k, _) :: _ => Some k
  end.

(** [m.size] *)
Definition size (m : t) : Z := Z.of_nat (List.length m).

Definition keys (m : t) : list string := List.map fst m.

(** No key occurs twice, as in every [Map]. *)
Fixpoint distinct (m : t) : Prop :=
  match m with
  | [] => True
  | (k, _) :: m' => get k m' = None /\ distinct m'
  end.
End JsMap.
Arguments t : clear implicits.
End JsMap.

(* ===================================================================== *)
(** * src/utils/cache.ts (class [MemoryCache], kept in the file of
      src/utils/mime.ts) *)
(* ===================================================================== *)

Record CacheEntry : Type := {
  content : Buffer;
  compressed : option Buffer;
  etag : string;
  lastModified : string;
  mimeType : string;
  mtime : Z
}.

Record MemoryCache : Type := {
  cache : JsMap.t CacheEntry;
  maxSize : Z;
  currentSize : Z
}.

Module Cache.

(** [new MemoryCache(maxSize)] *)
Definition new (maxSize : Z) : MemoryCache :=
  {| cache := []; maxSize := maxSize; currentSize := 0 |}.

Definition defaultMaxSize : Z := 100 * 1024 * 1024.

Definition generateETag `{Platform} (content : Buffer) : string :=
  dquote ++ md5hex content ++ dquote.

(** [entry.content.length + (entry.compressed?.length || 0)] *)
Definition calculateSize (entry : CacheEntry) : Z :=
  buffer_length (content entry) +
  match compressed entry with
  | Some c => buffer_length c
  | None => 0
  end.

(** The size of the entry that [set] builds from its arguments. *)
Definition payloadSize (content : Buffer) (compressed : option Buffer) : Z :=
  buffer_length content +
  match compressed with
  | Some c => buffer_length c
  | None => 0
  end.

Definition with_cache (m : JsMap.t CacheEntry) (size : Z) (c : MemoryCache)
  : MemoryCache :=
  {| cache := m; maxSize := maxSize c; currentSize := size |}.

(** Removes the first entry of the map; [if (firstKey)] skips a missing
    and an empty key alike. *)
Definition evictOldest (c : MemoryCache) : MemoryCache :=
  match JsMap.firstKey (cache c) with
  | Some firstKey =>
      if truthy firstKey then
        match JsMap.get firstKey (cache c) with
        | Some entry =>
            with_cache (JsMap.delete firstKey (cache c))
                       (currentSize c - calculateSize entry) c
        | None => c
        end
      else c
  | None => c
  end.

Definition get (path : string) (c : MemoryCache)
  : option CacheEntry * MemoryCache :=
  match JsMap.get path (cache c) with
  | Some entry =>
      (Some entry,
       with_cache (JsMap.set path entry (JsMap.delete path (cache c)))
                  (currentSize c) c)
  | None => (None, c)
  end.

(** The loop [while (currentSize + entrySize > maxSize && cache.size > 0)
    evictOldest()], run for at most [fuel] rounds; [None] when the loop
    is still running after that. *)
Fixpoint evictWhile (fuel : nat) (entrySize : Z) (c : MemoryCache)
  : option MemoryCache :=
  if (currentSize c + entrySize >? maxSize c) && (JsMap.size (cache c) >? 0) then
    match fuel with
    | O => None
    | S fuel' => evictWhile fuel' entrySize (evictOldest c)
    end
  else Some c.

(** The entry literal that [set] builds from its arguments and the stat. *)
Definition makeEntry `{Platform} (stat : Node) (content : Buffer)
    (mimeType : string) (compressed : option Buffer) : CacheEntry :=
  {| content := content;
     compressed := compressed;
     etag := generateETag content;
     lastModified := toUTCString (node_mtime stat);
     mimeType := mimeType;
     mtime := node_mtime stat |}.

(** [set] stats the key on the disk [fs] before anything else.  An
    eviction round that removes nothing leaves the loop condition as it
    was, so the loop is given one round per entry and runs forever when
    that is not enough. *)
Definition set `{Platform} (fs : FS) (path : string) (content : Buffer)
    (mimeType : string) (compressed : option Buffer) : M MemoryCache unit :=
  fun c =>
    match statSync fs path with
    | None => (Thrown (ENOENT path), c)
    | Some stat =>
        let entry := makeEntry stat content mimeType compressed in
        let entrySize := calculateSize entry in
        if entrySize >? maxSize c then (Normal tt, c)
        else
          let c1 :=
            if JsMap.has path (cache c) then
              match JsMap.get path (cache c) with
              | Some oldEntry =>
                  with_cache (cache c) (currentSize c - calculateSize oldEntry) c
              | None => c
              end
            else c in
          match evictWhile (List.length (cache c1)) entrySize c1 with
          | Some c2 =>
              (Normal tt,
               with_cache (JsMap.set path entry (cache c2))
                          (currentSize c2 + entrySize) c2)
          | None => (Diverged, c1)
          end
    end.

Definition delete (path : string) (c : MemoryCache) : MemoryCache :=
  match JsMap.get path (cache c) with
  | Some entry =>
      with_cache (JsMap.delete path (cache c))
                 (currentSize c - calculateSize entry) c
  | None => c
  end.

Definition clear (c : MemoryCache) : MemoryCache := with_cache [] 0 c.

Definition isModified (path : string) (mtime' : Z) (c : MemoryCache) : bool :=
  match JsMap.get path (cache c) with
  | Some entry => negb (Z.eqb (mtime entry) mtime')
  | None => true
  end.

Record Stats : Type := { stat_size : Z; stat_count : Z; stat_maxSize : Z }.

Definition getStats (c : MemoryCache) : Stats :=
  {| stat_size := currentSize c;
     stat_count := JsMap.size (cache c);
     stat_maxSize := maxSize c |}.

(** ** Sequences of calls on one cache *)

Inductive Op : Type :=
| OpSet (fs : FS) (path : string) (content : Buffer) (mimeType : string)
        (compressed : option Buffer)
| OpGet (path : string)
| OpDelete (path : string)
| OpClear.

(** The cache after one call, whether the call returned or threw. *)
Definition step `{Platform} (c : MemoryCache) (op : Op) : MemoryCache :=
  match op with
  | OpSet fs path content mimeType compressed =>
      snd (set fs path content mimeType compressed c)
  | OpGet path => snd (get path c)
  | OpDelete path => delete path c
  | OpClear => clear c
  end.

Definition run `{Platform} (ops : list Op) (c : MemoryCache) : MemoryCache :=
  fold_left step ops c.

(** An entry as [set] builds it: both validators are functions of the
    stored content and modification time. *)
Definition builtBySet `{Platform} (entry : CacheEntry) : Prop :=
  etag entry = generateETag (content entry) /\
  lastModified entry = toUTCString (mtime entry).

(** Every entry of the cache was built by [set]. *)
Definition wellFormed `{Platform} (c : MemoryCache) : Prop :=
  Forall (fun kv => builtBySet (snd kv)) (cache c).

(** Bytes held by the entries that are present. *)
Definition entriesSize (m : JsMap.t CacheEntry) : Z :=
  fold_right (fun kv acc => calculateSize (snd kv) + acc) 0 m.

(** The size invariant of the cache. *)
Definition sizeInvariant (c : MemoryCache) : Prop :=
  currentSize c = entriesSize (cache c) /\ currentSize c <= maxSize c.

(** What holds of the map of every cache that the code builds: no key
    twice, no empty key. *)
Definition mapInvariant (c : MemoryCache) : Prop :=
  JsMap.distinct (cache c) /\
  Forall (fun kv => truthy (fst kv) = true) (cache c).

(** The call [op] does not write a key that the cache holds. *)
Definition writesNewKey (c : MemoryCache) (op : Op) : Prop :=
  match op with
  | OpSet _ path _ _ _ => JsMap.get path (cache c) = None
  | _ => True
  end.

(** No call of the sequence overwrites an entry. *)
Fixpoint neverOverwrites `{Platform} (ops : list Op) (c : MemoryCache) : Prop :=
  match ops with
  | [] => True
  | op :: ops' => writesNewKey c op /\ neverOverwrites ops' (step c op)
  end.

End Cache.

(* ===================================================================== *)
(** * [http.ServerResponse] *)
(* ===================================================================== *)

Module Http.

Definition newResponse : ServerResponse :=
  {| statusCode := 200; headers := ∅; headersSent := false;
     finished := false; body := None |}.

(** [res.setHeader(name, value)] *)
Definition setHeader (name value : string) : M ServerResponse unit :=
  fun res =>
    if headersSent res then (Thrown ERR_HTTP_HEADERS_SENT, res)
    else (Normal tt,
          {| statusCode := statusCode res;
             headers := <[name := value]> (headers res);
             headersSent := false;
             finished := finished res;
             body := body res |}).

(** [res.writeHead(status, hs)] *)
Definition writeHead (status : Z) (hs : list (string * string))
  : M ServerResponse unit :=
  fun res =>
    if headersSent res then (Thrown ERR_HTTP_HEADERS_SENT, res)
    else (Normal tt,
          {| statusCode := status;
             headers := fold_left (fun m kv => <[fst kv := snd kv]> m) hs (headers res);
             headersSent := true;
             finished := finished res;
             body := body res |}).

(** [res.end(data)]; a second call changes nothing. *)
Definition end_ (data : option Payload) : M ServerResponse unit :=
  fun res =>
    if finished res then (Normal tt, res)
    else (Normal tt,
          {| statusCode := statusCode res;
             headers := headers res;
             headersSent := true;
             finished := true;
             body := data |}).

(** [req.headers[name]] *)
Definition header (req : IncomingMessage) (name : string) : option string :=
  req_headers req !! name.

End Http.

(* ===================================================================== *)
(** * src/handlers/gzip.ts *)
(* ===================================================================== *)

Record CompressionResult : Type := {
  cr_content : Buffer;
  originalSize : Z;
  compressedSize : Z;
  encoding : string
}.

Module Gzip.

Definition acceptsGzip (req : IncomingMessage) : bool :=
  let acceptEncoding :=
    match Http.header req "accept-encoding" with
    | Some v => if truthy v then v else EmptyString
    | None => EmptyString
    end in
  includes acceptEncoding "gzip".

Definition compressBuffer `{Platform} (buffer : Buffer) (level : Z)
  : option Buffer :=
  gzip level buffer.

Definition compressIfNeeded `{Platform} (content : Buffer) (mimeType : string)
    (threshold level : Z) : option CompressionResult :=
  if buffer_length content <? threshold then None
  else if negb (Mime.shouldCompress mimeType) then None
  else
    match compressBuffer content level with
    | Some compressed =>
        Some {| cr_content := compressed;
                originalSize := buffer_length content;
                compressedSize := buffer_length compressed;
                encoding := "gzip" |}
    | None => None
    end.

Definition setCompressionHeaders `{Platform}
    (compressionResult : option CompressionResult)
    (etag lastModified mimeType : string) : M ServerResponse unit :=
  Http.setHeader "Content-Type" mimeType >>
  Http.setHeader "ETag" etag >>
  Http.setHeader "Last-Modified" lastModified >>
  Http.setHeader "Cache-Control" "public, max-age=3600" >>
  match compressionResult with
  | Some cr =>
      Http.setHeader "Content-Encoding" (encoding cr) >>
      Http.setHeader "Content-Length" (number_to_string (compressedSize cr)) >>
      Http.setHeader "X-Compression-Ratio"
        (ratio_percent (compressedSize cr) (originalSize cr))
  | None =>
      Http.setHeader "X-Compression" "none"
  end.

Definition shouldServeCompressed (req : IncomingMessage)
    (compressionResult : option CompressionResult) : bool :=
  match compressionResult with
  | Some _ => acceptsGzip req
  | None => false
  end.

End Gzip.

(* ===================================================================== *)
(** * src/handlers/static.ts *)
(* ===================================================================== *)

Record FileInfo : Type := {
  fi_path : string;
  fi_size : Z;
  fi_mtime : Z;                   (* mtime.getTime() of the Date *)
  fi_etag : string;
  fi_mimeType : string;
  fi_shouldCompress : bool
}.

(** The fields of a [StaticFileHandler] that never change; its cache is
    part of the state [World]. *)
Record StaticFileHandler : Type := {
  rootDir : string;
  indexPath : string
}.

(** What a request can change: the handler's cache and its own response. *)
Record World : Type := {
  w_cache : MemoryCache;
  w_res : ServerResponse
}.

Definition on_res {A} (m : M ServerResponse A) : M World A :=
  zoom w_res (fun r w => {| w_cache := w_cache w; w_res := r |}) m.

Definition on_cache {A} (m : M MemoryCache A) : M World A :=
  zoom w_cache (fun c w => {| w_cache := c; w_res := w_res w |}) m.

(** A call that cannot throw, on the cache. *)
Definition cache_call {A} (f : MemoryCache -> A * MemoryCache) : M World A :=
  on_cache (fun c => let (a, c') := f c in (Normal a, c')).

Definition lift {S A} (r : completion A) : M S A := fun s => (r, s).

Module Static.

(** [new StaticFileHandler(rootDir, cacheSize, indexPath)] *)
Definition new `{Platform} (rootDir : string) (cacheSize : Z) (indexPath : string)
  : StaticFileHandler * MemoryCache :=
  ({| rootDir := path_resolve rootDir; indexPath := indexPath |},
   Cache.new cacheSize).

(** The first half of [sanitizePath]: the string handed to
    [decodeURIComponent]. *)
Definition encodedPathname `{Platform} (h : StaticFileHandler) (requestPath : string)
  : string :=
  let pathname :=
    match url_parse_pathname requestPath with
    | Some p => if truthy p then p else "/"
    | None => "/"
    end in
  let pathname :=
    if String.eqb pathname "/" then "/" ++ indexPath h else pathname in
  before_char (ascii_of_nat 63) pathname.

Definition sanitizePath `{Platform} (h : StaticFileHandler) (requestPath : string)
  : completion string :=
  match decodeURIComponent (encodedPathname h requestPath) with
  | None => Thrown URIError
  | Some pathname =>
      Normal (if negb (startsWith pathname "/") then "/" ++ pathname else pathname)
  end.

Definition generateETag (stat : Node) : string :=
  dquote ++ number_to_string (node_size stat) ++ "-" ++
  number_to_string (node_mtime stat) ++ dquote.

Definition compressibleTypes : list string :=
  [ "text/"; "application/javascript"; "application/json"; "application/xml";
    "application/x-javascript"; "application/xhtml+xml"; "image/svg+xml" ].

Definition nonCompressibleTypes : list string :=
  [ "image/"; "video/"; "audio/"; "application/pdf"; "application/zip";
    "application/gzip" ].

Definition shouldCompressFile (mimeType : string) (size : Z) : bool :=
  if existsb (startsWith mimeType) nonCompressibleTypes then false
  else if existsb (fun type => startsWith mimeType type && (size >? 1024))
                  compressibleTypes then true
  else false.

(** Every exception inside the [try] block comes from [fs.statSync] and
    is answered with [null]. *)
Definition getFileInfo `{Platform} (h : StaticFileHandler) (fs : FS)
    (filePath : string) : option FileInfo :=
  let fullPath := path_join (rootDir h) filePath in
  match statSync fs fullPath with
  | None => None
  | Some stat =>
      if negb (node_isFile stat) then None
      else
        let relativePath := path_relative (rootDir h) fullPath in
        if startsWith relativePath ".." then None
        else
          let mimeType := Mime.getMimeType fullPath in
          let shouldCompress := shouldCompressFile mimeType (node_size stat) in
          Some {| fi_path := fullPath;
                  fi_size := node_size stat;
                  fi_mtime := node_mtime stat;
                  fi_etag := generateETag stat;
                  fi_mimeType := mimeType;
                  fi_shouldCompress := shouldCompress |}
  end.

Definition sendError (statusCode : Z) (message : string) : M ServerResponse unit :=
  Http.writeHead statusCode [("Content-Type", "text/plain")] >>
  Http.end_ (Some (Text message)).

(** The promise of [compressContent]: [None] when it is rejected. *)
Definition compressContent `{Platform} (content : Buffer) : option Buffer :=
  gzip 6 content.

(** [value && value === expected] for a request header *)
Definition headerIs (value : option string) (expected : string) : bool :=
  match value with
  | Some v => truthy v && String.eqb v expected
  | None => false
  end.

(** The cache-miss branch: read, compress, store. *)
Definition readAndStore `{Platform} (disk : Disk) (fileInfo : FileInfo)
  : M World (Buffer * option Buffer) :=
  let* content := lift (readFileSync (at_read disk) (fi_path fileInfo)) in
  let compressed :=
    if fi_shouldCompress fileInfo then compressContent content else None in
  on_cache (Cache.set (at_set disk) (fi_path fileInfo) content
                      (fi_mimeType fileInfo) compressed) >>
  ret (content, compressed).

Definition handleFileRequest `{Platform} (h : StaticFileHandler) (disk : Disk)
    (req : IncomingMessage) (filePath : string) : M World unit :=
  try_catch
    (match getFileInfo h (at_stat disk) filePath with
     | None => on_res (sendError 404 "File not found")
     | Some fileInfo =>
         let* cacheEntry := cache_call (Cache.get (fi_path fileInfo)) in
         let* modified :=
           cache_call (fun c =>
             (Cache.isModified (fi_path fileInfo) (fi_mtime fileInfo) c, c)) in
         let* loaded :=
           match cacheEntry with
           | Some entry =>
               if negb modified then ret (content entry, compressed entry)
               else readAndStore disk fileInfo
           | None => readAndStore disk fileInfo
           end in
         let content := fst loaded in
         let compressed := snd loaded in
         let ifNoneMatch := Http.header req "if-none-match" in
         if headerIs ifNoneMatch (fi_etag fileInfo) then
           on_res (Http.writeHead 304 [] >> Http.end_ None)
         else
           let ifModifiedSince := Http.header req "if-modified-since" in
           if headerIs ifModifiedSince (toUTCString (fi_mtime fileInfo)) then
             on_res (Http.writeHead 304 [] >> Http.end_ None)
           else
             let compressionResult :=
               match compressed with
               | Some c =>
                   Some {| cr_content := c;
                           originalSize := buffer_length content;
                           compressedSize := buffer_length c;
                           encoding := "gzip" |}
               | None => None
               end in
             let shouldSendCompressed :=
               Gzip.shouldServeCompressed req compressionResult in
             let finalContent :=
               match compressed with
               | Some c => if shouldSendCompressed then c else content
               | None => content
               end in
             on_res
               (Gzip.setCompressionHeaders compressionResult (fi_etag fileInfo)
                  (toUTCString (fi_mtime fileInfo)) (fi_mimeType fileInfo) >>
                Http.setHeader "Content-Length"
                  (number_to_string (buffer_length finalContent)) >>
                Http.writeHead 200 [] >>
                Http.end_ (Some (Bytes finalContent)))
     end)
    (fun _ => on_res (sendError 500 "Internal server error")).

(** [req.url || '/'] *)
Definition requestPath (req : IncomingMessage) : string :=
  if truthy (url req) then url req else "/".

Definition handleRequest `{Platform} (h : StaticFileHandler) (disk : Disk)
    (req : IncomingMessage) : M World unit :=
  let* sanitizedPath := lift (sanitizePath h (requestPath req)) in
  let filePath := slice1 sanitizedPath in
  handleFileRequest h disk req filePath.

Definition clearCache : M World unit :=
  cache_call (fun c => (tt, Cache.clear c)).

Definition getCacheStats (w : World) : Cache.Stats := Cache.getStats (w_cache w).

End Static.

(* ===================================================================== *)
(** * src/server.ts *)
(* ===================================================================== *)

(** The fields of [ServerConfig] that the request path reads. *)
Record ServerConfig : Type := {
  cfg_rootDir : string;
  cfg_indexPath : string;
  cfg_cors : bool
}.

Module Server.

(** The constructor's [new StaticFileHandler(config.rootDir, 100MB,
    config.indexPath)]. *)
Definition fileHandler `{Platform} (config : ServerConfig) : StaticFileHandler :=
  fst (Static.new (cfg_rootDir config) Cache.defaultMaxSize (cfg_indexPath config)).

(** [JSON.stringify({ error: message })] *)
Definition jsonError (message : string) : string :=
  "{" ++ dquote ++ "error" ++ dquote ++ ":" ++ dquote ++ message ++ dquote ++ "}".

Definition handleApiRequest `{Platform} (req : IncomingMessage) (pathname : string)
  : M ServerResponse unit :=
  try_catch
    (Http.setHeader "Access-Control-Allow-Origin" "*" >>
     Http.setHeader "Access-Control-Allow-Methods" "GET, POST, OPTIONS" >>
     Http.setHeader "Access-Control-Allow-Headers" "Content-Type" >>
     if String.eqb (method req) "OPTIONS" then
       Http.writeHead 200 [] >> Http.end_ None
     else if String.eqb pathname "/api/upload" then
       if String.eqb (method req) "POST" then handleUpload req
       else Http.writeHead 405 [("Allow", "POST, OPTIONS")] >>
            Http.end_ (Some (Text "Method Not Allowed"))
     else if String.eqb pathname "/api/files" then
       if String.eqb (method req) "GET" then handleFileList req
       else Http.writeHead 405 [("Allow", "GET, OPTIONS")] >>
            Http.end_ (Some (Text "Method Not Allowed"))
     else
       Http.writeHead 404 [("Content-Type", "application/json")] >>
       Http.end_ (Some (Text (jsonError "API endpoint not found"))))
    (fun _ =>
       Http.writeHead 500 [("Content-Type", "application/json")] >>
       Http.end_ (Some (Text (jsonError "Internal server error")))).

Definition setupCors (config : ServerConfig) (req : IncomingMessage)
  : M ServerResponse unit :=
  if negb (cfg_cors config) then ret tt
  else
    Http.setHeader "Access-Control-Allow-Origin" "*" >>
    Http.setHeader "Access-Control-Allow-Methods" "GET, HEAD, OPTIONS" >>
    Http.setHeader "Access-Control-Allow-Headers"
      "Range, Accept-Encoding, If-None-Match, If-Modified-Since" >>
    if String.eqb (method req) "OPTIONS" then
      Http.writeHead 200 [] >> Http.end_ None
    else ret tt.

(** The base of [new URL(req.url || '/', `http://${req.headers.host}`)] *)
Definition baseOf (req : IncomingMessage) : string :=
  "http://" ++
  match Http.header req "host" with
  | Some host => host
  | None => "undefined"
  end.

(** The request counter, the log lines and the duration do not reach the
    response and are left out; the private middleware list is never
    extended, so its loop runs no round. *)
Definition handleRequest `{Platform} (config : ServerConfig) (disk : Disk)
    (req : IncomingMessage) : M World unit :=
  try_catch
    (on_res (setupCors config req) >>
     on_res (Http.setHeader "X-Content-Type-Options" "nosniff") >>
     on_res (Http.setHeader "X-Frame-Options" "DENY") >>
     on_res (Http.setHeader "X-XSS-Protection" "1; mode=block") >>
     on_res (Http.setHeader "Server" "Gzip-Static-Server/1.0.0") >>
     match URL_pathname (Static.requestPath req) (baseOf req) with
     | None => throw ERR_INVALID_URL
     | Some pathname =>
         if startsWith pathname "/api/" then
           on_res (handleApiRequest req pathname)
         else if String.eqb (method req) "GET" || String.eqb (method req) "HEAD" then
           Static.handleRequest (fileHandler config) disk req
         else
           on_res (Http.writeHead 405 [("Allow", "GET, HEAD, OPTIONS")] >>
                   Http.end_ (Some (Text "Method Not Allowed")))
     end)
    (fun _ =>
       on_res (Http.writeHead 500 [("Content-Type", "text/plain")] >>
               Http.end_ (Some (Text "Internal Server Error")))).

(** The request listener installed by [start]: a rejection of
    [handleRequest] is answered with a bare 500 unless headers are out. *)
Definition listener `{Platform} (config : ServerConfig) (disk : Disk)
    (req : IncomingMessage) : M World unit :=
  try_catch
    (handleRequest config disk req)
    (fun _ =>
       let* w := get_state in
       if negb (headersSent (w_res w)) then
         on_res (Http.writeHead 500 [] >>
                 Http.end_ (Some (Text "Internal Server Error")))
       else ret tt).

(** Serve one request with a fresh response object. *)
Definition serve `{Platform} (config : ServerConfig) (disk : Disk)
    (req : IncomingMessage) (c : MemoryCache) : ServerResponse * MemoryCache :=
  let w := snd (listener config disk req
                  {| w_cache := c; w_res := Http.newResponse |}) in
  (w_res w, w_cache w).

End Server.

(* ===================================================================== *)
(** * The two halves of [handleFileRequest] *)
(* ===================================================================== *)

(** [StaticFileHandler.handleFileRequest] first obtains the bytes, from the
    cache or from the disk, then writes the response.  The two halves are
    named here so that statements can speak of each; the handler itself
    is [Static.handleFileRequest]. *)
Module Pipeline.

(** Lines 134 to 158: the cache lookup, the staleness check and, on a
    miss, the read, the compression and the cache update. *)
Definition load `{Platform} (disk : Disk) (fileInfo : FileInfo)
  : M World (Buffer * option Buffer) :=
  let* cacheEntry := cache_call (Cache.get (fi_path fileInfo)) in
  let* modified :=
    cache_call (fun c =>
      (Cache.isModified (fi_path fileInfo) (fi_mtime fileInfo) c, c)) in
  match cacheEntry with
  | Some entry =>
      if negb modified then ret (content entry, compressed entry)
      else Static.readAndStore disk fileInfo
  | None => Static.readAndStore disk fileInfo
  end.

(** The body that lines 177 to 185 choose. *)
Definition finalContent (req : IncomingMessage) (content : Buffer)
    (compressed : option Buffer) : Buffer :=
  match compressed with
  | Some c => if Gzip.acceptsGzip req then c else content
  | None => content
  end.

(** Lines 160 to 201: the conditional checks and the full response. *)
Definition respond `{Platform} (fileInfo : FileInfo) (req : IncomingMessage)
    (content : Buffer) (compressed : option Buffer) : M ServerResponse unit :=
  if Static.headerIs (Http.header req "if-none-match") (fi_etag fileInfo) then
    Http.writeHead 304 [] >> Http.end_ None
  else if Static.headerIs (Http.header req "if-modified-since")
                          (toUTCString (fi_mtime fileInfo)) then
    Http.writeHead 304 [] >> Http.end_ None
  else
    Gzip.setCompressionHeaders
      (match compressed with
       | Some c =>
           Some {| cr_content := c;
                   originalSize := buffer_length content;
                   compressedSize := buffer_length c;
                   encoding := "gzip" |}
       | None => None
       end)
      (fi_etag fileInfo) (toUTCString (fi_mtime fileInfo)) (fi_mimeType fileInfo) >>
    Http.setHeader "Content-Length"
      (number_to_string (buffer_length (finalContent req content compressed))) >>
    Http.writeHead 200 [] >>
    Http.end_ (Some (Bytes (finalContent req content compressed))).

(** The handler, put together again from the halves. *)
Definition handle `{Platform} (h : StaticFileHandler) (disk : Disk)
    (req : IncomingMessage) (filePath : string) : M World unit :=
  try_catch
    (match Static.getFileInfo h (at_stat disk) filePath with
     | None => on_res (Static.sendError 404 "File not found")
     | Some fileInfo =>
         let* loaded := load disk fileInfo in
         on_res (respond fileInfo req (fst loaded) (snd loaded))
     end)
    (fun _ => on_res (Static.sendError 500 "Internal server error")).

End Pipeline.

(* ===================================================================== *)
(** * Auxiliary definitions for the properties below *)
(* ===================================================================== *)

(** The characters that [number_to_string] writes for a number that is not
    negative. *)
Definition digitChar (c : ascii) : Prop :=
  (48 <= nat_of_ascii c <= 57)%nat.

(** The response after the CORS set-up and the four fixed headers of
    [GzipStaticServer.handleRequest], for a request that the CORS set-up
    does not answer. *)
Definition preparedResponse (config : ServerConfig) : ServerResponse :=
  {| statusCode := 200;
     headers :=
       <["Server" := "Gzip-Static-Server/1.0.0"]>
       (<["X-XSS-Protection" := "1; mode=block"]>
       (<["X-Frame-Options" := "DENY"]>
       (<["X-Content-Type-Options" := "nosniff"]>
       (if cfg_cors config then
          <["Access-Control-Allow-Headers" :=
              "Range, Accept-Encoding, If-None-Match, If-Modified-Since"]>
          (<["Access-Control-Allow-Methods" := "GET, HEAD, OPTIONS"]>
          (<["Access-Control-Allow-Origin" := "*"]> ∅))
        else ∅))));
     headersSent := false;
     finished := false;
     body := None |}.


(* ===================================================================== *)
(** * A reference platform *)
(* ===================================================================== *)

(** Concrete runtime functions, used to run the model on examples.  The
    digest and the date format follow their standards (RFC 1321, the UTC
    string of ECMAScript for the years 0000 to 9999); the URL functions
    are exact on request targets that start with a slash and contain no
    dot segment, backslash, blank or control character; the compressor,
    the ratio text and the upload handlers are stand-ins, on which no
    statement below depends. *)
Module Reference.

(** ** MD5 *)

Definition mask32 (x : Z) : Z := x mod 4294967296.

Definition rotl32 (x : Z) (c : Z) : Z :=
  mask32 (Z.lor (Z.shiftl x c) (Z.shiftr x (32 - c))).

Definition not32 (x : Z) : Z := Z.lxor x 4294967295.

Definition md5_K : list Z :=
  [ 3614090360; 3905402710; 606105819; 3250441966; 4118548399; 1200080426;
    2821735955; 4249261313; 1770035416; 2336552879; 4294925233; 2304563134;
    1804603682; 4254626195; 2792965006; 1236535329; 4129170786; 3225465664;
    643717713; 3921069994; 3593408605; 38016083; 3634488961; 3889429448;
    568446438; 3275163606; 4107603335; 1163531501; 2850285829; 4243563512;
    1735328473; 2368359562; 4294588738; 2272392833; 1839030562; 4259657740;
    2763975236; 1272893353; 4139469664; 3200236656; 681279174; 3936430074;
    3572445317; 76029189; 3654602809; 3873151461; 530742520; 3299628645;
    4096336452; 1126891415; 2878612391; 4237533241; 1700485571; 2399980690;
    4293915773; 2240044497; 1873313359; 4264355552; 2734768916; 1309151649;
    4149444226; 3174756917; 718787259; 3951481745 ].

Definition md5_shift : list Z :=
  [ 7; 12; 17; 22; 7; 12; 17; 22; 7; 12; 17; 22; 7; 12; 17; 22;
    5; 9; 14; 20; 5; 9; 14; 20; 5; 9; 14; 20; 5; 9; 14; 20;
    4; 11; 16; 23; 4; 11; 16; 23; 4; 11; 16; 23; 4; 11; 16; 23;
    6; 10; 15; 21; 6; 10; 15; 21; 6; 10; 15; 21; 6; 10; 15; 21 ].

Definition nthZ (l : list Z) (i : Z) : Z := nth (Z.to_nat i) l 0.

(** Little-endian 32-bit words of a byte list. *)
Fixpoint words_le (bytes : list Z) : list Z :=
  match bytes with
  | b0 :: b1 :: b2 :: b3 :: rest =>
      (b0 + 256 * b1 + 65536 * b2 + 16777216 * b3) :: words_le rest
  | _ => []
  end.

Definition bytes_le (n : nat) (x : Z) : list Z :=
  List.map (fun i => Z.shiftr x (8 * Z.of_nat i) mod 256) (seq 0 n).

Definition md5_pad (msg : list Z) : list Z :=
  let len := Z.of_nat (List.length msg) in
  let zeros := Z.to_nat ((55 - len) mod 64) in
  msg ++ [128] ++ repeat 0 zeros ++ bytes_le 8 ((8 * len) mod 2 ^ 64).

Definition md5_round (block : list Z) (st : Z * Z * Z * Z) (i : Z)
  : Z * Z * Z * Z :=
  let '(A, B, C, D) := st in
  let '(F, g) :=
    if i <? 16 then (Z.lor (Z.land B C) (Z.land (not32 B) D), i)
    else if i <? 32 then (Z.lor (Z.land D B) (Z.land (not32 D) C), (5 * i + 1) mod 16)
    else if i <? 48 then (Z.lxor B (Z.lxor C D), (3 * i + 5) mod 16)
    else (Z.lxor C (Z.lor B (not32 D)), (7 * i) mod 16) in
  let F := mask32 (F + A + nthZ md5_K i + nthZ block g) in
  (D, mask32 (B + rotl32 F (nthZ md5_shift i)), B, C).

Definition md5_block (st : Z * Z * Z * Z) (block : list Z) : Z * Z * Z * Z :=
  let '(a0, b0, c0, d0) := st in
  let '(A, B, C, D) :=
    fold_left (md5_round block) (List.map Z.of_nat (seq 0 64)) st in
  (mask32 (a0 + A), mask32 (b0 + B), mask32 (c0 + C), mask32 (d0 + D)).

Fixpoint chunks16 (fuel : nat) (ws : list Z) : list (list Z) :=
  match fuel, ws with
  | S fuel', _ :: _ => firstn 16 ws :: chunks16 fuel' (skipn 16 ws)
  | _, _ => []
  end.

Definition hexdigit (n : Z) : ascii :=
  if n <? 10 then ascii_of_nat (Z.to_nat (48 + n))
  else ascii_of_nat (Z.to_nat (87 + n)).

Definition hexbyte (b : Z) : string :=
  String (hexdigit (b / 16)) (String (hexdigit (b mod 16)) EmptyString).

Definition md5 (b : Buffer) : string :=
  let msg := List.map (fun x => Z.of_N (Byte.to_N x)) b in
  let ws := words_le (md5_pad msg) in
  let '(a, b', c, d) :=
    fold_left md5_block (chunks16 (List.length ws) ws)
              (1732584193, 4023233417, 2562383102, 271733878) in
  String.concat EmptyString
    (List.map hexbyte (bytes_le 4 a ++ bytes_le 4 b' ++ bytes_le 4 c ++ bytes_le 4 d)).

(** ** [Date.prototype.toUTCString] *)

Definition pad2 (n : Z) : string :=
  (if n <? 10 then "0" else EmptyString) ++ number_to_string n.

Definition pad4 (n : Z) : string :=
  (if n <? 10 then "000" else if n <? 100 then "00"
   else if n <? 1000 then "0" else EmptyString) ++ number_to_string n.

Definition dayNames : list string :=
  [ "Sun"; "Mon"; "Tue"; "Wed"; "Thu"; "Fri"; "Sat" ].

Definition monthNames : list string :=
  [ "Jan"; "Feb"; "Mar"; "Apr"; "May"; "Jun";
    "Jul"; "Aug"; "Sep"; "Oct"; "Nov"; "Dec" ].

(** Year, month (1 to 12) and day of the [days]-th day after 1970-01-01. *)
Definition civil (days : Z) : Z * Z * Z :=
  let z := days + 719468 in
  let era := z / 146097 in
  let doe := z - era * 146097 in
  let yoe := (doe - doe / 1460 + doe / 36524 - doe / 146096) / 365 in
  let doy := doe - (365 * yoe + yoe / 4 - yoe / 100) in
  let mp := (5 * doy + 2) / 153 in
  let d := doy - (153 * mp + 2) / 5 + 1 in
  let m := if mp <? 10 then mp + 3 else mp - 9 in
  let y := yoe + era * 400 + (if m <=? 2 then 1 else 0) in
  (y, m, d).

Definition utcString (ms : Z) : string :=
  let days := ms / 86400000 in
  let secs := (ms mod 86400000) / 1000 in
  let '(y, m, d) := civil days in
  nth (Z.to_nat ((days + 4) mod 7)) dayNames EmptyString ++ ", " ++
  pad2 d ++ " " ++ nth (Z.to_nat (m - 1)) monthNames EmptyString ++ " " ++
  pad4 y ++ " " ++ pad2 (secs / 3600) ++ ":" ++ pad2 (secs / 60 mod 60) ++ ":" ++
  pad2 (secs mod 60) ++ " GMT".

Definition utcString_truthy (ms : Z) : truthy (utcString ms) = true :=
  ltac:(unfold utcString; destruct (civil _) as [[y m] d];
        destruct (nth _ dayNames _); reflexivity).

(** ** [decodeURIComponent], on UTF-8 strings *)

Definition hexValue (c : ascii) : option Z :=
  let n := Z.of_nat (nat_of_ascii c) in
  if (48 <=? n) && (n <=? 57) then Some (n - 48)
  else if (65 <=? n) && (n <=? 70) then Some (n - 55)
  else if (97 <=? n) && (n <=? 102) then Some (n - 87)
  else None.

(** A character of the input, or the byte of one [%XX] escape. *)
Inductive Item : Type :=
| Plain (c : ascii)
| Escaped (b : Z).

Fixpoint items (s : string) : option (list Item) :=
  match s with
  | EmptyString => Some []
  | String c rest =>
      if Ascii.eqb c (ascii_of_nat 37) then
        match rest with
        | String h (String l rest') =>
            match hexValue h, hexValue l, items rest' with
            | Some hv, Some lv, Some tl => Some (Escaped (16 * hv + lv) :: tl)
            | _, _, _ => None
            end
        | _ => None
        end
      else
        match items rest with
        | Some tl => Some (Plain c :: tl)
        | None => None
        end
  end.

Definition between (lo x hi : Z) : bool := (lo <=? x) && (x <=? hi).

Definition byteChar (b : Z) : ascii := ascii_of_nat (Z.to_nat b).

(** Escaped bytes must spell well-formed UTF-8. *)
Fixpoint utf8 (l : list Item) : option string :=
  match l with
  | [] => Some EmptyString
  | Plain c :: tl => option_map (String c) (utf8 tl)
  | Escaped b :: tl =>
      if b <? 128 then option_map (String (byteChar b)) (utf8 tl)
      else if between 194 b 223 then
        match tl with
        | Escaped b1 :: tl1 =>
            if between 128 b1 191 then
              option_map (fun r => String (byteChar b) (String (byteChar b1) r))
                         (utf8 tl1)
            else None
        | _ => None
        end
      else if between 224 b 239 then
        match tl with
        | Escaped b1 :: Escaped b2 :: tl2 =>
            let lo := if b =? 224 then 160 else 128 in
            let hi := if b =? 237 then 159 else 191 in
            if between lo b1 hi && between 128 b2 191 then
              option_map (fun r => String (byteChar b) (String (byteChar b1)
                                     (String (byteChar b2) r))) (utf8 tl2)
            else None
        | _ => None
        end
      else if between 240 b 244 then
        match tl with
        | Escaped b1 :: Escaped b2 :: Escaped b3 :: tl3 =>
            let lo := if b =? 240 then 144 else 128 in
            let hi := if b =? 244 then 143 else 191 in
            if between lo b1 hi && between 128 b2 191 && between 128 b3 191 then
              option_map (fun r => String (byteChar b) (String (byteChar b1)
                                     (String (byteChar b2) (String (byteChar b3) r))))
                         (utf8 tl3)
            else None
        | _ => None
        end
      else None
  end.

Definition decode (s : string) : option string :=
  match items s with
  | Some l => utf8 l
  | None => None
  end.

(** ** URLs, MIME types and the rest *)

(** The path of a request target: what precedes the first [?] or [#]. *)
Definition targetPath (s : string) : string :=
  before_char (ascii_of_nat 35) (before_char (ascii_of_nat 63) s).

(** The text after the last dot of [p]; [acc] is the text after the last
    dot seen so far. *)
Fixpoint extension (acc : option string) (p : string) : option string :=
  match p with
  | EmptyString => acc
  | String c p' =>
      if Ascii.eqb c (ascii_of_nat 46) then extension (Some EmptyString) p'
      else if Ascii.eqb c slash then extension None p'
      else extension (option_map (fun e => e ++ String c EmptyString) acc) p'
  end.

Definition mimeTable : list (string * string) :=
  [ ("html", "text/html"); ("css", "text/css"); ("txt", "text/plain");
    ("js", "application/javascript"); ("json", "application/json");
    ("svg", "image/svg+xml"); ("png", "image/png"); ("jpg", "image/jpeg");
    ("pdf", "application/pdf"); ("wasm", "application/wasm") ].

Definition lookup (p : string) : option string :=
  match extension None p with
  | Some ext => JsMap.get ext mimeTable
  | None => None
  end.

(** Hundredths of a percent saved, as text; [toFixed(2)] up to the
    rounding of doubles. *)
Definition ratioText (c o : Z) : string :=
  if o =? 0 then (if c =? 0 then "NaN%" else "-Infinity%")
  else
    let h := (20000 * (o - c) + o) / (2 * o) in
    (if h <? 0 then "-" else EmptyString) ++
    number_to_string (Z.abs h / 100) ++ "." ++ pad2 (Z.abs h mod 100) ++ "%".

Definition platform : Platform :=
  {| md5hex := md5;
     toUTCString := utcString;
     toUTCString_truthy := utcString_truthy;
     gzip := fun _ b => Some (Byte.x1f :: Byte.x8b :: b);
     mime_lookup := lookup;
     decodeURIComponent := decode;
     url_parse_pathname := fun s => Some (targetPath s);
     URL_pathname := fun s _ => Some (targetPath s);
     ratio_percent := ratioText;
     process_cwd := "/";
     handleUpload := fun _ => Http.writeHead 200 [] >> Http.end_ None;
     handleFileList := fun _ => Http.writeHead 200 [] >> Http.end_ None |}.

End Reference.

(* ===================================================================== *)
(** * Example data *)
(* ===================================================================== *)

Module Examples.

(** [n] bytes of the letter a. *)
Definition filler (n : nat) : Buffer := repeat Byte.x61 n.

Definition file (size mtime : Z) (bytes : Buffer) : Node :=
  {| node_isFile := true; node_size := size; node_mtime := mtime;
     node_content := bytes |}.

Definition directory : Node :=
  {| node_isFile := false; node_size := 4096; node_mtime := 0;
     node_content := [] |}.

(** A small site: a page above the compression threshold, a short note
    and a picture; a secret next to the root. *)
Definition site : FS := fun p =>
  if String.eqb p "/srv/www" then Some directory
  else if String.eqb p "/srv/www/index.html" then
    Some (file 2048 1700000000000 (filler 2048))
  else if String.eqb p "/srv/www/note.txt" then
    Some (file 5 1700000000000 (filler 5))
  else if String.eqb p "/srv/www/logo.svg" then
    Some (file 4096 1700000000000 (filler 4096))
  else if String.eqb p "/srv/secret.txt" then
    Some (file 6 1700000000000 (filler 6))
  else None.

(** The site after [note.txt] has been removed. *)
Definition siteWithoutNote : FS := fun p =>
  if String.eqb p "/srv/www/note.txt" then None else site p.

Definition config : ServerConfig :=
  {| cfg_rootDir := "/srv/www"; cfg_indexPath := "index.html";
     cfg_cors := false |}.

Definition handler : StaticFileHandler :=
  {| rootDir := "/srv/www"; indexPath := "index.html" |}.

Definition request (m target : string) (hs : list (string * string))
  : IncomingMessage :=
  {| method := m; url := target; req_headers := list_to_map hs |}.

Definition freshWorld (maxSize : Z) : World :=
  {| w_cache := Cache.new maxSize; w_res := Http.newResponse |}.

(** What [getFileInfo] reports for the page and for the note. *)
Definition indexInfo : FileInfo :=
  {| fi_path := "/srv/www/index.html";
     fi_size := 2048;
     fi_mtime := 1700000000000;
     fi_etag := dquote ++ "2048-1700000000000" ++ dquote;
     fi_mimeType := "text/html";
     fi_shouldCompress := true |}.

Definition noteInfo : FileInfo :=
  {| fi_path := "/srv/www/note.txt";
     fi_size := 5;
     fi_mtime := 1700000000000;
     fi_etag := dquote ++ "5-1700000000000" ++ dquote;
     fi_mimeType := "text/plain";
     fi_shouldCompress := false |}.

(** The entry that the cache keeps for the note. *)
Definition noteEntry : CacheEntry :=
  {| content := filler 5;
     compressed := None;
     etag := dquote ++ "594f803b380a41396ed63dca39503542" ++ dquote;
     lastModified := "Tue, 14 Nov 2023 22:13:20 GMT";
     mimeType := "text/plain";
     mtime := 1700000000000 |}.

(** The cache after a first request for the note has been served. *)
Definition warmCache : MemoryCache :=
  snd (@Server.serve Reference.platform config (steady site)
         (request "GET" "/note.txt" []) (Cache.new Cache.defaultMaxSize)).

(** The note disappears between the read and the cache update. *)
Definition noteVanishes : Disk :=
  {| at_stat := site; at_read := site; at_set := siteWithoutNote |}.

(** Any disk on which the three keys below exist. *)
Definition twoFiles : FS := fun p =>
  if String.eqb p "/A" then Some (file 4 1 (filler 4))
  else if String.eqb p "/B" then Some (file 4 2 (filler 4))
  else if String.eqb p "/C" then Some (file 4 3 (filler 4))
  else None.

(** Set A (4 bytes), set B (4 bytes), then set A again with 8 bytes, in a
    cache of 10 bytes. *)
Definition overwriteUnderPressure : list Cache.Op :=
  [ Cache.OpSet twoFiles "/A" (filler 4) "text/plain" None;
    Cache.OpSet twoFiles "/B" (filler 4) "text/plain" None;
    Cache.OpSet twoFiles "/A" (filler 8) "text/plain" None ].

(** Set A, set B, read A, set C: no call overwrites an entry. *)
Definition touchThenSet : list Cache.Op :=
  [ Cache.OpSet twoFiles "/A" (filler 4) "text/plain" None;
    Cache.OpSet twoFiles "/B" (filler 4) "text/plain" None;
    Cache.OpGet "/A";
    Cache.OpSet twoFiles "/C" (filler 4) "text/plain" None ].

(** The first two calls of the sequence above. *)
Definition twoSets : list Cache.Op :=
  [ Cache.OpSet twoFiles "/A" (filler 4) "text/plain" None;
    Cache.OpSet twoFiles "/B" (filler 4) "text/plain" None ].

(** The site after [note.txt] has been edited: seven bytes, one second
    later. *)
Definition siteEdited : FS := fun p =>
  if String.eqb p "/srv/www/note.txt" then
    Some (file 7 1700000001000 (filler 7))
  else site p.

Definition editedNoteInfo : FileInfo :=
  {| fi_path := "/srv/www/note.txt";
     fi_size := 7;
     fi_mtime := 1700000001000;
     fi_etag := dquote ++ "7-1700000001000" ++ dquote;
     fi_mimeType := "text/plain";
     fi_shouldCompress := false |}.

(** The configuration with CORS switched on. *)
Definition corsConfig : ServerConfig :=
  {| cfg_rootDir := "/srv/www"; cfg_indexPath := "index.html";
     cfg_cors := true |}.

(** The site with a directory below the root. *)
Definition siteWithDocs : FS := fun p =>
  if String.eqb p "/srv/www/docs" then Some directory else site p.

End Examples.

(* ===================================================================== *)
(** * Properties of the memory cache *)
(* ===================================================================== *)

Section CacheProperties.
Context `{Platform}.

Lemma statSync_truthy fs p n : statSync fs p = Some n -> truthy p = true.
Proof. unfold statSync. destruct (truthy p); [reflexivity | discriminate]. Qed.

Lemma get_set_same {V} k (v : V) m : JsMap.get k (JsMap.set k v m) = Some v.
Proof.
  induction m as [| [k' v'] m IH]; simpl.
  - now rewrite String.eqb_refl.
  - destruct (String.eqb k' k) eqn:E; simpl.
    + now rewrite String.eqb_refl.
    + now rewrite E.
Qed.

Lemma set_absent {V} k (v : V) m :
  JsMap.get k m = None -> JsMap.set k v m = (m ++ [(k, v)])%list.
Proof.
  induction m as [| [k' v'] m IH]; simpl; [reflexivity |].
  destruct (String.eqb k' k); [discriminate |].
  intros Hm. now rewrite IH.
Qed.

Lemma calculateSize_makeEntry stat content mimeType compressed :
  Cache.calculateSize (Cache.makeEntry stat content mimeType compressed) =
  Cache.payloadSize content compressed.
Proof. reflexivity. Qed.

Lemma payloadSize_nonneg content compressed :
  0 <= Cache.payloadSize content compressed.
Proof.
  unfold Cache.payloadSize, buffer_length. destruct compressed; lia.
Qed.

(** Claim C8.  A [set] whose entry (content plus compressed bytes) is
    larger than [maxSize] leaves the cache exactly as it was: the
    size, the entries and their order.  The call returns normally, or
    throws because its own stat of the key failed; it never loops. *)
Theorem oversized_set_leaves_cache_unchanged
    fs path content mimeType compressed (c : MemoryCache) :
  Cache.payloadSize content compressed > maxSize c ->
  snd (Cache.set fs path content mimeType compressed c) = c /\
  (fst (Cache.set fs path content mimeType compressed c) = Normal tt \/
   fst (Cache.set fs path content mimeType compressed c) = Thrown (ENOENT path)).
Proof.
  intros Hbig. unfold Cache.set.
  destruct (statSync fs path) as [stat |]; [| auto].
  rewrite calculateSize_makeEntry.
  destruct (Z.gtb_spec (Cache.payloadSize content compressed) (maxSize c));
    [auto | lia].
Qed.

Lemma gtb_false x y : x <= y -> (x >? y) = false.
Proof. intros. destruct (Z.gtb_spec x y); [lia | reflexivity]. Qed.

Lemma gtb_true x y : y < x -> (x >? y) = true.
Proof. intros. destruct (Z.gtb_spec x y); [reflexivity | lia]. Qed.

(** [set] of a new key that fits without eviction appends the entry. *)
Lemma set_new_key_fits fs path stat content mimeType compressed c :
  statSync fs path = Some stat ->
  JsMap.get path (cache c) = None ->
  currentSize c + Cache.payloadSize content compressed <= maxSize c ->
  0 <= currentSize c ->
  Cache.set fs path content mimeType compressed c =
  (Normal tt,
   Cache.with_cache
     (cache c ++ [(path, Cache.makeEntry stat content mimeType compressed)])%list
     (currentSize c + Cache.payloadSize content compressed) c).
Proof.
  intros Hstat Habsent Hfits Hpos. unfold Cache.set. rewrite Hstat.
  rewrite calculateSize_makeEntry.
  rewrite gtb_false by lia.
  unfold JsMap.has. rewrite Habsent.
  destruct (List.length (cache c)); simpl;
    rewrite (gtb_false (currentSize c + _)) by lia; simpl;
    now rewrite set_absent.
Qed.

(** [set] of a new key that fits once the oldest entry is gone. *)
Lemma set_new_key_evicts_one fs path stat content mimeType compressed
    k0 e0 rest mx cur :
  statSync fs path = Some stat ->
  truthy k0 = true ->
  JsMap.get path ((k0, e0) :: rest) = None ->
  Cache.payloadSize content compressed <= mx ->
  mx < cur + Cache.payloadSize content compressed ->
  cur - Cache.calculateSize e0 + Cache.payloadSize content compressed <= mx ->
  Cache.set fs path content mimeType compressed
    {| cache := (k0, e0) :: rest; maxSize := mx; currentSize := cur |} =
  (Normal tt,
   {| cache := (rest ++ [(path, Cache.makeEntry stat content mimeType compressed)])%list;
      maxSize := mx;
      currentSize :=
        cur - Cache.calculateSize e0 + Cache.payloadSize content compressed |}).
Proof.
  intros Hstat Hk0 Habsent Hone Hfull Hfits. unfold Cache.set. rewrite Hstat.
  rewrite calculateSize_makeEntry. cbn [maxSize cache currentSize].
  rewrite gtb_false by lia.
  unfold JsMap.has. rewrite Habsent.
  cbn [List.length Cache.evictWhile maxSize cache currentSize].
  rewrite (gtb_true (cur + _) mx) by lia.
  unfold JsMap.size at 1. cbn [List.length].
  rewrite (gtb_true (Z.of_nat _) 0) by lia. cbn [andb].
  unfold Cache.evictOldest. cbn [JsMap.firstKey cache]. rewrite Hk0.
  cbn [JsMap.get]. rewrite String.eqb_refl.
  cbn [JsMap.delete]. rewrite String.eqb_refl.
  unfold Cache.with_cache. cbn [maxSize cache currentSize].
  simpl in Habsent. destruct (String.eqb k0 path); [discriminate |].
  destruct (List.length rest); cbn [Cache.evictWhile maxSize cache currentSize];
    rewrite (gtb_false (cur - _ + _) mx) by lia; cbn [andb maxSize cache currentSize];
    now rewrite set_absent.
Qed.

(** Claim C7.  In a cache that holds exactly two entries of size [s]
    (2s <= maxSize < 3s): after set A, set B, get A, set C with three
    different keys that exist on disk, the keys are A then C, B is
    gone, and the cache size is 2s. *)
Theorem lru_get_protects_touched_entry
    fs maxSz a b c ca cb cc ma mb mc za zb zc s :
  a <> b -> a <> c -> b <> c ->
  is_Some (statSync fs a) -> is_Some (statSync fs b) -> is_Some (statSync fs c) ->
  Cache.payloadSize ca za = s ->
  Cache.payloadSize cb zb = s ->
  Cache.payloadSize cc zc = s ->
  2 * s <= maxSz < 3 * s ->
  let final :=
    Cache.run [ Cache.OpSet fs a ca ma za; Cache.OpSet fs b cb mb zb;
                Cache.OpGet a; Cache.OpSet fs c cc mc zc ]
              (Cache.new maxSz) in
  JsMap.keys (cache final) = [a; c] /\
  JsMap.has a (cache final) = true /\
  JsMap.has b (cache final) = false /\
  JsMap.has c (cache final) = true /\
  currentSize final = 2 * s.
Proof.
  intros Hab Hac Hbc [sa Ha] [sb Hb] [sc Hc] Hsa Hsb Hsc Hcap final.
  assert (Eab : String.eqb a b = false) by now apply String.eqb_neq.
  assert (Eba : String.eqb b a = false) by (apply String.eqb_neq; congruence).
  assert (Eac : String.eqb a c = false) by now apply String.eqb_neq.
  assert (Ebc : String.eqb b c = false) by now apply String.eqb_neq.
  assert (Ecb : String.eqb c b = false) by (apply String.eqb_neq; congruence).
  pose proof (statSync_truthy _ _ _ Hb) as Tb.
  subst final. unfold Cache.run. cbn [fold_left Cache.step].
  rewrite (set_new_key_fits fs a sa) by (cbn; auto; lia).
  cbn [snd]. unfold Cache.new, Cache.with_cache. cbn [cache maxSize currentSize app].
  rewrite (set_new_key_fits fs b sb) by (cbn; rewrite ?Eab; auto; lia).
  cbn [snd]. unfold Cache.with_cache. cbn [cache maxSize currentSize app].
  unfold Cache.get. cbn [cache JsMap.get]. rewrite String.eqb_refl.
  cbn [JsMap.delete]. rewrite String.eqb_refl.
  cbn [JsMap.set]. rewrite Eba.
  cbn [snd]. unfold Cache.with_cache. cbn [cache maxSize currentSize].
  rewrite (set_new_key_evicts_one fs c sc)
    by (cbn; rewrite ?Ebc, ?Eac, ?calculateSize_makeEntry; auto; lia).
  cbn [snd cache currentSize app JsMap.keys List.map fst].
  unfold JsMap.has. cbn [JsMap.get].
  rewrite !String.eqb_refl, ?Eab, ?Eac, ?Eba, ?Ebc, ?Ecb, ?calculateSize_makeEntry.
  repeat split; try reflexivity. lia.
Qed.

(** ** Entries are built by [set] *)

Lemma Forall_delete {V} (P : string * V -> Prop) k m :
  Forall P m -> Forall P (JsMap.delete k m).
Proof.
  induction 1 as [| [k' v'] m Hx Hm IH]; simpl; [constructor |].
  destruct (String.eqb k' k); [assumption | now constructor].
Qed.

Lemma Forall_set {V} (P : string * V -> Prop) k v m :
  P (k, v) -> Forall P m -> Forall P (JsMap.set k v m).
Proof.
  intros Hkv. induction 1 as [| [k' v'] m Hx Hm IH]; simpl.
  - now repeat constructor.
  - destruct (String.eqb k' k); now constructor.
Qed.

Lemma Forall_get {V} (P : string * V -> Prop) k v m :
  Forall P m -> JsMap.get k m = Some v -> P (k, v).
Proof.
  induction 1 as [| [k' v'] m Hx Hm IH]; simpl; [discriminate |].
  destruct (String.eqb_spec k' k) as [-> | Hne]; [| assumption].
  now intros [= <-].
Qed.

Lemma wellFormed_entry c path entry :
  Cache.wellFormed c -> JsMap.get path (cache c) = Some entry ->
  Cache.builtBySet entry.
Proof.
  intros Hc Hget.
  apply (Forall_get (fun kv => Cache.builtBySet (snd kv)) path entry (cache c));
    auto.
Qed.

Lemma evictOldest_wellFormed c :
  Cache.wellFormed c -> Cache.wellFormed (Cache.evictOldest c).
Proof.
  intros Hc. unfold Cache.evictOldest.
  destruct (JsMap.firstKey (cache c)) as [k |]; [| assumption].
  destruct (truthy k); [| assumption].
  destruct (JsMap.get k (cache c)); [| assumption].
  now apply Forall_delete.
Qed.

Lemma evictWhile_wellFormed fuel entrySize c c' :
  Cache.wellFormed c -> Cache.evictWhile fuel entrySize c = Some c' ->
  Cache.wellFormed c'.
Proof.
  revert c. induction fuel as [| fuel IH]; intros c Hc; simpl;
    destruct (_ && _); try discriminate; try (intros [= <-]; assumption).
  apply IH. now apply evictOldest_wellFormed.
Qed.

Lemma step_wellFormed c op :
  Cache.wellFormed c -> Cache.wellFormed (Cache.step c op).
Proof.
  intros Hc. destruct op as [fs path content mimeType compressed | path | path |];
    cbn [Cache.step].
  - unfold Cache.set. destruct (statSync fs path) as [stat |]; [| assumption].
    destruct (_ >? _); [assumption |].
    set (c1 := if JsMap.has path (cache c) then _ else c).
    assert (Hc1 : Cache.wellFormed c1).
    { subst c1. destruct (JsMap.has path (cache c)); [| assumption].
      destruct (JsMap.get path (cache c)); assumption. }
    destruct (Cache.evictWhile _ _ c1) as [c2 |] eqn:He; cbn [snd]; [| assumption].
    apply Forall_set; [split; reflexivity |].
    eapply evictWhile_wellFormed; eauto.
  - unfold Cache.get.
    destruct (JsMap.get path (cache c)) as [entry |] eqn:Hget; cbn [snd];
      [| assumption].
    apply Forall_set.
    + exact (wellFormed_entry c path entry Hc Hget).
    + now apply Forall_delete.
  - unfold Cache.delete.
    destruct (JsMap.get path (cache c)); [| assumption].
    now apply Forall_delete.
  - constructor.
Qed.

(** Whatever is called on a cache that started empty, its entries are
    entries built by [set]. *)
Lemma run_wellFormed ops maxSz :
  Cache.wellFormed (Cache.run ops (Cache.new maxSz)).
Proof.
  unfold Cache.run.
  assert (Hnew : Cache.wellFormed (Cache.new maxSz)) by constructor.
  revert Hnew. generalize (Cache.new maxSz).
  induction ops as [| op ops IH]; intros c Hc; [assumption |].
  cbn [fold_left]. apply IH. now apply step_wellFormed.
Qed.

(** Claim C1, at the failing run.  Set A (4 bytes), set B (4 bytes), set A
    again with 8 bytes in a cache of 10 bytes: the second set of A
    subtracts the old A, the eviction loop then removes that same old
    A and subtracts it a second time.  The counter ends at 8 while the
    two entries present hold 12 bytes, more than [maxSize]. *)
Theorem overwrite_with_eviction_breaks_size_invariant :
  let c := Cache.run Examples.overwriteUnderPressure (Cache.new 10) in
  JsMap.keys (cache c) = ["/B"; "/A"] /\
  currentSize c = 8 /\
  Cache.entriesSize (cache c) = 12 /\
  maxSize c = 10 /\
  ~ Cache.sizeInvariant c.
Proof.
  repeat split; try (vm_compute; reflexivity).
  intros [Hsum _]. vm_compute in Hsum. discriminate.
Qed.
End CacheProperties.

(* ===================================================================== *)
(** * Invariants of the memory cache *)
(* ===================================================================== *)

Section CacheInvariants.
Context `{Platform}.

(** ** The map stays a map *)

Lemma get_delete_other {V} k k' (m : JsMap.t V) :
  k <> k' -> JsMap.get k' (JsMap.delete k m) = JsMap.get k' m.
Proof.
  intros Hne. induction m as [| [k0 v0] m IH]; simpl; [reflexivity |].
  destruct (String.eqb_spec k0 k) as [-> | Hk0]; simpl.
  - destruct (String.eqb_spec k k'); [contradiction | reflexivity].
  - now rewrite IH.
Qed.

Lemma get_delete_none {V} k k' (m : JsMap.t V) :
  JsMap.get k' m = None -> JsMap.get k' (JsMap.delete k m) = None.
Proof.
  induction m as [| [k0 v0] m IH]; simpl; [reflexivity |].
  destruct (String.eqb_spec k0 k') as [-> | Hk0]; [discriminate |].
  intros Hm. destruct (String.eqb k0 k); [assumption |].
  simpl. destruct (String.eqb_spec k0 k'); [contradiction | auto].
Qed.

Lemma get_delete_same {V} k (m : JsMap.t V) :
  JsMap.distinct m -> JsMap.get k (JsMap.delete k m) = None.
Proof.
  induction m as [| [k0 v0] m IH]; simpl; [reflexivity |].
  intros [Hk0 Hm]. destruct (String.eqb_spec k0 k) as [-> | Hne]; [assumption |].
  simpl. destruct (String.eqb_spec k0 k); [contradiction | auto].
Qed.

Lemma distinct_delete {V} k (m : JsMap.t V) :
  JsMap.distinct m -> JsMap.distinct (JsMap.delete k m).
Proof.
  induction m as [| [k0 v0] m IH]; simpl; [trivial |].
  intros [Hk0 Hm]. destruct (String.eqb k0 k); [assumption |].
  simpl. split; [now apply get_delete_none | auto].
Qed.

Lemma get_set_other {V} k k' (v : V) (m : JsMap.t V) :
  k <> k' -> JsMap.get k' (JsMap.set k v m) = JsMap.get k' m.
Proof.
  intros Hne. induction m as [| [k0 v0] m IH]; simpl.
  - destruct (String.eqb_spec k k'); [contradiction | reflexivity].
  - destruct (String.eqb_spec k0 k) as [-> | Hk0]; simpl.
    + destruct (String.eqb_spec k k'); [contradiction | reflexivity].
    + now rewrite IH.
Qed.

Lemma distinct_set {V} k (v : V) (m : JsMap.t V) :
  JsMap.distinct m -> JsMap.distinct (JsMap.set k v m).
Proof.
  induction m as [| [k0 v0] m IH]; simpl; [auto |].
  intros [Hk0 Hm]. destruct (String.eqb_spec k0 k) as [-> | Hne]; simpl.
  - auto.
  - split; [| auto]. rewrite get_set_other; [assumption | congruence].
Qed.

Lemma truthy_delete {V} k (m : JsMap.t V) :
  Forall (fun kv => truthy (fst kv) = true) m ->
  Forall (fun kv => truthy (fst kv) = true) (JsMap.delete k m).
Proof. apply Forall_delete. Qed.

Lemma evictOldest_mapInvariant c :
  Cache.mapInvariant c -> Cache.mapInvariant (Cache.evictOldest c).
Proof.
  intros [Hd Ht]. unfold Cache.evictOldest.
  destruct (JsMap.firstKey (cache c)) as [k |]; [| now split].
  destruct (truthy k); [| now split].
  destruct (JsMap.get k (cache c)); [| now split].
  split; cbn [Cache.with_cache cache]; [now apply distinct_delete | now apply Forall_delete].
Qed.

Lemma evictWhile_mapInvariant fuel entrySize c c' :
  Cache.mapInvariant c -> Cache.evictWhile fuel entrySize c = Some c' ->
  Cache.mapInvariant c'.
Proof.
  revert c. induction fuel as [| fuel IH]; intros c Hc; simpl;
    destruct (_ && _); try discriminate; try (intros [= <-]; assumption).
  apply IH. now apply evictOldest_mapInvariant.
Qed.

(** Oldest entries go one by one: on a map without empty keys the loop
    of [set] ends within one round per entry. *)
Lemma evictWhile_returns fuel entrySize c :
  Forall (fun kv => truthy (fst kv) = true) (cache c) ->
  (List.length (cache c) <= fuel)%nat ->
  exists c', Cache.evictWhile fuel entrySize c = Some c'.
Proof.
  revert c. induction fuel as [| fuel IH]; intros c Ht Hlen; simpl.
  - destruct (cache c) eqn:Hc; [| simpl in Hlen; lia].
    cbn. rewrite andb_false_r. eauto.
  - destruct (_ && _) eqn:Hcond; [| eauto].
    apply IH; unfold Cache.evictOldest.
    + destruct (JsMap.firstKey (cache c)) as [k |]; [| assumption].
      destruct (truthy k); [| assumption].
      destruct (JsMap.get k (cache c)); [| assumption].
      now apply Forall_delete.
    + destruct (cache c) as [| [k e] rest] eqn:Hc; cbn [JsMap.firstKey].
      * rewrite Hc. simpl. lia.
      * inversion Ht as [| ? ? Hk Hrest]; subst. cbn [fst] in Hk. rewrite Hk.
        cbn [JsMap.get]. rewrite String.eqb_refl.
        cbn [Cache.with_cache cache JsMap.delete]. rewrite String.eqb_refl.
        simpl in Hlen. lia.
Qed.

Lemma step_mapInvariant c op :
  Cache.mapInvariant c -> Cache.mapInvariant (Cache.step c op).
Proof.
  intros Hc. destruct op as [fs path content mimeType compressed | path | path |];
    cbn [Cache.step].
  - unfold Cache.set. destruct (statSync fs path) as [stat |] eqn:Hstat; [| assumption].
    destruct (_ >? _); [assumption |].
    set (c1 := if JsMap.has path (cache c) then _ else c).
    assert (Hc1 : Cache.mapInvariant c1).
    { subst c1. destruct (JsMap.has path (cache c)); [| assumption].
      destruct (JsMap.get path (cache c)); assumption. }
    destruct (Cache.evictWhile _ _ c1) as [c2 |] eqn:He; cbn [snd]; [| assumption].
    destruct (evictWhile_mapInvariant _ _ _ _ Hc1 He) as [Hd Ht].
    split; cbn [Cache.with_cache cache].
    + now apply distinct_set.
    + apply Forall_set; [| assumption]. cbn [fst].
      eapply statSync_truthy; eauto.
  - destruct Hc as [Hd Ht]. unfold Cache.get.
    destruct (JsMap.get path (cache c)) as [entry |] eqn:Hget; cbn [snd];
      [| now split].
    split; cbn [Cache.with_cache cache].
    + now apply distinct_set, distinct_delete.
    + apply Forall_set; [| now apply Forall_delete].
      apply (Forall_get (fun kv => truthy (fst kv) = true) path entry (cache c));
        auto.
  - destruct Hc as [Hd Ht]. unfold Cache.delete.
    destruct (JsMap.get path (cache c)); [| now split].
    split; cbn [Cache.with_cache cache];
      [now apply distinct_delete | now apply Forall_delete].
  - split; constructor.
Qed.

Lemma run_mapInvariant ops c :
  Cache.mapInvariant c -> Cache.mapInvariant (Cache.run ops c).
Proof.
  unfold Cache.run. revert c.
  induction ops as [| op ops IH]; intros c Hc; [assumption |].
  cbn [fold_left]. apply IH. now apply step_mapInvariant.
Qed.

(** [set] always ends on a cache that the code has built. *)
Lemma set_ends fs path content mimeType compressed c :
  Cache.mapInvariant c ->
  fst (Cache.set fs path content mimeType compressed c) <> Diverged.
Proof.
  intros [Hd Ht]. unfold Cache.set.
  destruct (statSync fs path); [| discriminate].
  destruct (_ >? _); [discriminate |].
  set (c1 := if JsMap.has path (cache c) then _ else c).
  assert (Hc1 : cache c1 = cache c).
  { subst c1. destruct (JsMap.has path (cache c)); [| reflexivity].
    destruct (JsMap.get path (cache c)); reflexivity. }
  destruct (evictWhile_returns (List.length (cache c1))
              (Cache.calculateSize (Cache.makeEntry n content mimeType compressed)) c1)
    as [c2 Hc2]; [now rewrite Hc1 | lia |].
  rewrite Hc2. discriminate.
Qed.

(** ** The size invariant, as long as no entry is overwritten *)

Lemma entriesSize_delete k entry m :
  JsMap.get k m = Some entry ->
  Cache.entriesSize (JsMap.delete k m) =
  Cache.entriesSize m - Cache.calculateSize entry.
Proof.
  induction m as [| [k0 e0] m IH]; simpl; [discriminate |].
  destruct (String.eqb k0 k).
  - intros [= ->]. lia.
  - intros Hm. simpl. rewrite IH by assumption. lia.
Qed.

Lemma entriesSize_app m k entry :
  Cache.entriesSize (m ++ [(k, entry)])%list =
  Cache.entriesSize m + Cache.calculateSize entry.
Proof.
  induction m as [| [k0 e0] m IH]; simpl; [lia |]. rewrite IH. lia.
Qed.

Lemma evictOldest_sum c :
  currentSize c = Cache.entriesSize (cache c) ->
  currentSize (Cache.evictOldest c) = Cache.entriesSize (cache (Cache.evictOldest c)).
Proof.
  intros Hsum. unfold Cache.evictOldest.
  destruct (JsMap.firstKey (cache c)) as [k |]; [| assumption].
  destruct (truthy k); [| assumption].
  destruct (JsMap.get k (cache c)) as [entry |] eqn:Hget; [| assumption].
  cbn [Cache.with_cache cache currentSize].
  rewrite (entriesSize_delete _ _ _ Hget). lia.
Qed.

Lemma evictOldest_get_none path c :
  JsMap.get path (cache c) = None ->
  JsMap.get path (cache (Cache.evictOldest c)) = None.
Proof.
  intros Hnone. unfold Cache.evictOldest.
  destruct (JsMap.firstKey (cache c)) as [k |]; [| assumption].
  destruct (truthy k); [| assumption].
  destruct (JsMap.get k (cache c)); [| assumption].
  now apply get_delete_none.
Qed.

Lemma evictOldest_maxSize c : maxSize (Cache.evictOldest c) = maxSize c.
Proof.
  unfold Cache.evictOldest.
  destruct (JsMap.firstKey (cache c)) as [k |]; [| reflexivity].
  destruct (truthy k); [| reflexivity].
  destruct (JsMap.get k (cache c)); reflexivity.
Qed.

(** What the loop of [set] hands over when it ends: the sum still
    holds, the key is still absent, and there is room for the new entry
    or nothing left to evict. *)
Lemma evictWhile_spec fuel entrySize path c c' :
  currentSize c = Cache.entriesSize (cache c) ->
  JsMap.get path (cache c) = None ->
  Cache.evictWhile fuel entrySize c = Some c' ->
  currentSize c' = Cache.entriesSize (cache c') /\
  JsMap.get path (cache c') = None /\
  maxSize c' = maxSize c /\
  (currentSize c' + entrySize <= maxSize c' \/ cache c' = []).
Proof.
  revert c. induction fuel as [| fuel IH]; intros c Hsum Hnone; simpl.
  - destruct (_ && _) eqn:Hcond; [discriminate |]. intros [= <-].
    repeat split; try assumption.
    apply andb_false_iff in Hcond as [Hroom | Hempty].
    + left. destruct (Z.gtb_spec (currentSize c + entrySize) (maxSize c));
        [discriminate | assumption].
    + right. unfold JsMap.size in Hempty. destruct (cache c); [reflexivity |].
      simpl in Hempty. destruct (Z.gtb_spec (Z.pos (Pos.of_succ_nat (List.length t))) 0);
        [discriminate | lia].
  - destruct (_ && _) eqn:Hcond.
    + intros He.
      destruct (IH (Cache.evictOldest c)) as (H1 & H2 & H3 & H4); auto.
      * now apply evictOldest_sum.
      * now apply evictOldest_get_none.
      * rewrite evictOldest_maxSize in H3. auto.
    + intros [= <-]. repeat split; try assumption.
      apply andb_false_iff in Hcond as [Hroom | Hempty].
      * left. destruct (Z.gtb_spec (currentSize c + entrySize) (maxSize c));
          [discriminate | assumption].
      * right. unfold JsMap.size in Hempty. destruct (cache c); [reflexivity |].
        simpl in Hempty.
        destruct (Z.gtb_spec (Z.pos (Pos.of_succ_nat (List.length t))) 0);
          [discriminate | lia].
Qed.

Lemma evictWhile_maxSize fuel entrySize c c' :
  Cache.evictWhile fuel entrySize c = Some c' -> maxSize c' = maxSize c.
Proof.
  revert c. induction fuel as [| fuel IH]; intros c; simpl;
    destruct (_ && _); try discriminate; try (now intros [= <-]).
  intros He. rewrite (IH _ He). apply evictOldest_maxSize.
Qed.

Lemma step_maxSize c op : maxSize (Cache.step c op) = maxSize c.
Proof.
  destruct op as [fs path content mimeType compressed | path | path |];
    cbn [Cache.step].
  - unfold Cache.set. destruct (statSync fs path); [| reflexivity].
    destruct (_ >? _); [reflexivity |].
    set (c1 := if JsMap.has path (cache c) then _ else c).
    assert (Hc1 : maxSize c1 = maxSize c).
    { subst c1. destruct (JsMap.has path (cache c)); [| reflexivity].
      destruct (JsMap.get path (cache c)); reflexivity. }
    destruct (Cache.evictWhile _ _ c1) as [c2 |] eqn:He; cbn [snd]; [| assumption].
    cbn [Cache.with_cache maxSize]. rewrite <- Hc1.
    eapply evictWhile_maxSize; eauto.
  - unfold Cache.get. destruct (JsMap.get path (cache c)); reflexivity.
  - unfold Cache.delete. destruct (JsMap.get path (cache c)); reflexivity.
  - reflexivity.
Qed.

(** One call that overwrites nothing keeps the size invariant. *)
Lemma step_sizeInvariant c op :
  Cache.mapInvariant c -> 0 <= maxSize c ->
  Cache.writesNewKey c op ->
  Cache.sizeInvariant c -> Cache.sizeInvariant (Cache.step c op).
Proof.
  intros [Hd Ht] Hmax Hnew [Hsum Hle].
  destruct op as [fs path content mimeType compressed | path | path |];
    cbn [Cache.step Cache.writesNewKey] in *.
  - unfold Cache.set. destruct (statSync fs path) as [stat |]; [| now split].
    rewrite calculateSize_makeEntry.
    destruct (Z.gtb_spec (Cache.payloadSize content compressed) (maxSize c))
      as [Hbig | Hfit]; [now split |].
    unfold JsMap.has. rewrite Hnew.
    destruct (Cache.evictWhile _ _ c) as [c2 |] eqn:He; cbn [snd]; [| now split].
    destruct (evictWhile_spec _ _ path _ _ Hsum Hnew He) as (Hsum2 & Hnone2 & Hmax2 & Hroom).
    unfold Cache.sizeInvariant. cbn [Cache.with_cache cache currentSize maxSize].
    rewrite (set_absent _ _ _ Hnone2), entriesSize_app, calculateSize_makeEntry.
    split; [lia |].
    destruct Hroom as [Hroom | Hempty]; [assumption |].
    rewrite Hsum2, Hempty. cbn. lia.
  - unfold Cache.get.
    destruct (JsMap.get path (cache c)) as [entry |] eqn:Hget; cbn [snd]; [| now split].
    unfold Cache.sizeInvariant. cbn [Cache.with_cache cache currentSize maxSize].
    rewrite set_absent by now apply get_delete_same.
    rewrite entriesSize_app, (entriesSize_delete _ _ _ Hget). split; lia.
  - unfold Cache.delete.
    destruct (JsMap.get path (cache c)) as [entry |] eqn:Hget; [| now split].
    unfold Cache.sizeInvariant. cbn [Cache.with_cache cache currentSize maxSize].
    rewrite (entriesSize_delete _ _ _ Hget). split; [lia |].
    unfold Cache.calculateSize, buffer_length. destruct (compressed entry); lia.
  - split; [reflexivity | assumption].
Qed.

(** Property X1.  The size invariant holds after every sequence of calls
    on a new cache in which no [set] writes a key that is present at that
    moment. *)
Lemma run_sizeInvariant ops maxSz :
  0 <= maxSz ->
  Cache.neverOverwrites ops (Cache.new maxSz) ->
  Cache.sizeInvariant (Cache.run ops (Cache.new maxSz)).
Proof.
  intros Hmax. unfold Cache.run.
  assert (Hmap : Cache.mapInvariant (Cache.new maxSz)) by (split; constructor).
  assert (Hinv : Cache.sizeInvariant (Cache.new maxSz)) by (split; [reflexivity | exact Hmax]).
  assert (Hmax' : 0 <= maxSize (Cache.new maxSz)) by exact Hmax.
  revert Hmap Hinv Hmax'. generalize (Cache.new maxSz).
  induction ops as [| op ops IH]; intros c Hmap Hinv Hmax' Hops; [assumption |].
  destruct Hops as [Hop Hops]. cbn [fold_left]. apply IH.
  - now apply step_mapInvariant.
  - now apply step_sizeInvariant.
  - now rewrite step_maxSize.
  - assumption.
Qed.
End CacheInvariants.

(* ===================================================================== *)
(** * Properties of path resolution *)
(* ===================================================================== *)

Section PathProperties.
Context `{Platform}.

Lemma dropCommon_prefix from to down :
  dropCommon from to = ([], down) -> segmentsPrefix from to = true.
Proof.
  revert to. induction from as [| a from IH]; intros to Hd; [reflexivity |].
  destruct to as [| b to]; simpl in Hd; [discriminate |].
  simpl. destruct (String.eqb a b); [| discriminate]. simpl. eauto.
Qed.

Lemma join_dotdot_first rest :
  startsWith (join_with "/" (".." :: rest)) ".." = true.
Proof. destruct rest; reflexivity. Qed.

(** The guard of [getFileInfo]: a relative path that does not begin
    with two dots leads to a place inside [from]. *)
Lemma relative_inside from to :
  startsWith (path_relative from to) ".." = false ->
  containedIn from to = true.
Proof.
  unfold path_relative, containedIn.
  destruct (dropCommon (resolvedSegments from) (resolvedSegments to))
    as [up down] eqn:Hd.
  destruct up as [| u up].
  - intros _. eapply dropCommon_prefix; eauto.
  - cbn [List.map app]. rewrite join_dotdot_first. discriminate.
Qed.

Lemma getFileInfo_path h fs filePath info :
  Static.getFileInfo h fs filePath = Some info ->
  fi_path info = path_join (rootDir h) filePath.
Proof.
  unfold Static.getFileInfo.
  destruct (statSync fs _); [| discriminate].
  destruct (negb _); [discriminate |].
  destruct (startsWith _ _); [discriminate |].
  now intros [= <-].
Qed.

Lemma not_found_is_404 h disk req filePath c :
  Static.getFileInfo h (at_stat disk) filePath = None ->
  snd (Static.handleFileRequest h disk req filePath
         {| w_cache := c; w_res := Http.newResponse |}) =
  {| w_cache := c;
     w_res := {| statusCode := 404;
                 headers := {[ "Content-Type" := "text/plain" ]};
                 headersSent := true;
                 finished := true;
                 body := Some (Text "File not found") |} |}.
Proof.
  intros Hnone. unfold Static.handleFileRequest. rewrite Hnone.
  reflexivity.
Qed.

Lemma normalizeSegments_no_dotdot acc segs :
  Forall (fun seg => seg <> "..") acc ->
  Forall (fun seg => seg <> "..") (normalizeSegments false acc segs).
Proof.
  revert acc. induction segs as [| seg segs IH]; intros acc Hacc; simpl.
  - now apply List.Forall_rev.
  - destruct (String.eqb seg EmptyString || String.eqb seg "."); [now apply IH |].
    destruct (String.eqb seg "..") eqn:Hseg.
    + destruct acc as [| top acc]; [now apply IH |].
      inversion Hacc as [| ? ? Htop Hrest]; subst.
      destruct (String.eqb top ".."); now apply IH.
    + apply IH. constructor; [| assumption].
      now apply String.eqb_neq.
Qed.

Lemma resolvedSegments_no_dotdot p :
  Forall (fun seg => seg <> "..") (resolvedSegments p).
Proof. apply normalizeSegments_no_dotdot. constructor. Qed.

(** Claim C6.  Whatever the request path holds (dot-dot segments, decoded
    escapes), file resolution has two outcomes.  Either it returns the
    joined path, whose resolved segments extend those of [rootDir] and
    hold no dot-dot, and which is a regular file on disk; or it returns
    nothing and the request is answered 404. *)
Theorem resolved_file_stays_inside_root h disk req filePath c :
  match Static.getFileInfo h (at_stat disk) filePath with
  | Some info =>
      fi_path info = path_join (rootDir h) filePath /\
      containedIn (rootDir h) (fi_path info) = true /\
      Forall (fun seg => seg <> "..") (resolvedSegments (fi_path info)) /\
      exists node, statSync (at_stat disk) (fi_path info) = Some node /\
                   node_isFile node = true
  | None =>
      let res := w_res (snd (Static.handleFileRequest h disk req filePath
                               {| w_cache := c; w_res := Http.newResponse |})) in
      statusCode res = 404 /\ body res = Some (Text "File not found")
  end.
Proof.
  destruct (Static.getFileInfo h (at_stat disk) filePath) as [info |] eqn:Hinfo.
  - pose proof (getFileInfo_path _ _ _ _ Hinfo) as Hpath.
    split; [exact Hpath |].
    unfold Static.getFileInfo in Hinfo.
    destruct (statSync (at_stat disk) _) as [stat |] eqn:Hstat; [| discriminate].
    destruct (node_isFile stat) eqn:Hfile; [| discriminate]. cbn [negb] in Hinfo.
    destruct (startsWith _ _) eqn:Hrel; [discriminate |].
    rewrite Hpath. split; [now apply relative_inside |].
    split; [apply resolvedSegments_no_dotdot |].
    exists stat. auto.
  - rewrite not_found_is_404 by assumption. cbn. auto.
Qed.
End PathProperties.

(* ===================================================================== *)
(** * Properties of the server *)
(* ===================================================================== *)

Section ServerProperties.
Context `{Platform}.

(** Claim C9.  A request whose URL parses to a path outside [/api/], whose
    method is neither GET nor HEAD, and which is not an OPTIONS request
    answered by the CORS set-up, gets status 405 with the header
    [Allow: GET, HEAD, OPTIONS]; the cache is not touched. *)
Theorem other_methods_get_405 config disk req c pathname :
  URL_pathname (Static.requestPath req) (Server.baseOf req) = Some pathname ->
  startsWith pathname "/api/" = false ->
  method req <> "GET" ->
  method req <> "HEAD" ->
  ~ (cfg_cors config = true /\ method req = "OPTIONS") ->
  let res := fst (Server.serve config disk req c) in
  statusCode res = 405 /\
  headers res !! "Allow" = Some "GET, HEAD, OPTIONS" /\
  body res = Some (Text "Method Not Allowed") /\
  snd (Server.serve config disk req c) = c.
Proof.
  intros Hurl Hapi Hget Hhead Hcors.
  apply String.eqb_neq in Hget, Hhead.
  unfold Server.serve, Server.listener, Server.handleRequest, Server.setupCors.
  rewrite Hurl, Hapi, Hget, Hhead.
  destruct (cfg_cors config) eqn:Ec; cbn [negb].
  - assert (Hopt : String.eqb (method req) "OPTIONS" = false).
    { apply String.eqb_neq. intros E. apply Hcors. auto. }
    rewrite Hopt. vm_compute. auto.
  - vm_compute. auto.
Qed.

(** Claim C5, as the code has it.  A GET or HEAD request outside [/api/]
    whose path does not percent-decode is answered 500 with the text
    of the server's catch-all: the URIError leaves [sanitizePath] and
    the static handler uncaught.  No file is looked up and the cache
    is not touched. *)
Theorem decode_failure_is_answered_500 config disk req c pathname :
  method req = "GET" \/ method req = "HEAD" ->
  URL_pathname (Static.requestPath req) (Server.baseOf req) = Some pathname ->
  startsWith pathname "/api/" = false ->
  decodeURIComponent
    (Static.encodedPathname (Server.fileHandler config) (Static.requestPath req))
    = None ->
  let res := fst (Server.serve config disk req c) in
  statusCode res = 500 /\
  body res = Some (Text "Internal Server Error") /\
  snd (Server.serve config disk req c) = c.
Proof.
  intros Hmethod Hurl Hapi Hdecode.
  assert (Hstatic :
    String.eqb (method req) "GET" || String.eqb (method req) "HEAD" = true).
  { destruct Hmethod as [-> | ->]; reflexivity. }
  assert (Hopt : String.eqb (method req) "OPTIONS" = false).
  { destruct Hmethod as [-> | ->]; reflexivity. }
  unfold Server.serve, Server.listener, Server.handleRequest, Server.setupCors,
    Static.handleRequest, Static.sanitizePath.
  rewrite Hurl, Hapi, Hstatic, Hdecode, Hopt.
  destruct (cfg_cors config); vm_compute; auto.
Qed.
End ServerProperties.

(* ===================================================================== *)
(** * Properties of the static file handler *)
(* ===================================================================== *)

Section StaticProperties.
Context `{Platform}.

(** What [handleFileRequest] learns from the cache: a hit hands back the
    entry, moved to the end of the map. *)
Lemma isModified_after_get path mt c :
  Cache.isModified path mt (snd (Cache.get path c)) = Cache.isModified path mt c.
Proof.
  unfold Cache.get, Cache.isModified.
  destruct (JsMap.get path (cache c)) as [entry |] eqn:Hget; cbn [snd].
  - unfold Cache.with_cache. cbn [cache]. now rewrite get_set_same.
  - now rewrite Hget.
Qed.

Lemma set_throws_without_file fs path content mimeType compressed c :
  statSync fs path = None ->
  Cache.set fs path content mimeType compressed c = (Thrown (ENOENT path), c).
Proof. intros Hstat. unfold Cache.set. now rewrite Hstat. Qed.

(** Claim C10.  [set] stats its key before it stores anything: when the
    path is gone from the disk at that moment, [set] throws ENOENT
    whatever the cache holds, and a request that had found the file,
    missed the cache (or found a stale entry) and read the bytes is
    answered 500 instead of being served those bytes. *)
Theorem vanished_file_at_set_is_answered_500
    h disk req filePath fi content c :
  Static.getFileInfo h (at_stat disk) filePath = Some fi ->
  Cache.isModified (fi_path fi) (fi_mtime fi) c = true ->
  readFileSync (at_read disk) (fi_path fi) = Normal content ->
  statSync (at_set disk) (fi_path fi) = None ->
  (forall mimeType compressed c0,
      Cache.set (at_set disk) (fi_path fi) content mimeType compressed c0 =
      (Thrown (ENOENT (fi_path fi)), c0)) /\
  let w := snd (Static.handleFileRequest h disk req filePath
                  {| w_cache := c; w_res := Http.newResponse |}) in
  statusCode (w_res w) = 500 /\
  body (w_res w) = Some (Text "Internal server error") /\
  w_cache w = snd (Cache.get (fi_path fi) c).
Proof.
  intros Hinfo Hmod Hread Hstat. split.
  - intros. now apply set_throws_without_file.
  - unfold Static.handleFileRequest. rewrite Hinfo.
    unfold try_catch, bind, cache_call, on_cache, zoom. cbn [w_cache w_res].
    pose proof (isModified_after_get (fi_path fi) (fi_mtime fi) c) as Hafter.
    rewrite Hmod in Hafter.
    destruct (Cache.get (fi_path fi) c) as [cacheEntry c1] eqn:Hget.
    cbn [snd] in Hafter. cbn [w_cache w_res]. rewrite Hafter.
    assert (Hmiss :
      Static.readAndStore disk fi {| w_cache := c1; w_res := Http.newResponse |} =
      (Thrown (ENOENT (fi_path fi)), {| w_cache := c1; w_res := Http.newResponse |})).
    { unfold Static.readAndStore, bind, lift, on_cache, zoom. rewrite Hread.
      cbn [w_cache w_res]. now rewrite set_throws_without_file. }
    destruct cacheEntry; cbn [negb]; rewrite Hmiss; vm_compute; auto.
Qed.

Lemma set_on_new_cache_returns fs path stat content mimeType compressed maxSz :
  statSync fs path = Some stat ->
  exists c', Cache.set fs path content mimeType compressed (Cache.new maxSz) =
             (Normal tt, c').
Proof.
  intros Hstat. unfold Cache.set. rewrite Hstat.
  destruct (_ >? _); [eauto |].
  cbn. rewrite andb_false_r. eauto.
Qed.

(** The answer to a first, unconditional request for a file: the
    header [Content-Encoding] follows the compressed form alone, the
    body follows the compressed form and the client's [Accept-Encoding]. *)
Lemma first_response_encoding h disk req filePath fi content maxSz :
  Static.getFileInfo h (at_stat disk) filePath = Some fi ->
  readFileSync (at_read disk) (fi_path fi) = Normal content ->
  is_Some (statSync (at_set disk) (fi_path fi)) ->
  Http.header req "if-none-match" = None ->
  Http.header req "if-modified-since" = None ->
  let compressed :=
    if fi_shouldCompress fi then Static.compressContent content else None in
  let res := w_res (snd (Static.handleFileRequest h disk req filePath
                           {| w_cache := Cache.new maxSz;
                              w_res := Http.newResponse |})) in
  statusCode res = 200 /\
  headers res !! "Content-Encoding" =
    match compressed with Some _ => Some "gzip" | None => None end /\
  body res =
    Some (Bytes match compressed with
                | Some z => if Gzip.acceptsGzip req then z else content
                | None => content
                end).
Proof.
  intros Hinfo Hread [stat Hstat] Hinm Hims compressed.
  destruct (set_on_new_cache_returns _ _ _ content (fi_mimeType fi) compressed
              maxSz Hstat) as [c' Hset].
  unfold Static.handleFileRequest. rewrite Hinfo, Hinm, Hims.
  unfold Static.readAndStore. rewrite Hread.
  unfold Gzip.shouldServeCompressed.
  unfold try_catch, bind, cache_call, on_cache, on_res, lift, zoom.
  cbn [w_cache w_res].
  change (Cache.get (fi_path fi) (Cache.new maxSz))
    with (@None CacheEntry, Cache.new maxSz).
  cbn [w_cache w_res fst snd].
  fold compressed. rewrite Hset.
  destruct compressed as [z |]; [destruct (Gzip.acceptsGzip req) |];
    cbn; repeat split.
Qed.

(** Claim C2, where the code departs from it.  A first request for a
    file that gets compressed, from a client whose [Accept-Encoding]
    does not hold [gzip] and with no conditional header, is answered 200 with
    the raw bytes and their length, and still carries
    [Content-Encoding: gzip]. *)
Theorem gzip_header_sent_with_raw_body
    h disk req filePath fi content z maxSz :
  Static.getFileInfo h (at_stat disk) filePath = Some fi ->
  fi_shouldCompress fi = true ->
  readFileSync (at_read disk) (fi_path fi) = Normal content ->
  gzip 6 content = Some z ->
  is_Some (statSync (at_set disk) (fi_path fi)) ->
  Http.header req "if-none-match" = None ->
  Http.header req "if-modified-since" = None ->
  Gzip.acceptsGzip req = false ->
  let res := w_res (snd (Static.handleFileRequest h disk req filePath
                           {| w_cache := Cache.new maxSz;
                              w_res := Http.newResponse |})) in
  statusCode res = 200 /\
  headers res !! "Content-Encoding" = Some "gzip" /\
  headers res !! "Content-Length" = Some (number_to_string (buffer_length content)) /\
  body res = Some (Bytes content).
Proof.
  intros Hinfo Hcomp Hread Hgzip [stat Hstat] Hinm Hims Haccept.
  destruct (set_on_new_cache_returns _ _ _ content (fi_mimeType fi) (Some z) maxSz Hstat)
    as [c' Hset].
  unfold Static.handleFileRequest. rewrite Hinfo, Hinm, Hims.
  unfold Static.readAndStore, Static.compressContent.
  rewrite Hread, Hcomp.
  unfold Gzip.shouldServeCompressed. rewrite Haccept.
  unfold try_catch, bind, cache_call, on_cache, on_res, lift, zoom.
  cbn [w_cache w_res].
  change (Cache.get (fi_path fi) (Cache.new maxSz)) with (@None CacheEntry, Cache.new maxSz).
  cbn [w_cache w_res fst snd].
  rewrite Hgzip, Hset.
  cbn. repeat split.
Qed.

Lemma headerIs_same v : truthy v = true -> Static.headerIs (Some v) v = true.
Proof. intros Hv. unfold Static.headerIs. now rewrite Hv, String.eqb_refl. Qed.

(** Claim C4, as the code has it.  For a file that exists and whose cache
    entry is present and has the file's modification time: when
    [If-None-Match] equals the ETag of the file information (the
    quoted size-mtime string that the server sends, not the digest
    kept in the entry), or [If-Modified-Since] equals the entry's
    [lastModified] string, the response is 304 with no body and no
    header added. *)
Theorem validator_match_is_answered_304
    h disk req filePath fi entry c res0 :
  Static.getFileInfo h (at_stat disk) filePath = Some fi ->
  Cache.wellFormed c ->
  JsMap.get (fi_path fi) (cache c) = Some entry ->
  mtime entry = fi_mtime fi ->
  headersSent res0 = false ->
  finished res0 = false ->
  Http.header req "if-none-match" = Some (fi_etag fi) \/
  Http.header req "if-modified-since" = Some (lastModified entry) ->
  let w := snd (Static.handleFileRequest h disk req filePath
                  {| w_cache := c; w_res := res0 |}) in
  statusCode (w_res w) = 304 /\
  body (w_res w) = None /\
  finished (w_res w) = true /\
  headers (w_res w) = headers res0.
Proof.
  intros Hinfo Hwf Hget Hmtime Hsent Hfin Hcond.
  destruct (wellFormed_entry _ _ _ Hwf Hget) as [_ Hlast].
  assert (Hfresh : Cache.isModified (fi_path fi) (fi_mtime fi) c = false).
  { unfold Cache.isModified. rewrite Hget, Hmtime. now rewrite Z.eqb_refl. }
  assert (H304 :
    Static.headerIs (Http.header req "if-none-match") (fi_etag fi) = true \/
    Static.headerIs (Http.header req "if-modified-since")
                    (toUTCString (fi_mtime fi)) = true).
  { destruct Hcond as [-> | ->].
    - left. apply headerIs_same. unfold Static.getFileInfo in Hinfo.
      destruct (statSync _ _); [| discriminate].
      destruct (negb _); [discriminate |].
      destruct (startsWith _ _); [discriminate |].
      injection Hinfo as <-. reflexivity.
    - right. rewrite Hlast, Hmtime. apply headerIs_same, toUTCString_truthy. }
  unfold Static.handleFileRequest. rewrite Hinfo.
  unfold try_catch, bind, cache_call, on_cache, on_res, zoom.
  cbn [w_cache w_res].
  pose proof (isModified_after_get (fi_path fi) (fi_mtime fi) c) as Hafter.
  rewrite Hfresh in Hafter.
  unfold Cache.get in *. rewrite Hget in *. cbn [snd] in Hafter.
  cbn [w_cache w_res fst snd]. rewrite Hafter. cbn [negb ret fst snd].
  unfold Http.writeHead, Http.end_.
  destruct H304 as [E | E].
  - rewrite E. cbn [w_res]. rewrite Hsent. cbn. rewrite Hfin. cbn. auto.
  - destruct (Static.headerIs (Http.header req "if-none-match") (fi_etag fi));
      [| rewrite E]; cbn [w_res]; rewrite Hsent; cbn; rewrite Hfin; cbn; auto.
Qed.

(** Claim C3, where the code departs from it.  The type [image/svg+xml]
    is never compressed, whatever the size: both checks meet the
    prefix [image/] in the non-compressible list first. *)
Theorem svg_is_never_compressed (size : Z) :
  Static.shouldCompressFile "image/svg+xml" size = false /\
  Mime.shouldCompress "image/svg+xml" = false /\
  In "image/svg+xml" Static.compressibleTypes /\
  In "image/svg+xml" Mime.compressibleTypes.
Proof.
  repeat split; try reflexivity; cbn; tauto.
Qed.
End StaticProperties.

(* ===================================================================== *)
(** * Further properties of the memory cache *)
(* ===================================================================== *)

Section CacheLaws.
Context `{Platform}.

Lemma new_mapInvariant maxSz : Cache.mapInvariant (Cache.new maxSz).
Proof. split; constructor. Qed.

Lemma built_mapInvariant ops maxSz :
  Cache.mapInvariant (Cache.run ops (Cache.new maxSz)).
Proof. apply run_mapInvariant, new_mapInvariant. Qed.

Lemma run_maxSize ops c : maxSize (Cache.run ops c) = maxSize c.
Proof.
  unfold Cache.run. revert c.
  induction ops as [| op ops IH]; intros c; [reflexivity |].
  cbn [fold_left]. rewrite IH. apply step_maxSize.
Qed.

(** Property X2.  On every cache that calls of the class have built from
    an empty one, [set] ends: it returns, or it throws the ENOENT of its
    own stat.  The eviction loop, which would spin on an empty first
    key, never does. *)
Theorem set_returns_or_throws ops maxSz fs path content mimeType compressed :
  let r := Cache.set fs path content mimeType compressed
             (Cache.run ops (Cache.new maxSz)) in
  fst r = Normal tt \/ fst r = Thrown (ENOENT path).
Proof.
  intros r. subst r.
  pose proof (set_ends fs path content mimeType compressed _
                (built_mapInvariant ops maxSz)) as Hend.
  revert Hend. unfold Cache.set.
  destruct (statSync fs path); [| auto].
  destruct (_ >? _); [auto |].
  destruct (Cache.evictWhile _ _ _); cbn [fst]; [auto | congruence].
Qed.

(** What [set] does once its stat has succeeded and the entry is not
    oversized, on a cache whose eviction loop ends. *)
Lemma set_stores fs path stat content mimeType compressed c :
  Cache.mapInvariant c ->
  statSync fs path = Some stat ->
  Cache.payloadSize content compressed <= maxSize c ->
  exists c2,
    Cache.set fs path content mimeType compressed c =
    (Normal tt,
     Cache.with_cache
       (JsMap.set path (Cache.makeEntry stat content mimeType compressed) (cache c2))
       (currentSize c2 + Cache.payloadSize content compressed) c2).
Proof.
  intros [Hd Ht] Hstat Hfit. unfold Cache.set. rewrite Hstat.
  rewrite calculateSize_makeEntry. rewrite gtb_false by assumption.
  set (c1 := if JsMap.has path (cache c) then _ else c).
  assert (Hc1 : cache c1 = cache c).
  { subst c1. destruct (JsMap.has path (cache c)); [| reflexivity].
    destruct (JsMap.get path (cache c)); reflexivity. }
  destruct (evictWhile_returns (List.length (cache c1))
              (Cache.payloadSize content compressed) c1)
    as [c2 Hc2]; [now rewrite Hc1 | lia |].
  rewrite Hc2. eauto.
Qed.

(** Property X3.  What [set] stores, [get] returns: after a [set] whose stat
    succeeds and whose entry is not larger than [maxSize], the key holds
    the entry built from the arguments and the stat, whether the key was
    new or overwritten, and [isModified] is false for the stat's mtime. *)
Theorem get_after_set ops maxSz fs path stat content mimeType compressed :
  statSync fs path = Some stat ->
  Cache.payloadSize content compressed <= maxSz ->
  let c' := snd (Cache.set fs path content mimeType compressed
                   (Cache.run ops (Cache.new maxSz))) in
  fst (Cache.get path c') =
    Some (Cache.makeEntry stat content mimeType compressed) /\
  Cache.isModified path (node_mtime stat) c' = false.
Proof.
  intros Hstat Hfit c'. subst c'.
  pose proof (run_maxSize ops (Cache.new maxSz)) as Hmax. cbn in Hmax.
  destruct (set_stores fs path stat content mimeType compressed _
              (built_mapInvariant ops maxSz) Hstat) as [c2 Hset];
    [now rewrite Hmax |].
  rewrite Hset. cbn [snd]. unfold Cache.get, Cache.isModified.
  cbn [Cache.with_cache cache]. rewrite get_set_same. cbn [fst Cache.makeEntry mtime].
  split; [reflexivity |]. now rewrite Z.eqb_refl.
Qed.

(** ** Lookups and key order after [delete], [set] and [get] *)

Lemma get_set_any {V} k k' (v : V) (m : JsMap.t V) :
  JsMap.get k' (JsMap.set k v m) =
  if String.eqb k k' then Some v else JsMap.get k' m.
Proof.
  destruct (String.eqb_spec k k') as [-> | Hne].
  - apply get_set_same.
  - now apply get_set_other.
Qed.

Lemma get_delete_any {V} k k' (m : JsMap.t V) :
  JsMap.distinct m ->
  JsMap.get k' (JsMap.delete k m) =
  if String.eqb k k' then None else JsMap.get k' m.
Proof.
  intros Hd. destruct (String.eqb_spec k k') as [-> | Hne].
  - now apply get_delete_same.
  - now apply get_delete_other.
Qed.

Lemma keys_without_absent {V} k (m : JsMap.t V) :
  JsMap.get k m = None ->
  List.filter (fun x => negb (String.eqb x k)) (JsMap.keys m) = JsMap.keys m.
Proof.
  induction m as [| [k0 v0] m IH]; simpl; [reflexivity |].
  destruct (String.eqb k0 k); [discriminate |].
  intros Hm. simpl. now rewrite IH.
Qed.

Lemma keys_delete {V} k (m : JsMap.t V) :
  JsMap.distinct m ->
  JsMap.keys (JsMap.delete k m) =
  List.filter (fun x => negb (String.eqb x k)) (JsMap.keys m).
Proof.
  induction m as [| [k0 v0] m IH]; simpl; [reflexivity |].
  intros [Hk0 Hm]. destruct (String.eqb_spec k0 k) as [-> | Hne]; simpl.
  - now rewrite keys_without_absent.
  - now rewrite IH.
Qed.

Lemma keys_set_present {V} k (v old : V) (m : JsMap.t V) :
  JsMap.get k m = Some old -> JsMap.keys (JsMap.set k v m) = JsMap.keys m.
Proof.
  induction m as [| [k0 v0] m IH]; simpl; [discriminate |].
  destruct (String.eqb_spec k0 k) as [-> | Hne]; simpl; [reflexivity |].
  intros Hm. now rewrite IH.
Qed.

Lemma keys_app {V} (m : JsMap.t V) k v :
  JsMap.keys (m ++ [(k, v)])%list = (JsMap.keys m ++ [k])%list.
Proof. unfold JsMap.keys. now rewrite List.map_app. Qed.

(** Property X4.  [delete] removes its key and nothing else: on every cache
    built from an empty one, a lookup after [delete path] finds nothing
    under [path] and what it found before under every other key; the
    size counter drops by the size of the removed entry, and a missing
    key leaves the cache as it is. *)
Theorem delete_removes_only_its_key ops maxSz path k :
  let c := Cache.run ops (Cache.new maxSz) in
  JsMap.get k (cache (Cache.delete path c)) =
    (if String.eqb path k then None else JsMap.get k (cache c)) /\
  currentSize (Cache.delete path c) =
    currentSize c - match JsMap.get path (cache c) with
                    | Some entry => Cache.calculateSize entry
                    | None => 0
                    end /\
  (if JsMap.has path (cache c) then True else Cache.delete path c = c).
Proof.
  intros c. destruct (built_mapInvariant ops maxSz) as [Hd _]. fold c in Hd.
  unfold Cache.delete, JsMap.has.
  destruct (JsMap.get path (cache c)) as [entry |] eqn:Hget;
    cbn [Cache.with_cache cache currentSize].
  - split; [now apply get_delete_any | split; [reflexivity | exact I]].
  - split; [| split; [lia | reflexivity]].
    destruct (String.eqb_spec path k) as [<- | Hne]; [assumption | reflexivity].
Qed.

(** Property X6.  [get] changes the order of the map and nothing else: on
    every cache built from an empty one it returns what the map holds
    under the key, leaves every lookup, the size counter and [maxSize]
    as they were, and on a hit moves the key behind all other keys. *)
Theorem get_only_moves_the_hit_last ops maxSz path k :
  let c := Cache.run ops (Cache.new maxSz) in
  let c' := snd (Cache.get path c) in
  fst (Cache.get path c) = JsMap.get path (cache c) /\
  JsMap.get k (cache c') = JsMap.get k (cache c) /\
  currentSize c' = currentSize c /\
  maxSize c' = maxSize c /\
  JsMap.keys (cache c') =
    if JsMap.has path (cache c)
    then (List.filter (fun x => negb (String.eqb x path)) (JsMap.keys (cache c))
          ++ [path])%list
    else JsMap.keys (cache c).
Proof.
  intros c c'. subst c'. destruct (built_mapInvariant ops maxSz) as [Hd _].
  fold c in Hd. unfold Cache.get, JsMap.has.
  destruct (JsMap.get path (cache c)) as [entry |] eqn:Hget;
    cbn [fst snd Cache.with_cache cache currentSize maxSize];
    [| repeat split].
  repeat split.
  - rewrite get_set_any, get_delete_any by assumption.
    destruct (String.eqb_spec path k) as [<- | Hne]; congruence.
  - rewrite set_absent by now apply get_delete_same.
    now rewrite keys_app, keys_delete.
Qed.

(** ** Which entries [set] evicts *)

Lemma evictWhile_drops fuel entrySize c c2 :
  Forall (fun kv => truthy (fst kv) = true) (cache c) ->
  Cache.evictWhile fuel entrySize c = Some c2 ->
  exists n,
    cache c2 = skipn n (cache c) /\
    currentSize c2 = currentSize c - Cache.entriesSize (firstn n (cache c)) /\
    maxSize c2 = maxSize c /\
    (forall m, (m < n)%nat ->
       maxSize c < currentSize c - Cache.entriesSize (firstn m (cache c)) + entrySize) /\
    (currentSize c2 + entrySize <= maxSize c \/ n = List.length (cache c)).
Proof.
  revert c. induction fuel as [| fuel IH]; intros c Ht; simpl.
  - destruct (_ && _) eqn:Hcond; [discriminate |]. intros [= <-].
    exists 0%nat. split; [reflexivity |]. split; [rewrite take_0; cbn; lia |].
    split; [reflexivity |]. split; [intros; lia |].
    apply andb_false_iff in Hcond as [Hroom | Hempty].
    + left. destruct (Z.gtb_spec (currentSize c + entrySize) (maxSize c));
        [discriminate | assumption].
    + right. unfold JsMap.size in Hempty. destruct (cache c); [reflexivity |].
      cbn [List.length] in Hempty. rewrite gtb_true in Hempty by lia. discriminate.
  - destruct (_ && _) eqn:Hcond.
    + apply andb_true_iff in Hcond as [Hfull Hsome].
      destruct (Z.gtb_spec (currentSize c + entrySize) (maxSize c)) as [Hfull' |];
        [| discriminate].
      destruct (cache c) as [| [k e] rest] eqn:Hc; [discriminate |].
      inversion Ht as [| ? ? Hk Hrest]; subst. cbn [fst] in Hk.
      assert (Hev : Cache.evictOldest c =
                    Cache.with_cache rest (currentSize c - Cache.calculateSize e) c).
      { unfold Cache.evictOldest. rewrite Hc. cbn [JsMap.firstKey]. rewrite Hk.
        cbn [JsMap.get]. rewrite String.eqb_refl.
        cbn [JsMap.delete]. now rewrite String.eqb_refl. }
      rewrite Hev. intros He.
      destruct (IH (Cache.with_cache rest (currentSize c - Cache.calculateSize e) c)
                   Hrest He) as (n & H1 & H2 & H3 & H4 & H5).
      cbn [Cache.with_cache cache currentSize maxSize] in *.
      exists (S n). cbn [skipn firstn Cache.entriesSize fold_right snd List.length].
      fold (Cache.entriesSize (firstn n rest)).
      split; [assumption |]. split; [lia |]. split; [assumption |]. split.
      * intros m Hm. destruct m as [| m]; cbn [firstn Cache.entriesSize fold_right snd].
        -- lia.
        -- fold (Cache.entriesSize (firstn m rest)).
           specialize (H4 m ltac:(lia)). lia.
      * destruct H5 as [H5 | H5]; [left; assumption | right; lia].
    + intros [= <-]. exists 0%nat. split; [reflexivity |]. split; [rewrite take_0; cbn; lia |].
      split; [reflexivity |]. split; [intros; lia |].
      apply andb_false_iff in Hcond as [Hroom | Hempty].
      * left. destruct (Z.gtb_spec (currentSize c + entrySize) (maxSize c));
          [discriminate | assumption].
      * right. unfold JsMap.size in Hempty. destruct (cache c); [reflexivity |].
        cbn [List.length] in Hempty. rewrite gtb_true in Hempty by lia. discriminate.
Qed.

(** Property X7.  A [set] of a new key evicts from the old end of the map
    and no more than it must: the map afterwards is the old map without
    its first [n] entries, followed by the new entry; before each of
    those [n] evictions the new entry did not fit, and after them it
    fits or the old map is used up. *)
Theorem set_evicts_oldest_first c fs path stat content mimeType compressed :
  Cache.mapInvariant c ->
  statSync fs path = Some stat ->
  Cache.payloadSize content compressed <= maxSize c ->
  JsMap.get path (cache c) = None ->
  exists n,
    cache (snd (Cache.set fs path content mimeType compressed c)) =
      (skipn n (cache c) ++
       [(path, Cache.makeEntry stat content mimeType compressed)])%list /\
    (forall m, (m < n)%nat ->
       maxSize c < currentSize c - Cache.entriesSize (firstn m (cache c))
                   + Cache.payloadSize content compressed) /\
    (currentSize c - Cache.entriesSize (firstn n (cache c))
       + Cache.payloadSize content compressed <= maxSize c \/
     n = List.length (cache c)).
Proof.
  intros [Hd Ht] Hstat Hfit Hnew. unfold Cache.set. rewrite Hstat.
  rewrite calculateSize_makeEntry, gtb_false by assumption.
  unfold JsMap.has. rewrite Hnew.
  destruct (evictWhile_returns (List.length (cache c))
              (Cache.payloadSize content compressed) c Ht) as [c2 He]; [lia |].
  rewrite He. cbn [snd Cache.with_cache cache].
  destruct (evictWhile_drops _ _ _ _ Ht He) as (n & H1 & H2 & H3 & H4 & H5).
  exists n. rewrite H1. split; [| split].
  - apply set_absent.
    assert (Hskip : forall k (m : JsMap.t CacheEntry),
               JsMap.get path m = None -> JsMap.get path (skipn k m) = None).
    { induction k as [| k IH]; intros m Hm; [assumption |].
      destruct m as [| [k0 v0] m]; [reflexivity |]. cbn [skipn].
      apply IH. simpl in Hm. destruct (String.eqb k0 path); [discriminate | assumption]. }
    now apply Hskip.
  - assumption.
  - destruct H5 as [H5 | H5]; [left; lia | right; assumption].
Qed.

(** ** No entry larger than the cache *)

Lemma evictOldest_Forall (P : string * CacheEntry -> Prop) c :
  Forall P (cache c) -> Forall P (cache (Cache.evictOldest c)).
Proof.
  intros Hc. unfold Cache.evictOldest.
  destruct (JsMap.firstKey (cache c)) as [k |]; [| assumption].
  destruct (truthy k); [| assumption].
  destruct (JsMap.get k (cache c)); [| assumption].
  now apply Forall_delete.
Qed.

Lemma evictWhile_Forall (P : string * CacheEntry -> Prop) fuel entrySize c c' :
  Forall P (cache c) -> Cache.evictWhile fuel entrySize c = Some c' ->
  Forall P (cache c').
Proof.
  revert c. induction fuel as [| fuel IH]; intros c Hc; simpl;
    destruct (_ && _); try discriminate; try (intros [= <-]; assumption).
  apply IH. now apply evictOldest_Forall.
Qed.

Lemma step_Forall_fits bound c op :
  maxSize c <= bound ->
  Forall (fun kv => Cache.calculateSize (snd kv) <= bound) (cache c) ->
  Forall (fun kv => Cache.calculateSize (snd kv) <= bound) (cache (Cache.step c op)).
Proof.
  intros Hb Hc. destruct op as [fs path content mimeType compressed | path | path |];
    cbn [Cache.step].
  - unfold Cache.set. destruct (statSync fs path) as [stat |]; [| assumption].
    destruct (Z.gtb_spec (Cache.calculateSize
                (Cache.makeEntry stat content mimeType compressed)) (maxSize c));
      [assumption |].
    set (c1 := if JsMap.has path (cache c) then _ else c).
    assert (Hc1 : cache c1 = cache c).
    { subst c1. destruct (JsMap.has path (cache c)); [| reflexivity].
      destruct (JsMap.get path (cache c)); reflexivity. }
    destruct (Cache.evictWhile _ _ c1) as [c2 |] eqn:He; cbn [snd];
      [| now rewrite Hc1].
    apply Forall_set; [cbn [snd]; lia |].
    eapply evictWhile_Forall; [| exact He]. now rewrite Hc1.
  - unfold Cache.get.
    destruct (JsMap.get path (cache c)) as [entry |] eqn:Hget; cbn [snd];
      [| assumption].
    apply Forall_set; [| now apply Forall_delete].
    apply (Forall_get (fun kv => Cache.calculateSize (snd kv) <= bound)
                      path entry (cache c)); auto.
  - unfold Cache.delete.
    destruct (JsMap.get path (cache c)); [| assumption].
    now apply Forall_delete.
  - constructor.
Qed.

(** Property X8.  No entry larger than the cache is ever held: whatever is
    called on a cache that started empty, each entry present has a size
    of at most [maxSize]. *)
Theorem no_entry_exceeds_maxSize ops maxSz :
  Forall (fun kv => Cache.calculateSize (snd kv) <= maxSz)
         (cache (Cache.run ops (Cache.new maxSz))).
Proof.
  unfold Cache.run.
  assert (Hb : maxSize (Cache.new maxSz) <= maxSz) by (cbn; lia).
  assert (Hnew : Forall (fun kv => Cache.calculateSize (snd kv) <= maxSz)
                        (cache (Cache.new maxSz))) by constructor.
  revert Hb Hnew. generalize (Cache.new maxSz).
  induction ops as [| op ops IH]; intros c Hb Hc; [assumption |].
  cbn [fold_left]. apply IH.
  - now rewrite step_maxSize.
  - now apply step_Forall_fits.
Qed.

(** ** Overwriting without eviction, and starting over *)

Lemma entriesSize_nonneg m : 0 <= Cache.entriesSize m.
Proof.
  induction m as [| [k e] m IH]; cbn; [lia |].
  fold (Cache.entriesSize m).
  unfold Cache.calculateSize, buffer_length. destruct (compressed e); lia.
Qed.

Lemma entriesSize_set_present k entry old m :
  JsMap.get k m = Some old ->
  Cache.entriesSize (JsMap.set k entry m) =
  Cache.entriesSize m - Cache.calculateSize old + Cache.calculateSize entry.
Proof.
  induction m as [| [k0 e0] m IH]; simpl; [discriminate |].
  destruct (String.eqb k0 k).
  - intros [= ->]. cbn. fold (Cache.entriesSize m). lia.
  - intros Hm. cbn. fold (Cache.entriesSize (JsMap.set k entry m)).
    fold (Cache.entriesSize m). rewrite IH by assumption. lia.
Qed.

(** Property X9.  Overwriting an entry is sound when no eviction is needed:
    if the new entry fits once the old one is taken off the counter,
    [set] replaces the entry where it stands (the order of the keys does
    not change), and the size invariant still holds. *)
Theorem overwrite_in_place c fs path stat old content mimeType compressed :
  Cache.sizeInvariant c ->
  JsMap.get path (cache c) = Some old ->
  statSync fs path = Some stat ->
  currentSize c - Cache.calculateSize old
    + Cache.payloadSize content compressed <= maxSize c ->
  let c' := snd (Cache.set fs path content mimeType compressed c) in
  Cache.sizeInvariant c' /\
  JsMap.keys (cache c') = JsMap.keys (cache c) /\
  JsMap.get path (cache c') =
    Some (Cache.makeEntry stat content mimeType compressed) /\
  currentSize c' =
    currentSize c - Cache.calculateSize old + Cache.payloadSize content compressed.
Proof.
  intros [Hsum Hle] Hget Hstat Hroom c'. subst c'.
  pose proof (entriesSize_delete _ _ _ Hget) as Hdel.
  pose proof (entriesSize_nonneg (JsMap.delete path (cache c))) as Hpos.
  unfold Cache.set. rewrite Hstat, calculateSize_makeEntry.
  rewrite gtb_false by lia.
  unfold JsMap.has. rewrite Hget.
  assert (Hloop : forall fuel,
    Cache.evictWhile fuel (Cache.payloadSize content compressed)
      (Cache.with_cache (cache c) (currentSize c - Cache.calculateSize old) c) =
    Some (Cache.with_cache (cache c) (currentSize c - Cache.calculateSize old) c)).
  { intros fuel. destruct fuel; cbn [Cache.evictWhile Cache.with_cache currentSize maxSize];
      now rewrite gtb_false by lia. }
  cbn [Cache.with_cache cache]. rewrite Hloop.
  cbn [snd Cache.with_cache cache currentSize maxSize].
  unfold Cache.sizeInvariant, Cache.with_cache. cbn [cache currentSize maxSize].
  rewrite (entriesSize_set_present _ _ _ _ Hget), calculateSize_makeEntry.
  rewrite (keys_set_present _ _ _ _ Hget), get_set_same.
  repeat split; lia.
Qed.

Lemma run_sizeInvariant_from ops c :
  Cache.mapInvariant c -> 0 <= maxSize c -> Cache.sizeInvariant c ->
  Cache.neverOverwrites ops c ->
  Cache.sizeInvariant (Cache.run ops c).
Proof.
  unfold Cache.run. revert c.
  induction ops as [| op ops IH]; intros c Hmap Hmax Hinv Hops; [assumption |].
  destruct Hops as [Hop Hops]. cbn [fold_left]. apply IH.
  - now apply step_mapInvariant.
  - now rewrite step_maxSize.
  - now apply step_sizeInvariant.
  - assumption.
Qed.

(** Property X5.  [clear] starts the cache over, whatever state it was in
    (a counter that has drifted from the entries included): the
    statistics read zero bytes and zero entries, and the size invariant
    holds after every later sequence of calls that overwrites no entry. *)
Theorem clear_starts_over c ops :
  0 <= maxSize c ->
  Cache.neverOverwrites ops (Cache.clear c) ->
  Cache.getStats (Cache.clear c) =
    {| Cache.stat_size := 0; Cache.stat_count := 0;
       Cache.stat_maxSize := maxSize c |} /\
  Cache.sizeInvariant (Cache.run ops (Cache.clear c)).
Proof.
  intros Hmax Hops. split; [reflexivity |].
  apply run_sizeInvariant_from; try assumption.
  - split; constructor.
  - split; [reflexivity | exact Hmax].
Qed.
End CacheLaws.

(* ===================================================================== *)
(** * Further properties of the static file handler *)
(* ===================================================================== *)

Section PipelineLaws.
Context `{Platform}.

(** The handler is its two halves, one after the other. *)
Lemma handleFileRequest_halves h disk req filePath w :
  Static.handleFileRequest h disk req filePath w =
  Pipeline.handle h disk req filePath w.
Proof.
  unfold Static.handleFileRequest, Pipeline.handle, try_catch.
  destruct (Static.getFileInfo h (at_stat disk) filePath) as [fi |]; [| reflexivity].
  unfold Pipeline.load, bind, cache_call, on_cache, zoom.
  destruct (Cache.get (fi_path fi) (w_cache w)) as [cacheEntry c1].
  cbn [w_cache w_res].
  set (loadStep := match cacheEntry with
                   | Some entry =>
                       if negb (Cache.isModified (fi_path fi) (fi_mtime fi) c1)
                       then ret (content entry, compressed entry)
                       else Static.readAndStore disk fi
                   | None => Static.readAndStore disk fi
                   end).
  destruct (loadStep {| w_cache := c1; w_res := w_res w |}) as [[loaded | e |] w1];
    try reflexivity.
  unfold Pipeline.respond, Pipeline.finalContent, Gzip.shouldServeCompressed.
  destruct (Static.headerIs (Http.header req "if-none-match") (fi_etag fi));
    [reflexivity |].
  destruct (Static.headerIs (Http.header req "if-modified-since") _);
    [reflexivity |].
  destruct loaded as [content [c |]]; cbn [fst snd]; reflexivity.
Qed.

(** ** The second half: writing the response *)

Lemma sendError_fresh status message res :
  headersSent res = false -> finished res = false ->
  Static.sendError status message res =
  (Normal tt,
   {| statusCode := status;
      headers := <["Content-Type" := "text/plain"]> (headers res);
      headersSent := true;
      finished := true;
      body := Some (Text message) |}).
Proof.
  intros Hs Hf. unfold Static.sendError, bind, Http.writeHead, Http.end_.
  rewrite Hs. cbn. now rewrite Hf.
Qed.

Lemma not_modified_fresh res :
  headersSent res = false -> finished res = false ->
  (Http.writeHead 304 [] >> Http.end_ None) res =
  (Normal tt,
   {| statusCode := 304; headers := headers res; headersSent := true;
      finished := true; body := None |}).
Proof.
  intros Hs Hf. unfold bind, Http.writeHead, Http.end_.
  rewrite Hs. cbn. now rewrite Hf.
Qed.

(** What [respond] writes on a response that nothing has been sent on. *)
Lemma respond_fresh fi req content compressed res :
  headersSent res = false -> finished res = false ->
  exists res',
    Pipeline.respond fi req content compressed res = (Normal tt, res') /\
    finished res' = true /\ headersSent res' = true /\
    ((statusCode res' = 304 /\ body res' = None /\ headers res' = headers res) \/
     (statusCode res' = 200 /\
      body res' = Some (Bytes (Pipeline.finalContent req content compressed)) /\
      headers res' !! "Content-Length" =
        Some (number_to_string
                (buffer_length (Pipeline.finalContent req content compressed))) /\
      headers res' !! "ETag" = Some (fi_etag fi) /\
      headers res' !! "Last-Modified" = Some (toUTCString (fi_mtime fi)) /\
      headers res' !! "Content-Type" = Some (fi_mimeType fi) /\
      headers res' !! "Cache-Control" = Some "public, max-age=3600")).
Proof.
  intros Hs Hf. unfold Pipeline.respond.
  destruct (Static.headerIs (Http.header req "if-none-match") (fi_etag fi)).
  { rewrite not_modified_fresh by assumption. eexists. split; [reflexivity |].
    cbn. split; [reflexivity |]. split; [reflexivity |]. left. repeat split. }
  destruct (Static.headerIs (Http.header req "if-modified-since") _).
  { rewrite not_modified_fresh by assumption. eexists. split; [reflexivity |].
    cbn. split; [reflexivity |]. split; [reflexivity |]. left. repeat split. }
  unfold Gzip.setCompressionHeaders, bind, Http.setHeader, Http.writeHead, Http.end_.
  rewrite Hs. cbn [headersSent].
  destruct compressed as [z |]; cbn [headersSent finished]; rewrite Hf;
    (eexists; split; [reflexivity |]); cbn [finished headersSent statusCode body headers];
    (split; [reflexivity |]); (split; [reflexivity |]); right;
    repeat split; now simplify_map_eq.
Qed.

(** ** The first half: obtaining the bytes *)

Lemma readAndStore_outcome disk fi w :
  Static.readAndStore disk fi w =
  match readFileSync (at_read disk) (fi_path fi) with
  | Normal content =>
      let compressed :=
        if fi_shouldCompress fi then Static.compressContent content else None in
      let r := Cache.set (at_set disk) (fi_path fi) content (fi_mimeType fi)
                         compressed (w_cache w) in
      (match fst r with
       | Normal _ => Normal (content, compressed)
       | Thrown e => Thrown e
       | Diverged => Diverged
       end,
       {| w_cache := snd r; w_res := w_res w |})
  | Thrown e => (Thrown e, w)
  | Diverged => (Diverged, w)
  end.
Proof.
  unfold Static.readAndStore, bind, lift, on_cache, zoom.
  destruct (readFileSync (at_read disk) (fi_path fi)) as [content | e |];
    try reflexivity.
  cbn zeta. destruct (Cache.set _ _ _ _ _ (w_cache w)) as [[[] | e |] c'];
    reflexivity.
Qed.

Lemma load_outcome disk fi c res :
  Pipeline.load disk fi {| w_cache := c; w_res := res |} =
  let c1 := snd (Cache.get (fi_path fi) c) in
  match JsMap.get (fi_path fi) (cache c) with
  | Some entry =>
      if Z.eqb (mtime entry) (fi_mtime fi)
      then (Normal (content entry, compressed entry),
            {| w_cache := c1; w_res := res |})
      else Static.readAndStore disk fi {| w_cache := c1; w_res := res |}
  | None => Static.readAndStore disk fi {| w_cache := c1; w_res := res |}
  end.
Proof.
  unfold Pipeline.load, bind, cache_call, on_cache, zoom. cbn [w_cache w_res].
  unfold Cache.get. destruct (JsMap.get (fi_path fi) (cache c)) as [entry |] eqn:Hget;
    cbn [fst snd w_cache w_res]; unfold Cache.isModified.
  - cbn [Cache.with_cache cache]. rewrite get_set_same.
    destruct (Z.eqb (mtime entry) (fi_mtime fi)); reflexivity.
  - reflexivity.
Qed.

Lemma get_mapInvariant path c :
  Cache.mapInvariant c -> Cache.mapInvariant (snd (Cache.get path c)).
Proof. intros Hc. exact (step_mapInvariant c (Cache.OpGet path) Hc). Qed.

Lemma set_mapInvariant fs path content mimeType compressed c :
  Cache.mapInvariant c ->
  Cache.mapInvariant (snd (Cache.set fs path content mimeType compressed c)).
Proof.
  intros Hc.
  exact (step_mapInvariant c (Cache.OpSet fs path content mimeType compressed) Hc).
Qed.

(** The first half ends, leaves the response alone and keeps the map of
    the cache a map. *)
Lemma load_ends disk fi c res :
  Cache.mapInvariant c ->
  fst (Pipeline.load disk fi {| w_cache := c; w_res := res |}) <> Diverged /\
  w_res (snd (Pipeline.load disk fi {| w_cache := c; w_res := res |})) = res /\
  Cache.mapInvariant
    (w_cache (snd (Pipeline.load disk fi {| w_cache := c; w_res := res |}))).
Proof.
  intros Hc. rewrite load_outcome. cbn zeta.
  pose proof (get_mapInvariant (fi_path fi) c Hc) as Hc1.
  assert (Hmiss :
    fst (Static.readAndStore disk fi
           {| w_cache := snd (Cache.get (fi_path fi) c); w_res := res |}) <> Diverged /\
    w_res (snd (Static.readAndStore disk fi
           {| w_cache := snd (Cache.get (fi_path fi) c); w_res := res |})) = res /\
    Cache.mapInvariant
      (w_cache (snd (Static.readAndStore disk fi
           {| w_cache := snd (Cache.get (fi_path fi) c); w_res := res |})))).
  { rewrite readAndStore_outcome.
    unfold readFileSync. destruct (statSync (at_read disk) (fi_path fi)) as [n |];
      [| cbn [fst snd w_cache w_res];
        split; [discriminate | split; [reflexivity | assumption]]].
    destruct (node_isFile n); [| cbn [fst snd w_cache w_res];
        split; [discriminate | split; [reflexivity | assumption]]].
    cbn zeta. cbn [fst snd w_cache w_res].
    set (z := if fi_shouldCompress fi then _ else None).
    pose proof (set_ends (at_set disk) (fi_path fi) (node_content n)
                  (fi_mimeType fi) z _ Hc1) as Hend.
    pose proof (set_mapInvariant (at_set disk) (fi_path fi) (node_content n)
                  (fi_mimeType fi) z _ Hc1) as Hmap.
    destruct (Cache.set _ _ _ _ _ _) as [[[] | e |] c']; cbn [fst snd] in *;
      (split; [first [discriminate | exfalso; now apply Hend]
              | split; [reflexivity | assumption]]). }
  destruct (JsMap.get (fi_path fi) (cache c)) as [entry |]; [| exact Hmiss].
  destruct (Z.eqb (mtime entry) (fi_mtime fi)); [| exact Hmiss].
  cbn [fst snd w_cache w_res]. split; [discriminate | split; [reflexivity | assumption]].
Qed.

(** A file request on a fresh response ends in an answer. *)
Lemma handleFileRequest_ends h disk req filePath c res :
  Cache.mapInvariant c ->
  headersSent res = false ->
  finished res = false ->
  let r := Static.handleFileRequest h disk req filePath
             {| w_cache := c; w_res := res |} in
  fst r = Normal tt /\
  finished (w_res (snd r)) = true /\
  (statusCode (w_res (snd r)) = 200 \/ statusCode (w_res (snd r)) = 304 \/
   statusCode (w_res (snd r)) = 404 \/ statusCode (w_res (snd r)) = 500) /\
  Cache.mapInvariant (w_cache (snd r)).
Proof.
  intros Hc Hs Hf r. subst r. rewrite handleFileRequest_halves.
  unfold Pipeline.handle, try_catch.
  destruct (Static.getFileInfo h (at_stat disk) filePath) as [fi |].
  - unfold bind.
    destruct (load_ends disk fi c res Hc) as (Hend & Hres & Hmap).
    destruct (Pipeline.load disk fi {| w_cache := c; w_res := res |})
      as [[loaded | e |] [c1 res1]]; cbn [fst snd w_cache w_res] in *;
      [| | congruence]; subst res1.
    + unfold on_res, zoom. cbn [w_res w_cache].
      destruct (respond_fresh fi req (fst loaded) (snd loaded) res Hs Hf)
        as (res' & -> & Hfin & _ & Hstatus).
      cbn [fst snd w_res w_cache].
      split; [reflexivity |]. split; [assumption |]. split; [| assumption].
      destruct Hstatus as [(-> & _) | (-> & _)]; auto.
    + unfold on_res, zoom. cbn [w_res w_cache].
      rewrite sendError_fresh by assumption. cbn. auto 10.
  - unfold on_res, zoom. cbn [w_res w_cache].
    rewrite sendError_fresh by assumption. cbn. auto 10.
Qed.

(** Property X11.  The static handler always answers.  On a response that
    nothing has been sent on and a cache whose map is a map, a file
    request returns normally with the response finished and one of the
    statuses 200, 304, 404 and 500; it neither throws nor hangs, and the
    cache it leaves is again one whose map is a map. *)
Theorem handleFileRequest_always_answers h disk req filePath c res :
  Cache.mapInvariant c ->
  headersSent res = false ->
  finished res = false ->
  let r := Static.handleFileRequest h disk req filePath
             {| w_cache := c; w_res := res |} in
  fst r = Normal tt /\
  finished (w_res (snd r)) = true /\
  (statusCode (w_res (snd r)) = 200 \/ statusCode (w_res (snd r)) = 304 \/
   statusCode (w_res (snd r)) = 404 \/ statusCode (w_res (snd r)) = 500) /\
  Cache.mapInvariant (w_cache (snd r)).
Proof. exact (handleFileRequest_ends h disk req filePath c res). Qed.

(** Property X10.  The [Content-Length] of every 200 answer of the static
    handler is the length of the body it sends, although
    [setCompressionHeaders] first writes the compressed length. *)
Theorem content_length_is_body_length h disk req filePath c res :
  Cache.mapInvariant c ->
  headersSent res = false ->
  finished res = false ->
  statusCode (w_res (snd (Static.handleFileRequest h disk req filePath
                            {| w_cache := c; w_res := res |}))) = 200 ->
  exists b,
    body (w_res (snd (Static.handleFileRequest h disk req filePath
                        {| w_cache := c; w_res := res |}))) = Some (Bytes b) /\
    headers (w_res (snd (Static.handleFileRequest h disk req filePath
                           {| w_cache := c; w_res := res |}))) !! "Content-Length"
      = Some (number_to_string (buffer_length b)).
Proof.
  intros Hc Hs Hf. rewrite handleFileRequest_halves.
  unfold Pipeline.handle, try_catch.
  destruct (Static.getFileInfo h (at_stat disk) filePath) as [fi |].
  - unfold bind.
    destruct (load_ends disk fi c res Hc) as (Hend & Hres & Hmap).
    destruct (Pipeline.load disk fi {| w_cache := c; w_res := res |})
      as [[loaded | e |] [c1 res1]]; cbn [fst snd w_cache w_res] in *;
      [| | congruence]; subst res1.
    + unfold on_res, zoom. cbn [w_res w_cache].
      destruct (respond_fresh fi req (fst loaded) (snd loaded) res Hs Hf)
        as (res' & -> & _ & _ & Hstatus).
      cbn [fst snd w_res w_cache].
      destruct Hstatus as [(-> & _) | (_ & Hbody & Hlen & _)]; [discriminate |].
      eauto.
    + unfold on_res, zoom. cbn [w_res w_cache].
      rewrite sendError_fresh by assumption. cbn. discriminate.
  - unfold on_res, zoom. cbn [w_res w_cache].
    rewrite sendError_fresh by assumption. cbn. discriminate.
Qed.

(** ** What the cache holds after a request *)

Lemma getFileInfo_stat h fs filePath fi :
  Static.getFileInfo h fs filePath = Some fi ->
  exists stat,
    statSync fs (fi_path fi) = Some stat /\ node_isFile stat = true /\
    fi_mtime fi = node_mtime stat /\ fi_size fi = node_size stat /\
    fi_etag fi = Static.generateETag stat.
Proof.
  unfold Static.getFileInfo.
  destruct (statSync fs _) as [stat |] eqn:Hstat; [| discriminate].
  destruct (node_isFile stat) eqn:Hfile; [| discriminate]. cbn [negb].
  destruct (startsWith _ _); [discriminate |].
  intros [= <-]. cbn. eauto 10.
Qed.

(** Writing the response does not touch the cache. *)
Lemma handle_cache h disk req filePath fi w :
  Static.getFileInfo h (at_stat disk) filePath = Some fi ->
  w_cache (snd (Static.handleFileRequest h disk req filePath w)) =
  w_cache (snd (Pipeline.load disk fi w)).
Proof.
  intros Hfi. rewrite handleFileRequest_halves.
  unfold Pipeline.handle, try_catch, bind. rewrite Hfi.
  destruct (Pipeline.load disk fi w) as [[loaded | e |] w1]; cbn [snd];
    try reflexivity; unfold on_res, zoom.
  - destruct (Pipeline.respond fi req (fst loaded) (snd loaded) (w_res w1))
      as [[[] | e |] res1]; cbn [snd w_cache w_res]; try reflexivity.
    destruct (Static.sendError 500 "Internal server error" res1); reflexivity.
  - destruct (Static.sendError 500 "Internal server error" (w_res w1)); reflexivity.
Qed.

(** The first half on a miss or a stale entry, when the disk holds still
    and the entry is not oversized. *)
Lemma load_from_disk fs fi stat c res :
  Cache.mapInvariant c ->
  statSync fs (fi_path fi) = Some stat ->
  node_isFile stat = true ->
  Cache.isModified (fi_path fi) (fi_mtime fi) c = true ->
  let z := if fi_shouldCompress fi
           then Static.compressContent (node_content stat) else None in
  Cache.payloadSize (node_content stat) z <= maxSize c ->
  exists c',
    Pipeline.load (steady fs) fi {| w_cache := c; w_res := res |} =
    (Normal (node_content stat, z), {| w_cache := c'; w_res := res |}) /\
    JsMap.get (fi_path fi) (cache c') =
      Some (Cache.makeEntry stat (node_content stat) (fi_mimeType fi) z).
Proof.
  intros Hc Hstat Hfile Hmod z Hfit. rewrite load_outcome. cbn zeta.
  assert (Hmiss : exists c',
    Static.readAndStore (steady fs) fi
      {| w_cache := snd (Cache.get (fi_path fi) c); w_res := res |} =
    (Normal (node_content stat, z), {| w_cache := c'; w_res := res |}) /\
    JsMap.get (fi_path fi) (cache c') =
      Some (Cache.makeEntry stat (node_content stat) (fi_mimeType fi) z)).
  { rewrite readAndStore_outcome. cbn [steady at_read at_set].
    unfold readFileSync. rewrite Hstat, Hfile. cbn zeta. fold z.
    cbn [w_cache w_res].
    destruct (set_stores fs (fi_path fi) stat (node_content stat) (fi_mimeType fi) z
                (snd (Cache.get (fi_path fi) c)))
      as [c2 Hset]; [now apply get_mapInvariant | assumption | |].
    { pose proof (step_maxSize c (Cache.OpGet (fi_path fi))) as Hm.
      cbn [Cache.step] in Hm. now rewrite Hm. }
    rewrite Hset. cbn [fst snd]. eexists. split; [reflexivity |].
    cbn [Cache.with_cache cache]. apply get_set_same. }
  unfold Cache.isModified in Hmod.
  destruct (JsMap.get (fi_path fi) (cache c)) as [entry |]; [| exact Hmiss].
  destruct (Z.eqb (mtime entry) (fi_mtime fi)); [discriminate | exact Hmiss].
Qed.

(** Property X12.  A file that is new to the cache, or whose modification
    time differs from the cached one, is read again: on a disk that holds
    still, after the request the cache holds under the file's path the
    bytes and the modification time that the disk has now, and
    [isModified] is false (provided the entry is not larger than the
    cache). *)
Theorem changed_file_is_read_again h fs req filePath fi stat c res :
  Cache.mapInvariant c ->
  Static.getFileInfo h fs filePath = Some fi ->
  statSync fs (fi_path fi) = Some stat ->
  Cache.isModified (fi_path fi) (fi_mtime fi) c = true ->
  Cache.payloadSize (node_content stat)
    (if fi_shouldCompress fi then Static.compressContent (node_content stat)
     else None) <= maxSize c ->
  let c' := w_cache (snd (Static.handleFileRequest h (steady fs) req filePath
                            {| w_cache := c; w_res := res |})) in
  exists entry,
    JsMap.get (fi_path fi) (cache c') = Some entry /\
    content entry = node_content stat /\
    mtime entry = node_mtime stat /\
    Cache.isModified (fi_path fi) (fi_mtime fi) c' = false.
Proof.
  intros Hc Hfi Hstat Hmod Hfit c'. subst c'.
  destruct (getFileInfo_stat _ _ _ _ Hfi) as (stat' & Hstat' & Hfile & Hmtime & _).
  rewrite Hstat in Hstat'. injection Hstat' as <-.
  rewrite (handle_cache h (steady fs) req filePath fi) by assumption.
  destruct (load_from_disk fs fi stat c res Hc Hstat Hfile Hmod Hfit)
    as (c' & -> & Hget).
  cbn [snd w_cache]. eexists. split; [exact Hget |].
  split; [reflexivity |]. split; [reflexivity |].
  unfold Cache.isModified. rewrite Hget. cbn [mtime Cache.makeEntry].
  now rewrite Hmtime, Z.eqb_refl.
Qed.

(** Property X13.  A repeated request is served from the cache: after a
    request for a file on a disk that holds still, the same request is
    answered with the same response, whatever the disk then holds for
    reading (provided the entry is not larger than the cache). *)
Theorem repeated_request_is_served_from_cache
    h fs later1 later2 req filePath fi stat c res :
  Cache.mapInvariant c ->
  Static.getFileInfo h fs filePath = Some fi ->
  statSync fs (fi_path fi) = Some stat ->
  Cache.payloadSize (node_content stat)
    (if fi_shouldCompress fi then Static.compressContent (node_content stat)
     else None) <= maxSize c ->
  let first := Static.handleFileRequest h (steady fs) req filePath
                 {| w_cache := c; w_res := res |} in
  let second := Static.handleFileRequest h
                  {| at_stat := fs; at_read := later1; at_set := later2 |}
                  req filePath
                  {| w_cache := w_cache (snd first); w_res := res |} in
  fst second = fst first /\ w_res (snd second) = w_res (snd first).
Proof.
  intros Hc Hfi Hstat Hfit first second. subst first second.
  destruct (getFileInfo_stat _ _ _ _ Hfi) as (stat' & Hstat' & Hfile & Hmtime & _).
  rewrite Hstat in Hstat'. injection Hstat' as <-.
  rewrite (handle_cache h (steady fs) req filePath fi) by assumption.
  rewrite !handleFileRequest_halves.
  unfold Pipeline.handle, try_catch, bind. cbn [at_stat steady]. rewrite Hfi.
  (* the first request: a hit, or a read from the disk *)
  assert (Hfirst : exists loaded c1 entry,
    Pipeline.load (steady fs) fi {| w_cache := c; w_res := res |} =
      (Normal loaded, {| w_cache := c1; w_res := res |}) /\
    JsMap.get (fi_path fi) (cache c1) = Some entry /\
    mtime entry = fi_mtime fi /\
    loaded = (content entry, compressed entry)).
  { destruct (Cache.isModified (fi_path fi) (fi_mtime fi) c) eqn:Hmod.
    - destruct (load_from_disk fs fi stat c res Hc Hstat Hfile Hmod Hfit)
        as (c1 & Hload & Hget).
      do 3 eexists. split; [exact Hload |]. split; [exact Hget |].
      split; [cbn; now rewrite Hmtime | reflexivity].
    - rewrite load_outcome. cbn zeta. unfold Cache.isModified in Hmod.
      destruct (JsMap.get (fi_path fi) (cache c)) as [entry |] eqn:Hget;
        [| discriminate].
      destruct (Z.eqb_spec (mtime entry) (fi_mtime fi)) as [Heq |]; [| discriminate].
      do 3 eexists. split; [reflexivity |]. unfold Cache.get. rewrite Hget.
      cbn [snd Cache.with_cache cache]. rewrite get_set_same. auto. }
  destruct Hfirst as (loaded & c1 & entry & Hload & Hget & Hentry & ->).
  rewrite Hload. cbn [snd w_cache].
  rewrite load_outcome. cbn zeta. rewrite Hget, Hentry, Z.eqb_refl.
  cbn [fst snd]. unfold on_res, zoom. cbn [w_res w_cache].
  destruct (Pipeline.respond fi req (content entry) (compressed entry) res)
    as [[[] | e |] res1]; cbn [fst snd w_res]; try (split; reflexivity).
  destruct (Static.sendError 500 "Internal server error" res1) as [r2 res2].
  cbn. split; reflexivity.
Qed.
End PipelineLaws.

(* ===================================================================== *)
(** * Further properties of the compression decisions and validators *)
(* ===================================================================== *)

Section DecisionLaws.
Context `{Platform}.

Lemma prefix_app p s :
  String.prefix p s = true -> exists r, s = p ++ r.
Proof.
  revert s. induction p as [| a p IH]; intros s.
  - intros _. now exists s.
  - destruct s as [| b s]; simpl; [discriminate |].
    destruct (Ascii.ascii_dec a b) as [-> | Hne]; [| intros; discriminate].
    intros Hp. destruct (IH _ Hp) as [r ->]. now exists r.
Qed.

Lemma prefix_of_app p r : String.prefix p (p ++ r) = true.
Proof.
  induction p as [| a p IH]; simpl; [now destruct r |].
  destruct (Ascii.ascii_dec a a); [assumption | contradiction].
Qed.

(** Property X14.  A file of at most 1024 bytes is never compressed by the
    static handler, whatever its type. *)
Theorem small_files_are_not_compressed mimeType size :
  size <= 1024 ->
  Static.shouldCompressFile mimeType size = false.
Proof.
  intros Hsmall. unfold Static.shouldCompressFile.
  destruct (existsb _ Static.nonCompressibleTypes); [reflexivity |].
  rewrite gtb_false by assumption.
  cbn. now rewrite !andb_false_r.
Qed.

(** Property X15.  Every type that begins with [text/] is compressed by
    the static handler exactly when the file is larger than 1024 bytes,
    and is accepted by [shouldCompress]. *)
Theorem text_is_compressed_above_threshold subtype size :
  Static.shouldCompressFile ("text/" ++ subtype) size = (size >? 1024) /\
  Mime.shouldCompress ("text/" ++ subtype) = true.
Proof.
  destruct subtype; (split; [| reflexivity]);
    unfold Static.shouldCompressFile; cbn;
    destruct (size >? 1024); reflexivity.
Qed.

(** Property X16.  The static handler compresses only what [shouldCompress]
    of the MIME module accepts: the handler's own tables are stricter
    than, or equal to, the module's. *)
Theorem handler_decision_implies_module_decision mimeType size :
  Static.shouldCompressFile mimeType size = true ->
  Mime.shouldCompress mimeType = true /\ 1024 < size.
Proof.
  unfold Static.shouldCompressFile.
  destruct (existsb (startsWith mimeType) Static.nonCompressibleTypes) eqn:Hnon;
    [discriminate |].
  destruct (existsb _ Static.compressibleTypes) eqn:Hcomp; [| discriminate].
  intros _. apply existsb_exists in Hcomp as (p & Hin & Hp).
  apply andb_true_iff in Hp as [Hp Hsize].
  split; [| destruct (Z.gtb_spec size 1024); [assumption | discriminate]].
  destruct (prefix_app _ _ Hp) as [r ->]. clear Hp Hsize.
  cbn in Hin. destruct r.
  all: repeat (destruct Hin as [<- | Hin];
               [cbn in Hnon |- *; first [discriminate | reflexivity] |]).
  all: contradiction.
Qed.

(** ** [Accept-Encoding] *)

Lemma includes_unfold s p :
  includes s p =
  String.prefix p s ||
  match s with
  | EmptyString => false
  | String _ s' => includes s' p
  end.
Proof. destruct s; reflexivity. Qed.

Lemma includes_spec s p :
  includes s p = true <-> exists a b, s = a ++ p ++ b.
Proof.
  split.
  - induction s as [| c s IH]; cbn [includes].
    + rewrite orb_false_r. intros Hp. destruct (prefix_app _ _ Hp) as [r Hr].
      exists EmptyString, r. exact Hr.
    + intros Hs. apply orb_true_iff in Hs as [Hp | Hs].
      * destruct (prefix_app _ _ Hp) as [r Hr]. exists EmptyString, r. exact Hr.
      * destruct (IH Hs) as (a & b & ->). exists (String c a), b. reflexivity.
  - intros (a & b & ->). induction a as [| c a IH].
    + change (EmptyString ++ p ++ b) with (p ++ b).
      rewrite includes_unfold, prefix_of_app. reflexivity.
    + change (String c a ++ p ++ b) with (String c (a ++ p ++ b)).
      rewrite includes_unfold, IH. apply orb_true_r.
Qed.

(** Property X17.  [acceptsGzip] is a plain substring test: it is true
    exactly when the request has an [Accept-Encoding] header whose value
    holds the four letters [gzip] somewhere (so a value such as
    [gzip;q=0] counts), and false when the header is missing. *)
Theorem acceptsGzip_is_substring_test req :
  Gzip.acceptsGzip req = true <->
  exists a b, Http.header req "accept-encoding" = Some (a ++ "gzip" ++ b).
Proof.
  unfold Gzip.acceptsGzip.
  destruct (Http.header req "accept-encoding") as [v |].
  - destruct v as [| c v]; cbn [truthy].
    + split; [discriminate |]. intros (a & b & [= E]). now destruct a.
    + rewrite includes_spec. split.
      * intros (a & b & ->). eauto.
      * intros (a & b & [= ->]). eauto.
  - split; [discriminate |]. intros (a & b & [=]).
Qed.

(** ** [sanitizePath] *)

(** [sanitizePath] does not hang. *)
Lemma sanitizePath_ends h requestPath :
  Static.sanitizePath h requestPath <> Diverged.
Proof.
  unfold Static.sanitizePath.
  destruct (decodeURIComponent _) as [pathname |]; [| discriminate].
  destruct (negb (startsWith pathname "/")); discriminate.
Qed.

End DecisionLaws.

(* ===================================================================== *)
(** * Further properties: the ETag of the file information *)
(* ===================================================================== *)

Section ETagLaws.

Lemma number_to_string_inj n m :
  number_to_string n = number_to_string m -> n = m.
Proof.
  unfold number_to_string. intros E. apply DecimalZ.to_int_inj.
  assert (Hparse : forall z,
    NilZero.int_of_string (NilZero.string_of_int (Z.to_int z)) = Some (Z.to_int z)).
  { intros z. apply NilZero.isi; destruct z; cbn; try discriminate;
      intros [= E']; now apply DecimalPos.Unsigned.to_uint_nonnil in E'. }
  pose proof (Hparse n) as Hn. rewrite E, Hparse in Hn. now injection Hn.
Qed.

Lemma uint_chars d c :
  In c (list_ascii_of_string (NilEmpty.string_of_uint d)) -> digitChar c.
Proof.
  induction d; cbn; intros Hin; try contradiction;
    (destruct Hin as [<- | Hin]; [unfold digitChar; vm_compute; lia | auto]).
Qed.

Lemma natural_chars n c :
  0 <= n -> In c (list_ascii_of_string (number_to_string n)) -> digitChar c.
Proof.
  intros Hn. unfold number_to_string. destruct n as [| p | p]; [| | lia].
  - cbn. intros [<- | []]. unfold digitChar. vm_compute. lia.
  - cbn [Z.to_int NilZero.string_of_int NilZero.string_of_uint].
    destruct (Pos.to_uint p) eqn:E;
      [now apply DecimalPos.Unsigned.to_uint_nonnil in E | apply uint_chars ..].
Qed.

Lemma split_at_separator c a a' b b' :
  ~ In c (list_ascii_of_string a) -> ~ In c (list_ascii_of_string a') ->
  a ++ String c b = a' ++ String c b' -> a = a' /\ b = b'.
Proof.
  revert a'. induction a as [| x a IH]; intros a' Ha Ha'.
  - destruct a' as [| y a']; cbn.
    + now intros [= ->].
    + intros [= <- _]. exfalso. apply Ha'. now left.
  - destruct a' as [| y a']; cbn.
    + intros [= -> _]. exfalso. apply Ha. now left.
    + intros [= -> E]. destruct (IH a') as [-> ->]; auto.
      * intros Hin. apply Ha. now right.
      * intros Hin. apply Ha'. now right.
Qed.

Lemma number_chars n c :
  In c (list_ascii_of_string (number_to_string n)) ->
  digitChar c \/ c = ascii_of_nat 45.
Proof.
  destruct n as [| p | p].
  - left. now apply (natural_chars 0).
  - left. now apply (natural_chars (Z.pos p)).
  - unfold number_to_string.
    cbn [Z.to_int NilZero.string_of_int list_ascii_of_string].
    intros [<- | Hin]; [now right | left].
    apply (natural_chars (Z.pos p)); [lia |]. exact Hin.
Qed.

(** Property X19.  The ETag of the file information tells files apart by
    size and modification time: two stats (with sizes that are not
    negative) get the same ETag only if they agree on both.  A client
    that holds the ETag of an earlier state of the file is therefore not
    answered 304 on account of [If-None-Match] once the size or the
    modification time has changed. *)
Theorem etag_determines_size_and_mtime (s1 s2 : Node) :
  0 <= node_size s1 -> 0 <= node_size s2 ->
  Static.generateETag s1 = Static.generateETag s2 ->
  node_size s1 = node_size s2 /\ node_mtime s1 = node_mtime s2.
Proof.
  intros H1 H2. unfold Static.generateETag, dquote.
  cbn [append]. intros [= E].
  change ("-" ++ ?x) with (String (ascii_of_nat 45) x) in E.
  apply split_at_separator in E as [Esize Emtime].
  - split; [now apply number_to_string_inj |].
    apply split_at_separator in Emtime as [Emtime _].
    + now apply number_to_string_inj.
    + intros Hin. apply number_chars in Hin as [Hd | [=]].
      unfold digitChar in Hd. vm_compute in Hd. lia.
    + intros Hin. apply number_chars in Hin as [Hd | [=]].
      unfold digitChar in Hd. vm_compute in Hd. lia.
  - intros Hin. apply (natural_chars _ _ H1) in Hin.
    unfold digitChar in Hin. vm_compute in Hin. lia.
  - intros Hin. apply (natural_chars _ _ H2) in Hin.
    unfold digitChar in Hin. vm_compute in Hin. lia.
Qed.
End ETagLaws.

(* ===================================================================== *)
(** * Further properties of the server *)
(* ===================================================================== *)

Section ServerLaws.
Context `{Platform}.

Lemma prelude_runs config req (rest : M World unit) c :
  cfg_cors config && String.eqb (method req) "OPTIONS" = false ->
  (on_res (Server.setupCors config req) >>
   on_res (Http.setHeader "X-Content-Type-Options" "nosniff") >>
   on_res (Http.setHeader "X-Frame-Options" "DENY") >>
   on_res (Http.setHeader "X-XSS-Protection" "1; mode=block") >>
   on_res (Http.setHeader "Server" "Gzip-Static-Server/1.0.0") >>
   rest) {| w_cache := c; w_res := Http.newResponse |} =
  rest {| w_cache := c; w_res := preparedResponse config |}.
Proof.
  intros Hpre. unfold Server.setupCors, preparedResponse.
  destruct (cfg_cors config); cbn [andb negb] in *.
  - rewrite Hpre. reflexivity.
  - reflexivity.
Qed.

Lemma server_error_fresh res :
  headersSent res = false -> finished res = false ->
  (Http.writeHead 500 [("Content-Type", "text/plain")] >>
   Http.end_ (Some (Text "Internal Server Error"))) res =
  (Normal tt,
   {| statusCode := 500;
      headers := <["Content-Type" := "text/plain"]> (headers res);
      headersSent := true; finished := true;
      body := Some (Text "Internal Server Error") |}).
Proof.
  intros Hs Hf. unfold bind, Http.writeHead, Http.end_.
  rewrite Hs. cbn. now rewrite Hf.
Qed.

(** Headers that the static handler does not write stay as they were. *)
Lemma respond_keeps fi req content compressed res k :
  headersSent res = false -> finished res = false ->
  ~ In k ["Content-Type"; "ETag"; "Last-Modified"; "Cache-Control";
          "Content-Encoding"; "Content-Length"; "X-Compression-Ratio";
          "X-Compression"] ->
  headers (snd (Pipeline.respond fi req content compressed res)) !! k =
  headers res !! k.
Proof.
  intros Hs Hf Hk. unfold Pipeline.respond.
  destruct (Static.headerIs (Http.header req "if-none-match") (fi_etag fi)).
  { now rewrite not_modified_fresh by assumption. }
  destruct (Static.headerIs (Http.header req "if-modified-since") _).
  { now rewrite not_modified_fresh by assumption. }
  unfold Gzip.setCompressionHeaders, bind, Http.setHeader, Http.writeHead, Http.end_.
  rewrite Hs. cbn [headersSent].
  cbn [In] in Hk.
  destruct compressed as [z |]; cbn [headersSent finished]; rewrite Hf;
    cbn [snd headers fold_left];
    rewrite !lookup_insert_ne by (intros <-; apply Hk; auto 12); reflexivity.
Qed.

(** What a static file request leaves on a prepared response. *)
Lemma handleFileRequest_shape h disk req filePath c res k :
  Cache.mapInvariant c ->
  headersSent res = false -> finished res = false ->
  ~ In k ["Content-Type"; "ETag"; "Last-Modified"; "Cache-Control";
          "Content-Encoding"; "Content-Length"; "X-Compression-Ratio";
          "X-Compression"] ->
  headers (w_res (snd (Static.handleFileRequest h disk req filePath
                         {| w_cache := c; w_res := res |}))) !! k =
  headers res !! k.
Proof.
  intros Hc Hs Hf Hk. rewrite handleFileRequest_halves.
  unfold Pipeline.handle, try_catch.
  assert (Hct : k <> "Content-Type") by (intros ->; apply Hk; now left).
  destruct (Static.getFileInfo h (at_stat disk) filePath) as [fi |].
  - unfold bind.
    destruct (load_ends disk fi c res Hc) as (Hend & Hres & Hmap).
    destruct (Pipeline.load disk fi {| w_cache := c; w_res := res |})
      as [[loaded | e |] [c1 res1]]; cbn [fst snd w_cache w_res] in *;
      [| | congruence]; subst res1.
    + unfold on_res, zoom. cbn [w_res w_cache].
      pose proof (respond_keeps fi req (fst loaded) (snd loaded) res k Hs Hf Hk) as Hkeep.
      destruct (respond_fresh fi req (fst loaded) (snd loaded) res Hs Hf)
        as (res' & Hr & _).
      rewrite Hr in *. cbn [fst snd w_res w_cache] in *. exact Hkeep.
    + unfold on_res, zoom. cbn [w_res w_cache].
      rewrite sendError_fresh by assumption. cbn [snd w_res headers].
      now rewrite lookup_insert_ne.
  - unfold on_res, zoom. cbn [w_res w_cache].
    rewrite sendError_fresh by assumption. cbn [snd w_res headers].
    now rewrite lookup_insert_ne.
Qed.

(** The answer of the server to a request outside [/api/] that the CORS
    set-up does not answer. *)
Lemma serve_static_shape config disk req c k :
  Cache.mapInvariant c ->
  (forall pathname,
     URL_pathname (Static.requestPath req) (Server.baseOf req) = Some pathname ->
     startsWith pathname "/api/" = false) ->
  cfg_cors config && String.eqb (method req) "OPTIONS" = false ->
  ~ In k ["Content-Type"; "ETag"; "Last-Modified"; "Cache-Control";
          "Content-Encoding"; "Content-Length"; "X-Compression-Ratio";
          "X-Compression"; "Allow"] ->
  let res := fst (Server.serve config disk req c) in
  finished res = true /\
  (statusCode res = 200 \/ statusCode res = 304 \/ statusCode res = 404 \/
   statusCode res = 405 \/ statusCode res = 500) /\
  headers res !! k = headers (preparedResponse config) !! k /\
  Cache.mapInvariant (snd (Server.serve config disk req c)).
Proof.
  intros Hc Hstatic Hpre Hk res. subst res.
  assert (Hk' : ~ In k ["Content-Type"; "ETag"; "Last-Modified"; "Cache-Control";
                        "Content-Encoding"; "Content-Length"; "X-Compression-Ratio";
                        "X-Compression"]).
  { intros Hin. apply Hk. cbn [In] in *. tauto. }
  assert (Hct : k <> "Content-Type") by (intros ->; apply Hk; now left).
  assert (Hallow : k <> "Allow") by (intros ->; apply Hk; cbn; tauto).
  set (P := preparedResponse config).
  assert (HsP : headersSent P = false) by reflexivity.
  assert (HfP : finished P = false) by reflexivity.
  assert (Hshape : exists r w,
    Server.listener config disk req {| w_cache := c; w_res := Http.newResponse |}
      = (r, w) /\
    finished (w_res w) = true /\
    (statusCode (w_res w) = 200 \/ statusCode (w_res w) = 304 \/
     statusCode (w_res w) = 404 \/ statusCode (w_res w) = 405 \/
     statusCode (w_res w) = 500) /\
    headers (w_res w) !! k = headers P !! k /\
    Cache.mapInvariant (w_cache w)).
  { unfold Server.listener, Server.handleRequest.
    set (catchAll := fun _ : Error =>
           on_res (Http.writeHead 500 [("Content-Type", "text/plain")] >>
                   Http.end_ (Some (Text "Internal Server Error")))).
    assert (Hcatch : forall e c0,
      catchAll e {| w_cache := c0; w_res := P |} =
      (Normal tt,
       {| w_cache := c0;
          w_res := {| statusCode := 500;
                      headers := <["Content-Type" := "text/plain"]> (headers P);
                      headersSent := true; finished := true;
                      body := Some (Text "Internal Server Error") |} |})).
    { intros e c0. unfold catchAll, on_res, zoom. cbn [w_res w_cache].
      now rewrite server_error_fresh. }
    unfold try_catch at 1 2. rewrite prelude_runs by assumption. fold P.
    destruct (URL_pathname (Static.requestPath req) (Server.baseOf req))
      as [pathname |] eqn:Hurl.
    - rewrite (Hstatic pathname eq_refl).
      destruct (String.eqb (method req) "GET" || String.eqb (method req) "HEAD").
      + unfold Static.handleRequest, bind, lift.
        pose proof (sanitizePath_ends (Server.fileHandler config)
                      (Static.requestPath req)) as Hsan.
        destruct (Static.sanitizePath _ _) as [sanitized | e |];
          [| | now elim Hsan].
        * pose proof (handleFileRequest_ends (Server.fileHandler config)
                        disk req (slice1 sanitized) c P Hc HsP HfP) as Hans.
          pose proof (handleFileRequest_shape (Server.fileHandler config)
                        disk req (slice1 sanitized) c P k Hc HsP HfP Hk') as Hkeep.
          cbn zeta in Hans.
          destruct (Static.handleFileRequest _ _ _ _ _) as [r w].
          cbn [fst snd] in *. destruct Hans as (-> & Hfin & Hst & Hmap).
          do 2 eexists. split; [reflexivity |].
          split; [assumption |]. split; [tauto |]. split; assumption.
        * rewrite Hcatch.
          do 2 eexists. split; [reflexivity |]. cbn [w_res w_cache].
          cbn [finished statusCode headers]. rewrite lookup_insert_ne by congruence.
          split; [reflexivity |]. split; [auto 10 |]. split; [reflexivity | exact Hc].
      + unfold on_res, zoom, bind, Http.writeHead, Http.end_. cbn.
        do 2 eexists. split; [reflexivity |]. cbn.
        rewrite lookup_insert_ne by congruence.
        split; [reflexivity |]. split; [auto 10 |]. split; [reflexivity | exact Hc].
    - unfold throw. rewrite Hcatch.
      do 2 eexists. split; [reflexivity |]. cbn [w_res w_cache].
      cbn [finished statusCode headers]. rewrite lookup_insert_ne by congruence.
      split; [reflexivity |]. split; [auto 10 |]. split; [reflexivity | exact Hc]. }
  destruct Hshape as (r & w & Hrun & Hfin & Hst & Hkeep & Hmap).
  unfold Server.serve. rewrite Hrun. cbn [fst snd]. auto.
Qed.

(** What the server answers when the CORS set-up ends the response. *)
Lemma preflight_runs config disk req c :
  cfg_cors config = true -> method req = "OPTIONS" ->
  Server.serve config disk req c =
  ({| statusCode := 200;
      headers :=
        <["Access-Control-Allow-Headers" :=
            "Range, Accept-Encoding, If-None-Match, If-Modified-Since"]>
        (<["Access-Control-Allow-Methods" := "GET, HEAD, OPTIONS"]>
        (<["Access-Control-Allow-Origin" := "*"]> ∅));
      headersSent := true; finished := true; body := None |}, c).
Proof.
  intros Hcors Hmethod.
  unfold Server.serve, Server.listener, Server.handleRequest, Server.setupCors.
  rewrite Hcors, Hmethod. reflexivity.
Qed.

(** Property X20.  The server always answers a request outside [/api/]: for
    every such request and every cache whose map is a map, the response
    is finished, its status is one of 200, 304, 404, 405 and 500, and
    the cache left behind is again one whose map is a map. *)
Theorem server_always_answers_static config disk req c :
  Cache.mapInvariant c ->
  (forall pathname,
     URL_pathname (Static.requestPath req) (Server.baseOf req) = Some pathname ->
     startsWith pathname "/api/" = false) ->
  let res := fst (Server.serve config disk req c) in
  finished res = true /\
  (statusCode res = 200 \/ statusCode res = 304 \/ statusCode res = 404 \/
   statusCode res = 405 \/ statusCode res = 500) /\
  Cache.mapInvariant (snd (Server.serve config disk req c)).
Proof.
  intros Hc Hstatic res. subst res.
  destruct (cfg_cors config && String.eqb (method req) "OPTIONS") eqn:Hpre.
  - apply andb_true_iff in Hpre as [Hcors Hopt]. apply String.eqb_eq in Hopt.
    rewrite preflight_runs by assumption. cbn. auto.
  - destruct (serve_static_shape config disk req c "Server" Hc Hstatic Hpre)
      as (Hfin & Hst & _ & Hmap); [| auto].
    cbn [In]. intros Hin. repeat destruct Hin as [Hin | Hin]; try discriminate Hin.
    contradiction.
Qed.

(** Property X21.  Every answer to a request outside [/api/], a CORS
    preflight apart, carries the four fixed headers that the server sets
    first: nothing on the way to a 200, 304, 404, 405 or 500 removes or
    overwrites them. *)
Theorem fixed_headers_reach_every_static_answer config disk req c :
  Cache.mapInvariant c ->
  (forall pathname,
     URL_pathname (Static.requestPath req) (Server.baseOf req) = Some pathname ->
     startsWith pathname "/api/" = false) ->
  cfg_cors config = false \/ method req <> "OPTIONS" ->
  let res := fst (Server.serve config disk req c) in
  headers res !! "X-Content-Type-Options" = Some "nosniff" /\
  headers res !! "X-Frame-Options" = Some "DENY" /\
  headers res !! "X-XSS-Protection" = Some "1; mode=block" /\
  headers res !! "Server" = Some "Gzip-Static-Server/1.0.0".
Proof.
  intros Hc Hstatic Hnot res. subst res.
  assert (Hpre : cfg_cors config && String.eqb (method req) "OPTIONS" = false).
  { destruct Hnot as [-> | Hm]; [reflexivity |].
    apply String.eqb_neq in Hm. rewrite Hm. apply andb_false_r. }
  assert (Hfixed : forall k,
    ~ In k ["Content-Type"; "ETag"; "Last-Modified"; "Cache-Control";
            "Content-Encoding"; "Content-Length"; "X-Compression-Ratio";
            "X-Compression"; "Allow"] ->
    headers (fst (Server.serve config disk req c)) !! k =
    headers (preparedResponse config) !! k).
  { intros k Hk.
    now destruct (serve_static_shape config disk req c k Hc Hstatic Hpre Hk)
      as (_ & _ & Hkeep & _). }
  assert (Hnotin : forall k,
    existsb (String.eqb k)
      ["Content-Type"; "ETag"; "Last-Modified"; "Cache-Control";
       "Content-Encoding"; "Content-Length"; "X-Compression-Ratio";
       "X-Compression"; "Allow"] = false ->
    ~ In k ["Content-Type"; "ETag"; "Last-Modified"; "Cache-Control";
            "Content-Encoding"; "Content-Length"; "X-Compression-Ratio";
            "X-Compression"; "Allow"]).
  { intros k Hex Hin.
    assert (Htrue : existsb (String.eqb k)
      ["Content-Type"; "ETag"; "Last-Modified"; "Cache-Control";
       "Content-Encoding"; "Content-Length"; "X-Compression-Ratio";
       "X-Compression"; "Allow"] = true).
    { apply existsb_exists. exists k. split; [exact Hin | apply String.eqb_refl]. }
    congruence. }
  rewrite !Hfixed by (apply Hnotin; reflexivity).
  unfold preparedResponse. cbn [headers].
  destruct (cfg_cors config); repeat split; now simplify_map_eq.
Qed.

(** Property X22.  With CORS switched on, every OPTIONS request, whatever
    its path, is answered by the CORS set-up alone: status 200, no body,
    the three CORS headers and nothing else, and the cache is not
    touched. *)
Theorem cors_preflight_answer config disk req c :
  cfg_cors config = true ->
  method req = "OPTIONS" ->
  let res := fst (Server.serve config disk req c) in
  statusCode res = 200 /\ body res = None /\ finished res = true /\
  headers res =
    <["Access-Control-Allow-Headers" :=
        "Range, Accept-Encoding, If-None-Match, If-Modified-Since"]>
    (<["Access-Control-Allow-Methods" := "GET, HEAD, OPTIONS"]>
    (<["Access-Control-Allow-Origin" := "*"]> ∅)) /\
  snd (Server.serve config disk req c) = c.
Proof.
  intros Hcors Hmethod res. subst res.
  rewrite preflight_runs by assumption. cbn. auto.
Qed.

(** ** The API routes *)

Lemma serve_of_listener config disk req c r w :
  Server.listener config disk req {| w_cache := c; w_res := Http.newResponse |}
    = (r, w) ->
  Server.serve config disk req c = (w_res w, w_cache w).
Proof. intros Hrun. unfold Server.serve. now rewrite Hrun. Qed.

Lemma api_runs config disk req c pathname :
  cfg_cors config && String.eqb (method req) "OPTIONS" = false ->
  URL_pathname (Static.requestPath req) (Server.baseOf req) = Some pathname ->
  startsWith pathname "/api/" = true ->
  Server.handleRequest config disk req {| w_cache := c; w_res := Http.newResponse |} =
  try_catch (on_res (Server.handleApiRequest req pathname))
    (fun _ =>
       on_res (Http.writeHead 500 [("Content-Type", "text/plain")] >>
               Http.end_ (Some (Text "Internal Server Error"))))
    {| w_cache := c; w_res := preparedResponse config |}.
Proof.
  intros Hpre Hurl Hapi. unfold Server.handleRequest.
  unfold try_catch. rewrite prelude_runs by assumption.
  now rewrite Hurl, Hapi.
Qed.

(** Property X23.  An OPTIONS request on any path under [/api/] is answered
    200 with no body and [Access-Control-Allow-Origin: *], whether CORS
    is switched on in the configuration or not. *)
Theorem api_options_is_answered_200 config disk req c pathname :
  URL_pathname (Static.requestPath req) (Server.baseOf req) = Some pathname ->
  startsWith pathname "/api/" = true ->
  method req = "OPTIONS" ->
  let res := fst (Server.serve config disk req c) in
  statusCode res = 200 /\ body res = None /\ finished res = true /\
  headers res !! "Access-Control-Allow-Origin" = Some "*" /\
  snd (Server.serve config disk req c) = c.
Proof.
  intros Hurl Hapi Hmethod res. subst res.
  destruct (cfg_cors config) eqn:Hcors.
  - rewrite preflight_runs by assumption. cbn. repeat split.
  - assert (Hrun : exists r res,
      Server.listener config disk req {| w_cache := c; w_res := Http.newResponse |}
        = (r, {| w_cache := c; w_res := res |}) /\
      statusCode res = 200 /\ body res = None /\ finished res = true /\
      headers res !! "Access-Control-Allow-Origin" = Some "*").
    { unfold Server.listener. unfold try_catch at 1.
      rewrite (api_runs config disk req c pathname); try assumption;
        [| now rewrite Hcors].
      unfold Server.handleApiRequest, preparedResponse.
      rewrite Hmethod, Hcors. cbn. do 2 eexists. split; [reflexivity |].
      cbn. repeat split. }
    destruct Hrun as (r & res & Hrun & Hrest).
    rewrite (serve_of_listener _ _ _ _ _ _ Hrun). cbn [fst snd w_res w_cache].
    tauto.
Qed.

(** Property X24.  Under [/api/], a request that is no OPTIONS request and
    that no upload handler takes is refused: 405 with
    [Allow: POST, OPTIONS] on [/api/upload], 405 with
    [Allow: GET, OPTIONS] on [/api/files], and 404 with a JSON error on
    every other path. *)
Theorem api_refusals config disk req c pathname :
  URL_pathname (Static.requestPath req) (Server.baseOf req) = Some pathname ->
  startsWith pathname "/api/" = true ->
  method req <> "OPTIONS" ->
  method req <> "POST" \/ pathname <> "/api/upload" ->
  method req <> "GET" \/ pathname <> "/api/files" ->
  let res := fst (Server.serve config disk req c) in
  finished res = true /\
  snd (Server.serve config disk req c) = c /\
  (if String.eqb pathname "/api/upload" then
     statusCode res = 405 /\ headers res !! "Allow" = Some "POST, OPTIONS" /\
     body res = Some (Text "Method Not Allowed")
   else if String.eqb pathname "/api/files" then
     statusCode res = 405 /\ headers res !! "Allow" = Some "GET, OPTIONS" /\
     body res = Some (Text "Method Not Allowed")
   else
     statusCode res = 404 /\
     headers res !! "Content-Type" = Some "application/json" /\
     body res = Some (Text (Server.jsonError "API endpoint not found"))).
Proof.
  intros Hurl Hapi Hopt Hupload Hfiles res. subst res.
  apply String.eqb_neq in Hopt.
  assert (Hrun : exists r res,
    Server.listener config disk req {| w_cache := c; w_res := Http.newResponse |}
        = (r, {| w_cache := c; w_res := res |}) /\
    finished res = true /\
    (if String.eqb pathname "/api/upload" then
       statusCode res = 405 /\ headers res !! "Allow" = Some "POST, OPTIONS" /\
       body res = Some (Text "Method Not Allowed")
     else if String.eqb pathname "/api/files" then
       statusCode res = 405 /\ headers res !! "Allow" = Some "GET, OPTIONS" /\
       body res = Some (Text "Method Not Allowed")
     else
       statusCode res = 404 /\
       headers res !! "Content-Type" = Some "application/json" /\
       body res = Some (Text (Server.jsonError "API endpoint not found")))).
  { unfold Server.listener. unfold try_catch at 1.
    rewrite (api_runs config disk req c pathname); try assumption;
      [| rewrite Hopt; apply andb_false_r].
    unfold Server.handleApiRequest, preparedResponse. rewrite Hopt.
    destruct (String.eqb_spec pathname "/api/upload") as [Hp | Hp].
    - destruct Hupload as [Hm | Hm]; [| contradiction].
      apply String.eqb_neq in Hm. rewrite Hm.
      destruct (cfg_cors config); cbn; (do 2 eexists; split; [reflexivity |]);
        cbn; repeat split.
    - destruct (String.eqb_spec pathname "/api/files") as [Hp' | Hp'].
      + destruct Hfiles as [Hm | Hm]; [| contradiction].
        apply String.eqb_neq in Hm. rewrite Hm.
        destruct (cfg_cors config); cbn; (do 2 eexists; split; [reflexivity |]);
          cbn; repeat split.
      + destruct (cfg_cors config); cbn; (do 2 eexists; split; [reflexivity |]);
          cbn; repeat split. }
  destruct Hrun as (r & res & Hrun & Hfin & Hrest).
  rewrite (serve_of_listener _ _ _ _ _ _ Hrun). cbn [fst snd w_res w_cache].
  auto.
Qed.
End ServerLaws.

(* ===================================================================== *)
(** * Further properties: methods, missing files and the gzip module *)
(* ===================================================================== *)

Section RouteLaws.
Context `{Platform}.

(** Property X25.  Outside [/api/] a HEAD request is answered as the GET
    request with the same target and headers: same status, same headers,
    the same body handed to [res.end], same cache afterwards.  The static
    handler never looks at the method. *)
Theorem head_is_answered_as_get config disk target hs c :
  let get := {| method := "GET"; url := target; req_headers := hs |} in
  let head := {| method := "HEAD"; url := target; req_headers := hs |} in
  (forall pathname,
     URL_pathname (Static.requestPath get) (Server.baseOf get) = Some pathname ->
     startsWith pathname "/api/" = false) ->
  Server.serve config disk head c = Server.serve config disk get c.
Proof.
  intros get head Hstatic.
  assert (Hsame : Server.handleRequest config disk head =
                  Server.handleRequest config disk get).
  { unfold Server.handleRequest.
    change (Static.requestPath head) with (Static.requestPath get).
    change (Server.baseOf head) with (Server.baseOf get).
    destruct (URL_pathname (Static.requestPath get) (Server.baseOf get))
      as [pathname |] eqn:Hurl; [| reflexivity].
    rewrite (Hstatic pathname eq_refl). reflexivity. }
  unfold Server.serve, Server.listener. now rewrite Hsame.
Qed.

(** Property X26.  A GET or HEAD request outside [/api/] for a path at
    which the disk has nothing, or has something that is no regular file
    (a directory), is answered 404 [File not found], and the cache is not
    touched: there is no directory listing and no index file below the
    root itself. *)
Theorem no_regular_file_is_answered_404 config disk req c pathname sanitized :
  method req = "GET" \/ method req = "HEAD" ->
  URL_pathname (Static.requestPath req) (Server.baseOf req) = Some pathname ->
  startsWith pathname "/api/" = false ->
  Static.sanitizePath (Server.fileHandler config) (Static.requestPath req)
    = Normal sanitized ->
  match statSync (at_stat disk)
          (path_join (rootDir (Server.fileHandler config)) (slice1 sanitized)) with
  | Some stat => node_isFile stat = false
  | None => True
  end ->
  let res := fst (Server.serve config disk req c) in
  statusCode res = 404 /\
  body res = Some (Text "File not found") /\
  headers res !! "Content-Type" = Some "text/plain" /\
  finished res = true /\
  snd (Server.serve config disk req c) = c.
Proof.
  intros Hmethod Hurl Hstatic Hsan Hnone res. subst res.
  assert (Hpre : cfg_cors config && String.eqb (method req) "OPTIONS" = false).
  { destruct Hmethod as [-> | ->]; apply andb_false_r. }
  assert (Hget : String.eqb (method req) "GET" || String.eqb (method req) "HEAD"
                 = true).
  { destruct Hmethod as [-> | ->]; reflexivity. }
  assert (Hinfo : Static.getFileInfo (Server.fileHandler config) (at_stat disk)
                    (slice1 sanitized) = None).
  { unfold Static.getFileInfo.
    destruct (statSync _ _) as [stat |]; [| reflexivity].
    now rewrite Hnone. }
  assert (Hrun : exists r res,
    Server.listener config disk req {| w_cache := c; w_res := Http.newResponse |}
      = (r, {| w_cache := c; w_res := res |}) /\
    statusCode res = 404 /\ body res = Some (Text "File not found") /\
    headers res !! "Content-Type" = Some "text/plain" /\ finished res = true).
  { unfold Server.listener, Server.handleRequest. unfold try_catch at 1 2.
    rewrite prelude_runs by assumption.
    rewrite Hurl, Hstatic, Hget.
    unfold Static.handleRequest, bind, lift. rewrite Hsan.
    unfold Static.handleFileRequest, try_catch. rewrite Hinfo.
    unfold on_res, zoom. cbn [w_res w_cache].
    rewrite sendError_fresh by reflexivity.
    cbn. do 2 eexists. split; [reflexivity |]. cbn.
    split; [reflexivity |]. split; [reflexivity |].
    split; [now simplify_map_eq | reflexivity]. }
  destruct Hrun as (r & res & Hrun & Hrest).
  rewrite (serve_of_listener _ _ _ _ _ _ Hrun). cbn [fst snd w_res w_cache].
  tauto.
Qed.
End RouteLaws.

Section GzipModuleLaws.
Context `{Platform}.

(** Property X27.  [compressIfNeeded] compresses exactly when the content
    has at least [threshold] bytes (the comparison is inclusive, unlike
    the strict one of the static handler), [shouldCompress] accepts the
    type and gzip succeeds; the result then records the length of the
    content and the length of what gzip returned. *)
Theorem compressIfNeeded_outcome content mimeType threshold level :
  (is_Some (Gzip.compressIfNeeded content mimeType threshold level) <->
   threshold <= buffer_length content /\
   Mime.shouldCompress mimeType = true /\
   is_Some (gzip level content)) /\
  (forall cr,
     Gzip.compressIfNeeded content mimeType threshold level = Some cr ->
     gzip level content = Some (cr_content cr) /\
     originalSize cr = buffer_length content /\
     compressedSize cr = buffer_length (cr_content cr) /\
     encoding cr = "gzip").
Proof.
  unfold Gzip.compressIfNeeded, Gzip.compressBuffer.
  destruct (Z.ltb_spec (buffer_length content) threshold) as [Hlt | Hge].
  - split; [| discriminate].
    split; [intros [x [=]] | intros (Hle & _); lia].
  - destruct (Mime.shouldCompress mimeType); cbn [negb].
    + destruct (gzip level content) as [z |].
      * split; [| intros cr [= <-]; cbn; auto].
        split; [intros _; repeat split; [assumption | eauto] | eauto].
      * split; [| discriminate].
        split; [intros [x [=]] | intros (_ & _ & [x [=]])].
    + split; [| discriminate].
      split; [intros [x [=]] | intros (_ & [=] & _)].
Qed.

Lemma string_append_assoc (a b c : string) :
  ((a ++ b) ++ c = a ++ (b ++ c))%string.
Proof.
  induction a as [| x a IH]; [reflexivity |].
  change (String x ((a ++ b) ++ c) = String x (a ++ (b ++ c)))%string.
  now f_equal.
Qed.

(** Property X28.  What [shouldCompress] accepts, [isTextFile] calls a text
    file, WebAssembly apart. *)
Theorem compressible_types_are_text mimeType :
  Mime.shouldCompress mimeType = true ->
  Mime.isTextFile mimeType = true \/
  startsWith mimeType "application/wasm" = true.
Proof.
  unfold Mime.shouldCompress.
  destruct (existsb (startsWith mimeType) Mime.nonCompressibleTypes);
    [discriminate |].
  destruct (existsb (startsWith mimeType) Mime.compressibleTypes) eqn:E;
    [intros _ | discriminate].
  apply existsb_exists in E as (p & Hin & Hp).
  assert (Hinc : forall a b, p = (a ++ b)%string ->
            forall q, (exists b1 b2, b = (b1 ++ q ++ b2)%string) ->
            includes mimeType q = true).
  { intros a b -> q (b1 & b2 & ->).
    destruct (prefix_app _ _ Hp) as [r ->].
    apply includes_spec. exists (a ++ b1)%string, (b2 ++ r)%string.
    now rewrite !string_append_assoc. }
  unfold Mime.isTextFile.
  cbn in Hin.
  destruct Hin as [<- | [<- | [<- | [<- | [<- | [<- | [<- | [<- | []]]]]]]]].
  - left. now rewrite Hp.
  - left. rewrite (Hinc "application/" "javascript" eq_refl "javascript")
      by (now exists "", ""). rewrite orb_true_r. reflexivity.
  - left. rewrite (Hinc "application/" "json" eq_refl "json")
      by (now exists "", ""). rewrite orb_true_r. reflexivity.
  - left. rewrite (Hinc "application/" "xml" eq_refl "xml")
      by (now exists "", ""). rewrite orb_true_r. reflexivity.
  - left. rewrite (Hinc "application/x-" "javascript" eq_refl "javascript")
      by (now exists "", ""). rewrite orb_true_r. reflexivity.
  - left. rewrite (Hinc "application/xhtml+" "xml" eq_refl "xml")
      by (now exists "", ""). rewrite orb_true_r. reflexivity.
  - left. rewrite (Hinc "image/svg+" "xml" eq_refl "xml")
      by (now exists "", ""). rewrite orb_true_r. reflexivity.
  - right. exact Hp.
Qed.
End GzipModuleLaws.

(* ===================================================================== *)
(** * Further properties: recency of the served file *)
(* ===================================================================== *)

Section RecencyLaws.
Context `{Platform}.






End RecencyLaws.

(* ===================================================================== *)
(** * Concrete runs on the reference platform *)
(* ===================================================================== *)

Import Examples.

(** The reference digest and date agree with the published values. *)
Example md5_of_nothing :
  Reference.md5 [] = "d41d8cd98f00b204e9800998ecf8427e".
Proof. vm_compute. reflexivity. Qed.

Example utc_of_epoch :
  Reference.utcString 0 = "Thu, 01 Jan 1970 00:00:00 GMT".
Proof. vm_compute. reflexivity. Qed.

(** Requests that try to leave the root. *)
Example dotdot_is_not_found :
  @Static.getFileInfo Reference.platform handler site "../secret.txt" = None /\
  path_join "/srv/www" "../secret.txt" = "/srv/secret.txt" /\
  @containedIn Reference.platform "/srv/www" "/srv/secret.txt" = false.
Proof. vm_compute. auto. Qed.

Example encoded_dotdot_is_answered_404 :
  statusCode (fst (@Server.serve Reference.platform config (steady site)
                     (request "GET" "/%2e%2e/secret.txt" [])
                     (Cache.new Cache.defaultMaxSize))) = 404.
Proof. vm_compute. reflexivity. Qed.

Example page_is_found :
  @Static.getFileInfo Reference.platform handler site "index.html" = Some indexInfo /\
  @Static.getFileInfo Reference.platform handler site "note.txt" = Some noteInfo.
Proof. vm_compute. auto. Qed.

Example warmCache_holds_note :
  cache warmCache = [("/srv/www/note.txt", noteEntry)] /\
  currentSize warmCache = 5.
Proof. vm_compute. auto. Qed.

Example handler_is_built_from_config :
  @Server.fileHandler Reference.platform config = handler.
Proof. vm_compute. reflexivity. Qed.

(** With CORS switched on, an OPTIONS request is answered 200 by the
    CORS set-up and nothing after it reaches the response. *)
Example cors_preflight_is_answered_200 :
  let cors := {| cfg_rootDir := "/srv/www"; cfg_indexPath := "index.html";
                 cfg_cors := true |} in
  let res := fst (@Server.serve Reference.platform cors (steady site)
                    (request "OPTIONS" "/note.txt" []) (Cache.new 100)) in
  statusCode res = 200 /\ body res = None /\ headers res !! "Allow" = None.
Proof. vm_compute. auto. Qed.

(** Witness of claim C7. *)
Lemma lru_get_protects_touched_entry_witness :
  ("/A" <> "/B" /\ "/A" <> "/C" /\ "/B" <> "/C") /\
  (is_Some (statSync twoFiles "/A") /\ is_Some (statSync twoFiles "/B") /\
   is_Some (statSync twoFiles "/C")) /\
  2 * 4 <= 10 < 3 * 4 /\
  let final :=
    @Cache.run Reference.platform
      [ Cache.OpSet twoFiles "/A" (filler 4) "text/plain" None;
        Cache.OpSet twoFiles "/B" (filler 4) "text/plain" None;
        Cache.OpGet "/A";
        Cache.OpSet twoFiles "/C" (filler 4) "text/plain" None ]
      (Cache.new 10) in
  JsMap.keys (cache final) = ["/A"; "/C"] /\
  JsMap.has "/A" (cache final) = true /\
  JsMap.has "/B" (cache final) = false /\
  JsMap.has "/C" (cache final) = true /\
  currentSize final = 2 * 4.
Proof.
  split; [repeat split; discriminate |].
  split; [repeat split; vm_compute; eauto |].
  split; [lia |].
  apply (@lru_get_protects_touched_entry Reference.platform twoFiles 10 "/A" "/B" "/C");
    try discriminate; try (vm_compute; eauto; fail); try reflexivity; lia.
Defined.

(** Witness of claim C8. *)
Lemma oversized_set_leaves_cache_unchanged_witness :
  Cache.payloadSize (filler 11) None > maxSize (Cache.new 10) /\
  snd (@Cache.set Reference.platform twoFiles "/A" (filler 11) "text/plain" None (Cache.new 10))
    = Cache.new 10 /\
  (fst (@Cache.set Reference.platform twoFiles "/A" (filler 11) "text/plain" None (Cache.new 10))
     = Normal tt \/
   fst (@Cache.set Reference.platform twoFiles "/A" (filler 11) "text/plain" None (Cache.new 10))
     = Thrown (ENOENT "/A")).
Proof.
  split; [reflexivity |].
  apply (@oversized_set_leaves_cache_unchanged Reference.platform). reflexivity.
Defined.

(** Witness of claim C9. *)
Lemma other_methods_get_405_witness :
  let req := request "POST" "/note.txt" [] in
  @URL_pathname Reference.platform (Static.requestPath req) (Server.baseOf req) = Some "/note.txt" /\
  startsWith "/note.txt" "/api/" = false /\
  method req <> "GET" /\ method req <> "HEAD" /\
  ~ (cfg_cors config = true /\ method req = "OPTIONS") /\
  let res := fst (@Server.serve Reference.platform config (steady site) req (Cache.new 100)) in
  statusCode res = 405 /\
  headers res !! "Allow" = Some "GET, HEAD, OPTIONS" /\
  body res = Some (Text "Method Not Allowed") /\
  snd (@Server.serve Reference.platform config (steady site) req (Cache.new 100)) = Cache.new 100.
Proof.
  intros req.
  assert (Hcors : ~ (cfg_cors config = true /\ method req = "OPTIONS"))
    by (intros [Hc _]; discriminate Hc).
  do 5 (split; [first [reflexivity | discriminate | exact Hcors] |]).
  apply (@other_methods_get_405 Reference.platform config (steady site) req (Cache.new 100) "/note.txt");
    first [reflexivity | discriminate | exact Hcors].
Defined.

(** Witness of claim C10. *)
Lemma vanished_file_at_set_is_answered_500_witness :
  let req := request "GET" "/note.txt" [] in
  @Static.getFileInfo Reference.platform handler (at_stat noteVanishes) "note.txt"
    = Some noteInfo /\
  Cache.isModified (fi_path noteInfo) (fi_mtime noteInfo) (Cache.new 100) = true /\
  readFileSync (at_read noteVanishes) (fi_path noteInfo) = Normal (filler 5) /\
  statSync (at_set noteVanishes) (fi_path noteInfo) = None /\
  (forall mimeType compressed c0,
      @Cache.set Reference.platform (at_set noteVanishes) (fi_path noteInfo)
        (filler 5) mimeType compressed c0 =
      (Thrown (ENOENT (fi_path noteInfo)), c0)) /\
  let w := snd (@Static.handleFileRequest Reference.platform handler noteVanishes
                  req "note.txt"
                  {| w_cache := Cache.new 100; w_res := Http.newResponse |}) in
  statusCode (w_res w) = 500 /\
  body (w_res w) = Some (Text "Internal server error") /\
  w_cache w = snd (Cache.get (fi_path noteInfo) (Cache.new 100)).
Proof.
  intros req.
  do 4 (split; [vm_compute; reflexivity |]).
  apply (@vanished_file_at_set_is_answered_500 Reference.platform handler
           noteVanishes req "note.txt" noteInfo (filler 5) (Cache.new 100));
    vm_compute; reflexivity.
Defined.

(** Witness of claim C2: the page, asked for without [Accept-Encoding]. *)
Lemma gzip_header_sent_with_raw_body_witness :
  let req := request "GET" "/index.html" [] in
  let z := Byte.x1f :: Byte.x8b :: filler 2048 in
  @Static.getFileInfo Reference.platform handler (at_stat (steady site)) "index.html"
    = Some indexInfo /\
  fi_shouldCompress indexInfo = true /\
  readFileSync (at_read (steady site)) (fi_path indexInfo) = Normal (filler 2048) /\
  @gzip Reference.platform 6 (filler 2048) = Some z /\
  is_Some (statSync (at_set (steady site)) (fi_path indexInfo)) /\
  Http.header req "if-none-match" = None /\
  Http.header req "if-modified-since" = None /\
  Gzip.acceptsGzip req = false /\
  let res := w_res (snd (@Static.handleFileRequest Reference.platform handler
                           (steady site) req "index.html"
                           {| w_cache := Cache.new 100000;
                              w_res := Http.newResponse |})) in
  statusCode res = 200 /\
  headers res !! "Content-Encoding" = Some "gzip" /\
  headers res !! "Content-Length" = Some (number_to_string (buffer_length (filler 2048))) /\
  body res = Some (Bytes (filler 2048)).
Proof.
  intros req z.
  assert (Hstat : is_Some (statSync (at_set (steady site)) (fi_path indexInfo)))
    by (vm_compute; eauto).
  do 8 (split; [first [exact Hstat | vm_compute; reflexivity] |]).
  apply (@gzip_header_sent_with_raw_body Reference.platform handler (steady site)
           req "index.html" indexInfo (filler 2048) z 100000);
    first [exact Hstat | vm_compute; reflexivity].
Defined.

(** Witness of claim C4 as amended: the ETag that the server sends. *)
Lemma validator_match_is_answered_304_witness :
  let req := request "GET" "/note.txt" [("if-none-match", fi_etag noteInfo)] in
  @Static.getFileInfo Reference.platform handler (at_stat (steady site)) "note.txt"
    = Some noteInfo /\
  @Cache.wellFormed Reference.platform warmCache /\
  JsMap.get (fi_path noteInfo) (cache warmCache) = Some noteEntry /\
  mtime noteEntry = fi_mtime noteInfo /\
  headersSent Http.newResponse = false /\
  finished Http.newResponse = false /\
  (Http.header req "if-none-match" = Some (fi_etag noteInfo) \/
   Http.header req "if-modified-since" = Some (lastModified noteEntry)) /\
  let w := snd (@Static.handleFileRequest Reference.platform handler (steady site)
                  req "note.txt"
                  {| w_cache := warmCache; w_res := Http.newResponse |}) in
  statusCode (w_res w) = 304 /\
  body (w_res w) = None /\
  finished (w_res w) = true /\
  headers (w_res w) = headers Http.newResponse.
Proof.
  intros req.
  assert (Hwf : @Cache.wellFormed Reference.platform warmCache).
  { unfold Cache.wellFormed.
    replace (cache warmCache) with [("/srv/www/note.txt", noteEntry)]
      by (vm_compute; reflexivity).
    repeat constructor; vm_compute; reflexivity. }
  assert (Hcond : Http.header req "if-none-match" = Some (fi_etag noteInfo) \/
                  Http.header req "if-modified-since" = Some (lastModified noteEntry))
    by (left; vm_compute; reflexivity).
  do 7 (split; [first [exact Hwf | exact Hcond | vm_compute; reflexivity] |]).
  apply (@validator_match_is_answered_304 Reference.platform handler (steady site)
           req "note.txt" noteInfo noteEntry warmCache Http.newResponse);
    first [exact Hwf | exact Hcond | vm_compute; reflexivity].
Defined.

(** Claim C4 as worded fails: a request that carries the etag of the cache
    entry (the quoted digest) for the unchanged, cached note is answered 200
    with the whole file. *)
Lemma entry_etag_in_if_none_match_is_answered_200 :
  let req := request "GET" "/note.txt" [("if-none-match", etag noteEntry)] in
  let w := snd (@Static.handleFileRequest Reference.platform handler (steady site)
                  req "note.txt"
                  {| w_cache := warmCache; w_res := Http.newResponse |}) in
  @Static.getFileInfo Reference.platform handler site "note.txt" = Some noteInfo /\
  JsMap.get (fi_path noteInfo) (cache warmCache) = Some noteEntry /\
  Cache.isModified (fi_path noteInfo) (fi_mtime noteInfo) warmCache = false /\
  Http.header req "if-none-match" = Some (etag noteEntry) /\
  statusCode (w_res w) = 200 /\
  statusCode (w_res w) <> 304 /\
  body (w_res w) = Some (Bytes (filler 5)).
Proof.
  vm_compute. repeat split; discriminate.
Qed.

(** Witness of claim C5 as amended. *)
Lemma decode_failure_is_answered_500_witness :
  let req := request "GET" "/%" [] in
  (method req = "GET" \/ method req = "HEAD") /\
  @URL_pathname Reference.platform (Static.requestPath req) (Server.baseOf req)
    = Some "/%" /\
  startsWith "/%" "/api/" = false /\
  @decodeURIComponent Reference.platform
    (@Static.encodedPathname Reference.platform
       (@Server.fileHandler Reference.platform config) (Static.requestPath req))
    = None /\
  let res := fst (@Server.serve Reference.platform config (steady site) req
                    (Cache.new 100)) in
  statusCode res = 500 /\
  body res = Some (Text "Internal Server Error") /\
  snd (@Server.serve Reference.platform config (steady site) req (Cache.new 100))
    = Cache.new 100.
Proof.
  intros req.
  split; [left; reflexivity |].
  do 3 (split; [vm_compute; reflexivity |]).
  apply (@decode_failure_is_answered_500 Reference.platform config (steady site)
           req (Cache.new 100) "/%");
    first [left; reflexivity | vm_compute; reflexivity].
Defined.

(** Claim C5 as worded fails: the target [/%] does not decode, and the
    answer is 500, not 404. *)
Lemma malformed_escape_is_not_answered_404 :
  let req := request "GET" "/%" [] in
  let res := fst (@Server.serve Reference.platform config (steady site) req
                    (Cache.new Cache.defaultMaxSize)) in
  @decodeURIComponent Reference.platform
    (@Static.encodedPathname Reference.platform handler (Static.requestPath req))
    = None /\
  @Static.sanitizePath Reference.platform handler (Static.requestPath req)
    = Thrown URIError /\
  statusCode res = 500 /\
  statusCode res <> 404.
Proof.
  vm_compute. repeat split; discriminate.
Qed.

(* ===================================================================== *)
(** * Concrete instances of the further properties *)
(* ===================================================================== *)

(** Instance of property X1. *)
Lemma run_sizeInvariant_witness :
  0 <= 10 /\
  @Cache.neverOverwrites Reference.platform touchThenSet (Cache.new 10) /\
  Cache.sizeInvariant (@Cache.run Reference.platform touchThenSet (Cache.new 10)).
Proof.
  split; [lia |].
  split; [vm_compute; repeat split |].
  apply (@run_sizeInvariant Reference.platform touchThenSet 10);
    [lia | vm_compute; repeat split].
Defined.

(** Instance of property X3. *)
Lemma get_after_set_witness :
  statSync twoFiles "/C" = Some (file 4 3 (filler 4)) /\
  Cache.payloadSize (filler 4) None <= 10 /\
  let c' := snd (@Cache.set Reference.platform twoFiles "/C" (filler 4)
                   "text/plain" None
                   (@Cache.run Reference.platform twoSets (Cache.new 10))) in
  fst (Cache.get "/C" c') =
    Some (@Cache.makeEntry Reference.platform (file 4 3 (filler 4)) (filler 4)
            "text/plain" None) /\
  Cache.isModified "/C" (node_mtime (file 4 3 (filler 4))) c' = false.
Proof.
  split; [reflexivity |].
  split; [vm_compute; discriminate |].
  apply (@get_after_set Reference.platform twoSets 10 twoFiles "/C"
           (file 4 3 (filler 4)) (filler 4) "text/plain" None);
    [reflexivity | vm_compute; discriminate].
Defined.

(** Instance of property X5: the cache whose counter has drifted is
    cleared. *)
Lemma clear_starts_over_witness :
  let c := @Cache.run Reference.platform overwriteUnderPressure (Cache.new 10) in
  0 <= maxSize c /\
  @Cache.neverOverwrites Reference.platform touchThenSet (Cache.clear c) /\
  Cache.getStats (Cache.clear c) =
    {| Cache.stat_size := 0; Cache.stat_count := 0;
       Cache.stat_maxSize := maxSize c |} /\
  Cache.sizeInvariant (@Cache.run Reference.platform touchThenSet (Cache.clear c)).
Proof.
  intros c.
  split; [vm_compute; discriminate |].
  split; [vm_compute; repeat split |].
  apply (@clear_starts_over Reference.platform c touchThenSet);
    [vm_compute; discriminate | vm_compute; repeat split].
Defined.

(** Instance of property X7: the third entry does not fit in ten bytes, and
    one eviction makes room. *)
Lemma set_evicts_oldest_first_witness :
  let c := @Cache.run Reference.platform twoSets (Cache.new 10) in
  Cache.mapInvariant c /\
  statSync twoFiles "/C" = Some (file 4 3 (filler 4)) /\
  Cache.payloadSize (filler 4) None <= maxSize c /\
  JsMap.get "/C" (cache c) = None /\
  exists n,
    cache (snd (@Cache.set Reference.platform twoFiles "/C" (filler 4)
                  "text/plain" None c)) =
      (skipn n (cache c) ++
       [("/C", @Cache.makeEntry Reference.platform (file 4 3 (filler 4))
                 (filler 4) "text/plain" None)])%list /\
    (forall m, (m < n)%nat ->
       maxSize c < currentSize c - Cache.entriesSize (firstn m (cache c))
                   + Cache.payloadSize (filler 4) None) /\
    (currentSize c - Cache.entriesSize (firstn n (cache c))
       + Cache.payloadSize (filler 4) None <= maxSize c \/
     n = List.length (cache c)).
Proof.
  intros c.
  assert (Hmap : Cache.mapInvariant c)
    by (split; vm_compute; repeat constructor).
  split; [exact Hmap |].
  split; [reflexivity |].
  split; [vm_compute; discriminate |].
  split; [reflexivity |].
  apply (@set_evicts_oldest_first Reference.platform c twoFiles "/C"
           (file 4 3 (filler 4)) (filler 4) "text/plain" None);
    [exact Hmap | reflexivity | vm_compute; discriminate | reflexivity].
Defined.

(** Instance of property X9: the first entry is overwritten with eight
    bytes in a cache of twenty. *)
Lemma overwrite_in_place_witness :
  let c := @Cache.run Reference.platform twoSets (Cache.new 20) in
  let old := @Cache.makeEntry Reference.platform (file 4 1 (filler 4))
               (filler 4) "text/plain" None in
  Cache.sizeInvariant c /\
  JsMap.get "/A" (cache c) = Some old /\
  statSync twoFiles "/A" = Some (file 4 1 (filler 4)) /\
  currentSize c - Cache.calculateSize old
    + Cache.payloadSize (filler 8) None <= maxSize c /\
  let c' := snd (@Cache.set Reference.platform twoFiles "/A" (filler 8)
                   "text/plain" None c) in
  Cache.sizeInvariant c' /\
  JsMap.keys (cache c') = JsMap.keys (cache c) /\
  JsMap.get "/A" (cache c') =
    Some (@Cache.makeEntry Reference.platform (file 4 1 (filler 4))
            (filler 8) "text/plain" None) /\
  currentSize c' =
    currentSize c - Cache.calculateSize old + Cache.payloadSize (filler 8) None.
Proof.
  intros c old.
  assert (Hinv : Cache.sizeInvariant c)
    by (split; vm_compute; [reflexivity | discriminate]).
  split; [exact Hinv |].
  split; [vm_compute; reflexivity |].
  split; [reflexivity |].
  split; [vm_compute; discriminate |].
  apply (@overwrite_in_place Reference.platform c twoFiles "/A"
           (file 4 1 (filler 4)) old (filler 8) "text/plain" None);
    [exact Hinv | vm_compute; reflexivity | reflexivity
    | vm_compute; discriminate].
Defined.

(** Instance of property X10: the page is asked for with gzip accepted. *)
Lemma content_length_is_body_length_witness :
  let req := request "GET" "/index.html" [("accept-encoding", "gzip, deflate")] in
  let run := @Static.handleFileRequest Reference.platform handler (steady site)
               req "index.html"
               {| w_cache := Cache.new 100000; w_res := Http.newResponse |} in
  Cache.mapInvariant (Cache.new 100000) /\
  headersSent Http.newResponse = false /\
  finished Http.newResponse = false /\
  statusCode (w_res (snd run)) = 200 /\
  exists b,
    body (w_res (snd run)) = Some (Bytes b) /\
    headers (w_res (snd run)) !! "Content-Length"
      = Some (number_to_string (buffer_length b)).
Proof.
  intros req run.
  assert (Hmap : Cache.mapInvariant (Cache.new 100000))
    by (split; constructor).
  split; [exact Hmap |].
  split; [reflexivity |].
  split; [reflexivity |].
  split; [vm_compute; reflexivity |].
  apply (@content_length_is_body_length Reference.platform handler (steady site)
           req "index.html" (Cache.new 100000) Http.newResponse);
    [exact Hmap | reflexivity | reflexivity | vm_compute; reflexivity].
Defined.

(** Instance of property X11: a request for a file that is not there. *)
Lemma handleFileRequest_always_answers_witness :
  let req := request "GET" "/missing.txt" [] in
  Cache.mapInvariant (Cache.new 100) /\
  headersSent Http.newResponse = false /\
  finished Http.newResponse = false /\
  let r := @Static.handleFileRequest Reference.platform handler (steady site)
             req "missing.txt"
             {| w_cache := Cache.new 100; w_res := Http.newResponse |} in
  fst r = Normal tt /\
  finished (w_res (snd r)) = true /\
  (statusCode (w_res (snd r)) = 200 \/ statusCode (w_res (snd r)) = 304 \/
   statusCode (w_res (snd r)) = 404 \/ statusCode (w_res (snd r)) = 500) /\
  Cache.mapInvariant (w_cache (snd r)).
Proof.
  intros req.
  assert (Hmap : Cache.mapInvariant (Cache.new 100)) by (split; constructor).
  split; [exact Hmap |].
  split; [reflexivity |].
  split; [reflexivity |].
  apply (@handleFileRequest_always_answers Reference.platform handler
           (steady site) req "missing.txt" (Cache.new 100) Http.newResponse);
    [exact Hmap | reflexivity | reflexivity].
Defined.

(** Instance of property X12: the note is edited after it has been
    cached. *)
Lemma changed_file_is_read_again_witness :
  let req := request "GET" "/note.txt" [] in
  let stat := file 7 1700000001000 (filler 7) in
  Cache.mapInvariant warmCache /\
  @Static.getFileInfo Reference.platform handler siteEdited "note.txt"
    = Some editedNoteInfo /\
  statSync siteEdited (fi_path editedNoteInfo) = Some stat /\
  Cache.isModified (fi_path editedNoteInfo) (fi_mtime editedNoteInfo) warmCache
    = true /\
  Cache.payloadSize (node_content stat)
    (if fi_shouldCompress editedNoteInfo
     then @Static.compressContent Reference.platform (node_content stat)
     else None) <= maxSize warmCache /\
  let c' := w_cache (snd (@Static.handleFileRequest Reference.platform handler
                            (steady siteEdited) req "note.txt"
                            {| w_cache := warmCache;
                               w_res := Http.newResponse |})) in
  exists entry,
    JsMap.get (fi_path editedNoteInfo) (cache c') = Some entry /\
    content entry = node_content stat /\
    mtime entry = node_mtime stat /\
    Cache.isModified (fi_path editedNoteInfo) (fi_mtime editedNoteInfo) c'
      = false.
Proof.
  intros req stat.
  assert (Hmap : Cache.mapInvariant warmCache)
    by (split; vm_compute; repeat constructor).
  split; [exact Hmap |].
  split; [vm_compute; reflexivity |].
  split; [reflexivity |].
  split; [vm_compute; reflexivity |].
  split; [vm_compute; discriminate |].
  apply (@changed_file_is_read_again Reference.platform handler siteEdited req
           "note.txt" editedNoteInfo stat warmCache Http.newResponse);
    [exact Hmap | vm_compute; reflexivity | reflexivity
    | vm_compute; reflexivity | vm_compute; discriminate].
Defined.

(** Instance of property X13: the note is removed from the disk after the
    first request. *)
Lemma repeated_request_is_served_from_cache_witness :
  let req := request "GET" "/note.txt" [] in
  let stat := file 5 1700000000000 (filler 5) in
  Cache.mapInvariant (Cache.new 100) /\
  @Static.getFileInfo Reference.platform handler site "note.txt"
    = Some noteInfo /\
  statSync site (fi_path noteInfo) = Some stat /\
  Cache.payloadSize (node_content stat)
    (if fi_shouldCompress noteInfo
     then @Static.compressContent Reference.platform (node_content stat)
     else None) <= maxSize (Cache.new 100) /\
  let first := @Static.handleFileRequest Reference.platform handler
                 (steady site) req "note.txt"
                 {| w_cache := Cache.new 100; w_res := Http.newResponse |} in
  let second := @Static.handleFileRequest Reference.platform handler
                  {| at_stat := site; at_read := siteWithoutNote;
                     at_set := siteWithoutNote |}
                  req "note.txt"
                  {| w_cache := w_cache (snd first);
                     w_res := Http.newResponse |} in
  fst second = fst first /\ w_res (snd second) = w_res (snd first).
Proof.
  intros req stat.
  assert (Hmap : Cache.mapInvariant (Cache.new 100)) by (split; constructor).
  split; [exact Hmap |].
  split; [vm_compute; reflexivity |].
  split; [reflexivity |].
  split; [vm_compute; discriminate |].
  apply (@repeated_request_is_served_from_cache Reference.platform handler site
           siteWithoutNote siteWithoutNote req "note.txt" noteInfo stat
           (Cache.new 100) Http.newResponse);
    [exact Hmap | vm_compute; reflexivity | reflexivity
    | vm_compute; discriminate].
Defined.

(** Instance of property X14: a page of exactly 1024 bytes. *)
Lemma small_files_are_not_compressed_witness :
  1024 <= 1024 /\ Static.shouldCompressFile "text/html" 1024 = false.
Proof.
  split; [lia |].
  apply (small_files_are_not_compressed "text/html" 1024). lia.
Defined.

(** Instance of property X16. *)
Lemma handler_decision_implies_module_decision_witness :
  Static.shouldCompressFile "application/json" 2048 = true /\
  Mime.shouldCompress "application/json" = true /\ 1024 < 2048.
Proof.
  split; [reflexivity |].
  apply (handler_decision_implies_module_decision "application/json" 2048).
  reflexivity.
Defined.

(** Instance of property X19. *)
Lemma etag_determines_size_and_mtime_witness :
  let s1 := file 5 1700000000000 (filler 5) in
  let s2 := file 5 1700000000000 (filler 6) in
  0 <= node_size s1 /\ 0 <= node_size s2 /\
  Static.generateETag s1 = Static.generateETag s2 /\
  node_size s1 = node_size s2 /\ node_mtime s1 = node_mtime s2.
Proof.
  intros s1 s2.
  split; [vm_compute; discriminate |].
  split; [vm_compute; discriminate |].
  split; [reflexivity |].
  apply (etag_determines_size_and_mtime s1 s2);
    [vm_compute; discriminate | vm_compute; discriminate | reflexivity].
Defined.

(** Instance of property X20. *)
Lemma server_always_answers_static_witness :
  let req := request "GET" "/note.txt" [] in
  Cache.mapInvariant (Cache.new 100) /\
  (forall pathname,
     @URL_pathname Reference.platform (Static.requestPath req) (Server.baseOf req)
       = Some pathname ->
     startsWith pathname "/api/" = false) /\
  let res := fst (@Server.serve Reference.platform config (steady site) req
                    (Cache.new 100)) in
  finished res = true /\
  (statusCode res = 200 \/ statusCode res = 304 \/ statusCode res = 404 \/
   statusCode res = 405 \/ statusCode res = 500) /\
  Cache.mapInvariant (snd (@Server.serve Reference.platform config (steady site)
                             req (Cache.new 100))).
Proof.
  intros req.
  assert (Hmap : Cache.mapInvariant (Cache.new 100)) by (split; constructor).
  assert (Hstatic : forall pathname,
     @URL_pathname Reference.platform (Static.requestPath req) (Server.baseOf req)
       = Some pathname ->
     startsWith pathname "/api/" = false).
  { intros pathname Hp. vm_compute in Hp. injection Hp as <-. reflexivity. }
  split; [exact Hmap |].
  split; [exact Hstatic |].
  apply (@server_always_answers_static Reference.platform config (steady site)
           req (Cache.new 100)); [exact Hmap | exact Hstatic].
Defined.

(** Instance of property X21. *)
Lemma fixed_headers_reach_every_static_answer_witness :
  let req := request "DELETE" "/note.txt" [] in
  Cache.mapInvariant (Cache.new 100) /\
  (forall pathname,
     @URL_pathname Reference.platform (Static.requestPath req) (Server.baseOf req)
       = Some pathname ->
     startsWith pathname "/api/" = false) /\
  (cfg_cors corsConfig = false \/ method req <> "OPTIONS") /\
  let res := fst (@Server.serve Reference.platform corsConfig (steady site) req
                    (Cache.new 100)) in
  headers res !! "X-Content-Type-Options" = Some "nosniff" /\
  headers res !! "X-Frame-Options" = Some "DENY" /\
  headers res !! "X-XSS-Protection" = Some "1; mode=block" /\
  headers res !! "Server" = Some "Gzip-Static-Server/1.0.0".
Proof.
  intros req.
  assert (Hmap : Cache.mapInvariant (Cache.new 100)) by (split; constructor).
  assert (Hstatic : forall pathname,
     @URL_pathname Reference.platform (Static.requestPath req) (Server.baseOf req)
       = Some pathname ->
     startsWith pathname "/api/" = false).
  { intros pathname Hp. vm_compute in Hp. injection Hp as <-. reflexivity. }
  assert (Hopt : cfg_cors corsConfig = false \/ method req <> "OPTIONS")
    by (right; discriminate).
  split; [exact Hmap |].
  split; [exact Hstatic |].
  split; [exact Hopt |].
  apply (@fixed_headers_reach_every_static_answer Reference.platform corsConfig
           (steady site) req (Cache.new 100));
    [exact Hmap | exact Hstatic | exact Hopt].
Defined.

(** Instance of property X22. *)
Lemma cors_preflight_answer_witness :
  let req := request "OPTIONS" "/note.txt" [] in
  cfg_cors corsConfig = true /\
  method req = "OPTIONS" /\
  let res := fst (@Server.serve Reference.platform corsConfig (steady site) req
                    (Cache.new 100)) in
  statusCode res = 200 /\ body res = None /\ finished res = true /\
  headers res =
    <["Access-Control-Allow-Headers" :=
        "Range, Accept-Encoding, If-None-Match, If-Modified-Since"]>
    (<["Access-Control-Allow-Methods" := "GET, HEAD, OPTIONS"]>
    (<["Access-Control-Allow-Origin" := "*"]> ∅)) /\
  snd (@Server.serve Reference.platform corsConfig (steady site) req
         (Cache.new 100)) = Cache.new 100.
Proof.
  intros req.
  split; [reflexivity |].
  split; [reflexivity |].
  apply (@cors_preflight_answer Reference.platform corsConfig (steady site) req
           (Cache.new 100)); reflexivity.
Defined.

(** Instance of property X23. *)
Lemma api_options_is_answered_200_witness :
  let req := request "OPTIONS" "/api/upload" [] in
  @URL_pathname Reference.platform (Static.requestPath req) (Server.baseOf req)
    = Some "/api/upload" /\
  startsWith "/api/upload" "/api/" = true /\
  method req = "OPTIONS" /\
  let res := fst (@Server.serve Reference.platform config (steady site) req
                    (Cache.new 100)) in
  statusCode res = 200 /\ body res = None /\ finished res = true /\
  headers res !! "Access-Control-Allow-Origin" = Some "*" /\
  snd (@Server.serve Reference.platform config (steady site) req
         (Cache.new 100)) = Cache.new 100.
Proof.
  intros req.
  split; [vm_compute; reflexivity |].
  split; [reflexivity |].
  split; [reflexivity |].
  apply (@api_options_is_answered_200 Reference.platform config (steady site)
           req (Cache.new 100) "/api/upload");
    [vm_compute; reflexivity | reflexivity | reflexivity].
Defined.

(** Instance of property X24: a GET on the upload route. *)
Lemma api_refusals_witness :
  let req := request "GET" "/api/upload" [] in
  @URL_pathname Reference.platform (Static.requestPath req) (Server.baseOf req)
    = Some "/api/upload" /\
  startsWith "/api/upload" "/api/" = true /\
  method req <> "OPTIONS" /\
  (method req <> "POST" \/ "/api/upload" <> "/api/upload") /\
  (method req <> "GET" \/ "/api/upload" <> "/api/files") /\
  let res := fst (@Server.serve Reference.platform config (steady site) req
                    (Cache.new 100)) in
  finished res = true /\
  snd (@Server.serve Reference.platform config (steady site) req
         (Cache.new 100)) = Cache.new 100 /\
  (if String.eqb "/api/upload" "/api/upload" then
     statusCode res = 405 /\ headers res !! "Allow" = Some "POST, OPTIONS" /\
     body res = Some (Text "Method Not Allowed")
   else if String.eqb "/api/upload" "/api/files" then
     statusCode res = 405 /\ headers res !! "Allow" = Some "GET, OPTIONS" /\
     body res = Some (Text "Method Not Allowed")
   else
     statusCode res = 404 /\
     headers res !! "Content-Type" = Some "application/json" /\
     body res = Some (Text (Server.jsonError "API endpoint not found"))).
Proof.
  intros req.
  assert (Hpost : method req <> "POST" \/ "/api/upload" <> "/api/upload")
    by (left; discriminate).
  assert (Hget : method req <> "GET" \/ "/api/upload" <> "/api/files")
    by (right; discriminate).
  split; [vm_compute; reflexivity |].
  split; [reflexivity |].
  split; [discriminate |].
  split; [exact Hpost |].
  split; [exact Hget |].
  apply (@api_refusals Reference.platform config (steady site) req
           (Cache.new 100) "/api/upload");
    [vm_compute; reflexivity | reflexivity | discriminate
    | exact Hpost | exact Hget].
Defined.

(** Instance of property X25. *)
Lemma head_is_answered_as_get_witness :
  let get := {| method := "GET"; url := "/note.txt"; req_headers := ∅ |} in
  let head := {| method := "HEAD"; url := "/note.txt"; req_headers := ∅ |} in
  (forall pathname,
     @URL_pathname Reference.platform (Static.requestPath get) (Server.baseOf get)
       = Some pathname ->
     startsWith pathname "/api/" = false) /\
  @Server.serve Reference.platform config (steady site) head (Cache.new 100) =
  @Server.serve Reference.platform config (steady site) get (Cache.new 100).
Proof.
  intros get head.
  assert (Hstatic : forall pathname,
     @URL_pathname Reference.platform (Static.requestPath get) (Server.baseOf get)
       = Some pathname ->
     startsWith pathname "/api/" = false).
  { intros pathname Hp. vm_compute in Hp. injection Hp as <-. reflexivity. }
  split; [exact Hstatic |].
  apply (@head_is_answered_as_get Reference.platform config (steady site)
           "/note.txt" ∅ (Cache.new 100)).
  exact Hstatic.
Defined.

(** Instance of property X26: a request for a directory. *)
Lemma no_regular_file_is_answered_404_witness :
  let req := request "GET" "/docs" [] in
  (method req = "GET" \/ method req = "HEAD") /\
  @URL_pathname Reference.platform (Static.requestPath req) (Server.baseOf req)
    = Some "/docs" /\
  startsWith "/docs" "/api/" = false /\
  @Static.sanitizePath Reference.platform
    (@Server.fileHandler Reference.platform config) (Static.requestPath req)
    = Normal "/docs" /\
  match statSync (at_stat (steady siteWithDocs))
          (path_join (rootDir (@Server.fileHandler Reference.platform config))
             (slice1 "/docs")) with
  | Some stat => node_isFile stat = false
  | None => True
  end /\
  let res := fst (@Server.serve Reference.platform config (steady siteWithDocs)
                    req (Cache.new 100)) in
  statusCode res = 404 /\
  body res = Some (Text "File not found") /\
  headers res !! "Content-Type" = Some "text/plain" /\
  finished res = true /\
  snd (@Server.serve Reference.platform config (steady siteWithDocs) req
         (Cache.new 100)) = Cache.new 100.
Proof.
  intros req.
  assert (Hmethod : method req = "GET" \/ method req = "HEAD")
    by (left; reflexivity).
  split; [exact Hmethod |].
  split; [vm_compute; reflexivity |].
  split; [reflexivity |].
  split; [vm_compute; reflexivity |].
  split; [vm_compute; reflexivity |].
  apply (@no_regular_file_is_answered_404 Reference.platform config
           (steady siteWithDocs) req (Cache.new 100) "/docs" "/docs");
    [exact Hmethod | vm_compute; reflexivity | reflexivity
    | vm_compute; reflexivity | vm_compute; reflexivity].
Defined.

(** Instance of property X28. *)
Lemma compressible_types_are_text_witness :
  Mime.shouldCompress "application/json" = true /\
  (Mime.isTextFile "application/json" = true \/
   startsWith "application/json" "application/wasm" = true).
Proof.
  split; [reflexivity |].
  apply (compressible_types_are_text "application/json"). reflexivity.
Defined.

